(** * POD Intelligence Suite: request orchestration core

    A shallow embedding of the orchestration layer of the application:

    - [extractPrompts]          (src/App.tsx)
    - [withRetry], [generateKit], [analyzeImage], [editImageWithGemini],
      [generatePreviewImages]   (the Gemini service module)

    JavaScript strings are modelled as [string], the sequence of the bytes
    of their UTF-8 encoding; the numbers that occur (attempt counters,
    delays in milliseconds, status codes) are integers and are modelled in
    [Z].  Doubling a delay is exact on the JavaScript side too, so no
    rounding is involved. *)

From Stdlib Require Import ZArith List String Ascii Bool Lia DecimalString.
Import ListNotations.

Local Open Scope string_scope.
Local Open Scope list_scope.
Local Open Scope Z_scope.

(** ** String primitives of the host language *)

Module Js.

Definition nl : ascii := ascii_of_nat 10.
Definition dq : ascii := ascii_of_nat 34.

(** [s.startsWith(p)] *)
Fixpoint startsWith (p s : string) : bool :=
  match p, s with
  | EmptyString, _ => true
  | String a p', String b s' => Ascii.eqb a b && startsWith p' s'
  | String _ _, EmptyString => false
  end.

(** [s.includes(p)] *)
Fixpoint includes (p s : string) : bool :=
  startsWith p s ||
  match s with
  | EmptyString => false
  | String _ s' => includes p s'
  end.

(** [s.split(c)] for a separator of one character.  The result is never
    empty: a string with no separator is returned as its only field. *)
Fixpoint split (c : ascii) (s : string) : list string :=
  match s with
  | EmptyString => [EmptyString]
  | String a s' =>
      if Ascii.eqb a c then EmptyString :: split c s'
      else match split c s' with
           | [] => [String a EmptyString]
           | f :: fs => String a f :: fs
           end
  end.

(** [lines.join(c)], the inverse of [split] on fields free of [c]. *)
Fixpoint join (c : ascii) (l : list string) : string :=
  match l with
  | [] => EmptyString
  | [f] => f
  | f :: fs => (f ++ String c (join c fs))%string
  end.

(** A string stands for the UTF-8 encoding of the JavaScript string.
    [trim] removes the white space and line terminator characters of the
    language: those of one byte are the tab, line feed, vertical tab, form
    feed, carriage return and space; *)
Definition isSpace (a : ascii) : bool :=
  let n := nat_of_ascii a in
  ((9 <=? n) && (n <=? 13))%nat || (n =? 32)%nat.

(** the one of two bytes is the no-break space U+00A0 (C2 A0); *)
Definition isSpace2 (a b : ascii) : bool :=
  ((nat_of_ascii a =? 194) && (nat_of_ascii b =? 160))%nat.

(** those of three bytes are U+1680 (E1 9A 80), U+2000 to U+200A
    (E2 80 80 to E2 80 8A), the line and paragraph separators U+2028 and
    U+2029 (E2 80 A8, E2 80 A9), U+202F (E2 80 AF), U+205F (E2 81 9F),
    U+3000 (E3 80 80) and the byte order mark U+FEFF (EF BB BF). *)
Definition isSpace3 (a b c : ascii) : bool :=
  let x := nat_of_ascii a in
  let y := nat_of_ascii b in
  let z := nat_of_ascii c in
  (((x =? 225) && (y =? 154) && (z =? 128))
   || ((x =? 226) && (y =? 128)
       && (((128 <=? z) && (z <=? 138)) || (z =? 168) || (z =? 169)
           || (z =? 175)))
   || ((x =? 226) && (y =? 129) && (z =? 159))
   || ((x =? 227) && (y =? 128) && (z =? 128))
   || ((x =? 239) && (y =? 187) && (z =? 191)))%nat.

(** The string of the given bytes. *)
Definition utf8 (bytes : list nat) : string :=
  fold_right (fun n s => String (ascii_of_nat n) s) EmptyString bytes.

(** The same characters, one by one. *)
Definition whiteSpace : list string :=
  map utf8
    [[9]; [10]; [11]; [12]; [13]; [32]; [194; 160]; [225; 154; 128];
     [226; 128; 128]; [226; 128; 129]; [226; 128; 130]; [226; 128; 131];
     [226; 128; 132]; [226; 128; 133]; [226; 128; 134]; [226; 128; 135];
     [226; 128; 136]; [226; 128; 137]; [226; 128; 138]; [226; 128; 168];
     [226; 128; 169]; [226; 128; 175]; [226; 129; 159]; [227; 128; 128];
     [239; 187; 191]]%nat.

(** A character of one byte that is not white space. *)
Definition visible (a : ascii) : bool :=
  (nat_of_ascii a <? 128)%nat && negb (isSpace a).

(** The string less its first character, when that is white space. *)
Definition dropSpace (s : string) : option string :=
  match s with
  | EmptyString => None
  | String a s1 =>
      if isSpace a then Some s1
      else match s1 with
           | EmptyString => None
           | String b s2 =>
               if isSpace2 a b then Some s2
               else match s2 with
                    | EmptyString => None
                    | String c s3 => if isSpace3 a b c then Some s3 else None
                    end
           end
  end.

(** [s.trimStart()] *)
Fixpoint trimStart (s : string) : string :=
  match s with
  | EmptyString => EmptyString
  | String a s1 =>
      if isSpace a then trimStart s1
      else match s1 with
           | EmptyString => s
           | String b s2 =>
               if isSpace2 a b then trimStart s2
               else match s2 with
                    | EmptyString => s
                    | String c s3 =>
                        if isSpace3 a b c then trimStart s3 else s
                    end
           end
  end.

(** [s.trimEnd()]: the string is cut where what is left of it is white
    space only. *)
Fixpoint trimEnd (s : string) : string :=
  match s with
  | EmptyString => EmptyString
  | String a s' =>
      match trimStart s with
      | EmptyString => EmptyString
      | _ => String a (trimEnd s')
      end
  end.

(** [s.trim()] *)
Definition trim (s : string) : string := trimEnd (trimStart s).

(** [s.endsWith(p)] *)
Fixpoint endsWith (p s : string) : bool :=
  String.eqb p s ||
  match s with
  | EmptyString => false
  | String _ s' => endsWith p s'
  end.

(** [s.replace(/\*\*/g, '')]: one pass from the left, matches do not
    overlap. *)
Fixpoint stripBold (s : string) : string :=
  match s with
  | EmptyString => EmptyString
  | String a s' =>
      match s' with
      | String b s'' =>
          if Ascii.eqb a "*" && Ascii.eqb b "*" then stripBold s''
          else String a (stripBold s')
      | EmptyString => String a EmptyString
      end
  end.

(** [s.replace(/\[|\]/g, '')] *)
Fixpoint stripBrackets (s : string) : string :=
  match s with
  | EmptyString => EmptyString
  | String a s' =>
      if Ascii.eqb a "[" || Ascii.eqb a "]" then stripBrackets s'
      else String a (stripBrackets s')
  end.

(** Truthiness of a string: only the empty string is falsy. *)
Definition truthy (s : string) : bool :=
  match s with EmptyString => false | _ => true end.

(** [`${n}`] for a natural number. *)
Definition ofNat (n : nat) : string := NilEmpty.string_of_uint (Nat.to_uint n).

(** [`${x}`] for a value that may be [undefined]. *)
Definition ofOption (o : option string) : string :=
  match o with Some s => s | None => "undefined" end.

End Js.

(** ** [extractPrompts] (src/App.tsx) *)

Definition headerMarker : string := "| VARIATION | IMAGE PROMPT |".

(** The state of the scan: the prompts pushed so far (in order) and the
    [inTable] flag. *)
Definition scanLine (st : list string * bool) (line : string)
  : list string * bool :=
  let '(prompts, inTable) := st in
  if Js.includes headerMarker line then (prompts, true)
  else
    let prompts1 :=
      if inTable && Js.includes "|" line then
        let columns := Js.split "|" line in
        if (3 <=? List.length columns)%nat then
          let prompt := Js.trim (nth 2 columns "") in
          if Js.truthy prompt
             && negb (Js.includes "---" prompt)
             && negb (Js.includes "IMAGE PROMPT" prompt)
          then prompts ++ [Js.stripBold prompt]
          else prompts
        else prompts
      else prompts in
    let inTable1 :=
      if inTable && String.eqb (Js.trim line) ""
         && (0 <? List.length prompts1)%nat
      then false else inTable in
    (prompts1, inTable1).

Definition extractPrompts (markdown : string) : list string :=
  let lines := Js.split Js.nl markdown in
  let '(prompts, _) := fold_left scanLine lines ([], false) in
  firstn 6 prompts.

(** *** The shape of a kit document, for the statements about the parser *)

(** A string that holds no line feed. *)
Definition oneLine (line : string) : bool :=
  negb (Js.includes (String Js.nl EmptyString) line).

(** A line outside the table: any line without the header marker. *)
Definition plainLine (line : string) : bool :=
  oneLine line && negb (Js.includes headerMarker line).

(** The third column of a row, trimmed. *)
Definition promptCell (row : string) : string :=
  Js.trim (nth 2 (Js.split "|" row) "").

(** A data row of the table: a line, not a header line, of at least three
    columns, the third of which is not empty, holds no separator marker
    and does not repeat the header text. *)
Definition dataRow (row : string) : bool :=
  plainLine row
  && (3 <=? List.length (Js.split "|" row))%nat
  && Js.truthy (promptCell row)
  && negb (Js.includes "---" (promptCell row))
  && negb (Js.includes "IMAGE PROMPT" (promptCell row)).

(** What may follow the table: nothing, or a blank line and then lines
    without the header marker. *)
Definition afterTable (rest : list string) : bool :=
  match rest with
  | [] => true
  | blank :: more =>
      String.eqb (Js.trim blank) "" && forallb plainLine (blank :: more)
  end.

(** ** Data model (types module and the remote service boundary) *)

Inductive ImageSize := Size1K | Size2K | Size4K.

Inductive AspectRatio :=
  | AR_1_1 | AR_2_3 | AR_3_2 | AR_3_4 | AR_4_3 | AR_9_16 | AR_16_9 | AR_21_9.

Record GeneratedAsset := mkAsset { url : string; prompt : string }.

(** Inline binary data of a content part; both fields are optional in the
    SDK's type. *)
Record InlineData := mkInline { mimeType : option string; data : option string }.

Record Part := mkPart { partText : option string; inlineData : option InlineData }.

Record Content := mkContent { parts : option (list Part) }.

Record Candidate := mkCandidate { content : option Content }.

Record GenerateContentResponse :=
  mkResponse { text : option string; candidates : option (list Candidate) }.

Record ImageConfig :=
  mkImageConfig { aspectRatio : AspectRatio; imageSize : option ImageSize }.

Record Config := mkConfig {
  systemInstruction : option string;
  temperature : option Z;
  thinkingBudget : option Z;          (* [thinkingConfig: { thinkingBudget }] *)
  imageConfig : option ImageConfig
}.

Record Request := mkRequest {
  model : string;
  contents : list Part;               (* [contents: { parts }] *)
  config : option Config
}.

(** A thrown value, as far as [withRetry] inspects it: [error?.status] and
    [error?.message]. *)
Record JsError := mkError { status : option Z; message : option string }.

(** What a run does to the outside, in order.  The callbacks that the
    user interface hands in are observers: an invocation is recorded with
    its argument and has no other bearing on the run. *)
Inductive event :=
  | EvCall (req : Request)                   (* [models.generateContent(req)] *)
  | EvSleep (ms : Z)                         (* [await sleep(ms)] *)
  | EvOnRetry (msg : string)                 (* [onRetry(msg)] *)
  | EvAssetReady (asset : GeneratedAsset)    (* [onAssetReady(asset)] *)
  | EvWarn (attempt waitTime : Z)            (* [console.warn(...)] *)
  | EvConsoleError (msg : string) (err : JsError).   (* [console.error(msg, err)] *)

Definition isCall (e : event) : bool :=
  match e with EvCall _ => true | _ => false end.
Definition isOnRetry (e : event) : bool :=
  match e with EvOnRetry _ => true | _ => false end.
Definition isAssetReady (e : event) : bool :=
  match e with EvAssetReady _ => true | _ => false end.
Definition isConsoleError (e : event) : bool :=
  match e with EvConsoleError _ _ => true | _ => false end.

(** The durations slept, in order. *)
Definition sleeps (t : list event) : list Z :=
  flat_map (fun e => match e with EvSleep ms => [ms] | _ => [] end) t.

Definition count (p : event -> bool) (t : list event) : nat :=
  List.length (filter p t).

(** ** The instruction template ([getSystemInstruction]) *)

Definition quote : string := String Js.dq EmptyString.

Definition visualRuleTshirt : string :=
  ("
- For T-shirts and Stickers, the design MUST be the raw artwork on a solid white background.
- ALWAYS add to the prompt: "
       ++ quote ++ "isolated on white background"
       ++ quote ++ ", "
       ++ quote ++ "No background"
       ++ quote ++ ", "
       ++ quote ++ "Clean edges"
       ++ quote ++ ", "
       ++ quote ++ "Vector style"
       ++ quote ++ ", "
       ++ quote ++ "High contrast"
       ++ quote ++ ", "
       ++ quote ++ "Professional graphic"
       ++ quote ++ ", "
       ++ quote ++ "300 DPI print quality"
       ++ quote ++ ", "
       ++ quote ++ "Ultra-detailed textures"
       ++ quote ++ ".
- NO mockups, NO models, NO hangers. Just the flat design.")%string.

Definition visualRuleInvitation : string :=
  ("
- For Invitation Cards, the design MUST be a standard 5x7 inch vertical or horizontal layout.
- The prompts should describe a complete, beautiful card layout including decorative borders or background patterns suitable for printing.
- Mention "
       ++ quote ++ "5x7 inch layout"
       ++ quote ++ ", "
       ++ quote ++ "high resolution 300 DPI print quality"
       ++ quote ++ ", "
       ++ quote ++ "elegant typography placement"
       ++ quote ++ ", "
       ++ quote ++ "Sharp focus"
       ++ quote ++ ".")%string.

Definition cardTemplateText : string :=
  "
**CARD TEMPLATE TEXT:**
Join us for: [Event Name]
Date: [Date Placeholder]
Time: [Time Placeholder]
Location: [Address Placeholder]
RSVP to: [Contact Placeholder]".

Definition getSystemInstruction (productType : string) : string :=
  ("You are a world-class Print-on-Demand (POD) expert, Etsy SEO specialist, and intellectual property attorney.

YOUR OBJECTIVE:
Based on an image or an idea provided by the user (Invitation or T-shirt), you must generate a complete sales kit in English targeted at high-converting e-commerce platforms like Etsy and Shopify.

COPYRIGHT GOLDEN RULE:
If the input contains copyrighted elements (Brands, Disney, Marvel, Bands, Famous Characters), you MUST create an "
       ++ quote ++ "Inspired by"
       ++ quote ++ " design that is legally safe.
- Keep the concept, emotion, colors, and style.
- Remove logos, proper names, and exact faces.
- Transform specific elements into generic artistic archetypes.

VISUAL GOLDEN RULE (POD):
"
   ++ (if String.eqb productType "TSHIRT"
       then visualRuleTshirt else visualRuleInvitation)
   ++ "

STYLE DIVERSITY RULE:
Generate exactly 6 HIGHLY DISTINCT image prompts in ENGLISH to maximize Etsy conversion across different buyer personas. They should cover these 6 distinct styles:
1. Vintage Retro (70s/80s nostalgia)
2. Minimalist Line Art (Modern chic)
3. Hand-drawn Watercolor (Soft/Dreamy)
4. Bold Distressed Typography (Urban/Street)
5. Cyberpunk / Neon (Futuristic)
6. Boho Chic / Earthy (Nature/Organic)

FORMAT YOUR RESPONSE EXACTLY LIKE THIS:

| VARIATION | IMAGE PROMPT |
| :--- | :--- |
| 1 | [Prompt 1] |
| 2 | [Prompt 2] |
... and so on until 6 ...

---
**TITLE & SEO (Etsy/Google)**
**Main Title (140 chars):** [Optimized title with keywords first]
**Keywords (Tags):** [13 long-tail tags separated by commas]

---
**PRODUCT DESCRIPTION**
**Hook:** [Emotional hook]
**Details:** [Usage, aesthetic, and quality for "
   ++ (if String.eqb productType "TSHIRT"
       then "T-shirt" else "5x7 Inch Invitation Card")
   ++ "]
"
   ++ (if String.eqb productType "INVITATION" then cardTemplateText else "")
   ++ "
**Why you'll love it:**
✅ [Benefit 1]
✅ [Benefit 2]
✅ [Benefit 3]")%string.

(** ** The service module *)

Section Service.

(** The remote generation service: an arbitrary state machine answering
    each request with a response or an error. *)
Variable RemoteState : Type.
Variable remote :
  Request -> RemoteState -> (JsError + GenerateContentResponse) * RemoteState.

(** An asynchronous computation: from the state of the remote service to
    a result or a thrown error, the new state and the events emitted. *)
Record Run (A : Type) :=
  mkRun { res : JsError + A; st : RemoteState; tr : list event }.
Arguments mkRun {A}.
Arguments res {A}.
Arguments st {A}.
Arguments tr {A}.

Definition M (A : Type) : Type := RemoteState -> Run A.

Definition ret {A} (a : A) : M A := fun s => mkRun (inr a) s [].

Definition throw {A} (e : JsError) : M A := fun s => mkRun (inl e) s [].

Definition bind {A B} (m : M A) (k : A -> M B) : M B :=
  fun s =>
    let r := m s in
    match res r with
    | inl e => mkRun (inl e) (st r) (tr r)
    | inr a => let r' := k a (st r) in
               mkRun (res r') (st r') (tr r ++ tr r')
    end.

(** [try { m } catch (e) { h e }] *)
Definition tryCatch {A} (m : M A) (h : JsError -> M A) : M A :=
  fun s =>
    let r := m s in
    match res r with
    | inr _ => r
    | inl e => let r' := h e (st r) in
               mkRun (res r') (st r') (tr r ++ tr r')
    end.

Definition emit (e : event) : M unit := fun s => mkRun (inr tt) s [e].

Definition when (b : bool) (m : M unit) : M unit := if b then m else ret tt.

Notation "x <- m ;; k" := (bind m (fun x => k))
  (at level 61, m at next level, right associativity).
Notation "m ;; k" := (bind m (fun _ => k))
  (at level 61, right associativity).

(** [await sleep(ms)]: time passes, the run is otherwise unchanged. *)
Definition sleep (ms : Z) : M unit := emit (EvSleep ms).

(** [getAIClient().models.generateContent(req)] *)
Definition generateContent (req : Request) : M GenerateContentResponse :=
  fun s => let '(r, s') := remote req s in mkRun r s' [EvCall req].

(** *** [withRetry] *)

Definition statusIs (e : JsError) (code : Z) : bool :=
  match status e with Some c => c =? code | None => false end.

(** [error?.message || ""] *)
Definition messageOf (e : JsError) : string :=
  match message e with Some m => m | None => "" end.

Definition isQuotaError (e : JsError) : bool :=
  let msg := messageOf e in
  statusIs e 429 || Js.includes "429" msg
  || Js.includes "RESOURCE_EXHAUSTED" msg || Js.includes "quota" msg.

Definition maxRetriesError : JsError :=
  mkError None (Some "Maximum retries reached due to API quota limits.").

Section WithRetry.
Context {T : Type}.
Variable fn : M T.
Variable retries : Z.
Variable onRetry : bool.   (* whether the optional callback is supplied *)

(** The [for] loop; [remaining] counts the iterations left, so that
    [i < retries] holds exactly while [remaining] is not zero. *)
Fixpoint withRetryLoop (remaining : nat) (i currentDelay : Z) : M T :=
  match remaining with
  | O => throw maxRetriesError
  | S remaining' =>
      tryCatch fn (fun error =>
        let isQuota := isQuotaError error in
        if (i <? retries - 1) && (isQuota || statusIs error 500) then
          let waitTime := if isQuota then 75000 else currentDelay in
          when onRetry
            (emit (EvOnRetry (if isQuota
                              then "Rate limit hit. Cooling down for 75s..."
                              else "Server busy. Retrying...")));;
          emit (EvWarn (i + 1) waitTime);;
          sleep waitTime;;
          withRetryLoop remaining' (i + 1) (currentDelay * 2)
        else throw error)
  end.
End WithRetry.

Definition withRetry {T} (fn : M T) (retries initialDelay : Z)
    (onRetry : bool) : M T :=
  withRetryLoop fn retries onRetry (Z.to_nat retries) 0 initialDelay.

(** The test guarding a retry, and what a retry emits before the next
    attempt, named for use in the statements below. *)
Definition retryable (retries i : Z) (e : JsError) : bool :=
  (i <? retries - 1) && (isQuotaError e || statusIs e 500).

Definition waitTime (currentDelay : Z) (e : JsError) : Z :=
  if isQuotaError e then 75000 else currentDelay.

Definition retryEvents (onRetry : bool) (i currentDelay : Z) (e : JsError)
  : list event :=
  (if onRetry
   then [EvOnRetry (if isQuotaError e
                    then "Rate limit hit. Cooling down for 75s..."
                    else "Server busy. Retrying...")]
   else [])
  ++ [EvWarn (i + 1) (waitTime currentDelay e);
      EvSleep (waitTime currentDelay e)].

(** *** [generateKit] and [analyzeImage] *)

Record KitOptions := mkKitOptions {
  imageBase64 : option string;
  thinkingMode : bool;
  fastMode : bool
}.

(** [{ inlineData: { mimeType: 'image/jpeg', data: img.split(',')[1] } }] *)
Definition jpegPart (img : string) : Part :=
  mkPart None (Some (mkInline (Some "image/jpeg") (nth_error (Js.split "," img) 1))).

Definition textPart (s : string) : Part := mkPart (Some s) None.

Definition kitRequest (input productType : string) (options : KitOptions)
  : Request :=
  let parts0 :=
    [textPart ("User Input: " ++ input ++ String Js.nl "Product Type: "
               ++ productType)%string] in
  let parts1 :=
    match imageBase64 options with
    | Some img => if Js.truthy img then parts0 ++ [jpegPart img] else parts0
    | None => parts0
    end in
  let model :=
    if thinkingMode options then "gemini-3-pro-preview"
    else if fastMode options then "gemini-flash-lite-latest"
    else "gemini-3-flash-preview" in
  let config0 :=
    mkConfig (Some (getSystemInstruction productType)) (Some 1) None None in
  let config1 :=
    if thinkingMode options
    then mkConfig (systemInstruction config0) (temperature config0)
                  (Some 32768) (imageConfig config0)
    else config0 in
  mkRequest model parts1 (Some config1).

(** [x || fallback] on an optional string *)
Definition orElse (x : option string) (fallback : string) : string :=
  match x with
  | Some s => if Js.truthy s then s else fallback
  | None => fallback
  end.

Definition generateKit (input productType : string) (options : KitOptions)
  : M string :=
  response <- withRetry (generateContent (kitRequest input productType options))
                        3 5000 false;;
  ret (orElse (text response) "Error generating the kit content.").

Definition analyzeRequest (img : string) : Request :=
  mkRequest "gemini-3-pro-preview"
    [jpegPart img;
     textPart "Analyze this image for a Print-on-Demand business. What are the key visual elements, the target audience, and potential Etsy keywords?"]
    None.

Definition analyzeImage (img : string) : M string :=
  response <- withRetry (generateContent (analyzeRequest img)) 2 5000 false;;
  ret (orElse (text response) "Could not analyze image.").

(** *** The image loops *)

(** [response.candidates?.[0]?.content?.parts] *)
Definition responseParts (r : GenerateContentResponse) : option (list Part) :=
  match candidates r with
  | Some (c :: _) =>
      match content c with
      | Some ct => parts ct
      | None => None
      end
  | _ => None
  end.

(** The inline data of the first part that carries some (the [for] loop
    over the parts leaves at its first push). *)
Fixpoint firstInline (ps : list Part) : option InlineData :=
  match ps with
  | [] => None
  | p :: ps' =>
      match inlineData p with
      | Some d => Some d
      | None => firstInline ps'
      end
  end.

Definition responseImage (r : GenerateContentResponse) : option InlineData :=
  match responseParts r with
  | Some ps => firstInline ps
  | None => None
  end.

Definition pngUrl (d : InlineData) : string :=
  ("data:image/png;base64," ++ Js.ofOption (data d))%string.

Definition editRequest (img prompt : string) (i : nat) : Request :=
  mkRequest "gemini-2.5-flash-image"
    [jpegPart img;
     textPart (prompt ++ ". Variation " ++ Js.ofNat (i + 1)
               ++ ". Ensure output is PNG format.")%string]
    (Some (mkConfig None None None (Some (mkImageConfig AR_1_1 None)))).

(** The body of the [try] block cannot throw after [withRetry] has
    returned, so [results] as the [catch] block sees it is [results] as it
    was when the iteration began. *)
(** The retry-wrapped remote call of iteration [i]. *)
Definition editCall (img prompt : string) (i : nat)
  : M GenerateContentResponse :=
  withRetry (generateContent (editRequest img prompt i)) 2 65000 false.

Definition editIteration (img prompt : string) (i : nat)
    (results : list GeneratedAsset) : M (list GeneratedAsset) :=
  tryCatch
    (response <- editCall img prompt i;;
     let results1 :=
       match responseImage response with
       | Some d => results ++ [mkAsset (pngUrl d) prompt]
       | None => results
       end in
     when (i <? 5)%nat (sleep 45000);;   (* Respect rate limit *)
     ret results1)
    (fun err => emit (EvConsoleError "Edit failed" err);; ret results).

(** [for (let i = 0; i < 6; i++)], entered at [i] with [remaining = 6 - i]. *)
Fixpoint editLoop (img prompt : string) (remaining i : nat)
    (results : list GeneratedAsset) : M (list GeneratedAsset) :=
  match remaining with
  | O => ret results
  | S remaining' =>
      results1 <- editIteration img prompt i results;;
      editLoop img prompt remaining' (i + 1)%nat results1
  end.

Definition editImageWithGemini (img prompt : string)
  : M (list GeneratedAsset) :=
  editLoop img prompt 6 0 [].

Record PreviewOptions := mkPreviewOptions {
  useHighQuality : bool;
  size : option ImageSize;
  aspectRatioOpt : option AspectRatio
}.

Definition cleanPrompt (prompt : string) : string :=
  Js.trim (Js.stripBrackets (Js.stripBold prompt)).

Definition previewRequest (options : PreviewOptions) (prompt : string)
  : Request :=
  let modelName :=
    if useHighQuality options then "gemini-3-pro-image-preview"
    else "gemini-2.5-flash-image" in
  let ratio :=
    match aspectRatioOpt options with Some r => r | None => AR_1_1 end in
  let imageSize1 :=
    if useHighQuality options then size options else None in
  mkRequest modelName [textPart (cleanPrompt prompt)]
    (Some (mkConfig None None None (Some (mkImageConfig ratio imageSize1)))).

(** The retry-wrapped remote call for one prompt. *)
Definition previewCall (options : PreviewOptions) (onCooldownStart : bool)
    (prompt : string) : M GenerateContentResponse :=
  withRetry (generateContent (previewRequest options prompt))
            2 65000 onCooldownStart.

Section Preview.
Variable prompts : list string.
Variable options : PreviewOptions.
Variable onAssetReady : bool.      (* whether the callback is supplied *)
Variable onCooldownStart : bool.   (* whether the callback is supplied *)

Definition previewIteration (i : nat) (results : list GeneratedAsset)
  : M (list GeneratedAsset) :=
  let prompt := nth i prompts "" in
  results1 <-
    tryCatch
      (response <- previewCall options onCooldownStart prompt;;
       match responseImage response with
       | Some d =>
           let asset := mkAsset (pngUrl d) (cleanPrompt prompt) in
           when onAssetReady (emit (EvAssetReady asset));;
           ret (results ++ [asset])
       | None => ret results
       end)
      (fun err =>
         emit (EvConsoleError
                 ("Skipping variation due to limit: " ++ prompt)%string err);;
         ret results);;
  when (Z.of_nat i <? Z.of_nat (List.length prompts) - 1) (sleep 45000);;
  ret results1.

(** [for (let i = 0; i < prompts.length; i++)], entered at [i] with
    [remaining = prompts.length - i]. *)
Fixpoint previewLoop (remaining i : nat) (results : list GeneratedAsset)
  : M (list GeneratedAsset) :=
  match remaining with
  | O => ret results
  | S remaining' =>
      results1 <- previewIteration i results;;
      previewLoop remaining' (i + 1)%nat results1
  end.

Definition generatePreviewImages : M (list GeneratedAsset) :=
  previewLoop (List.length prompts) 0 [].

(** The loop as entered at index [i]. *)
Definition previewFrom (i : nat) (results : list GeneratedAsset)
  : M (list GeneratedAsset) :=
  previewLoop (List.length prompts - i) i results.

(** The fixed delay that ends iteration [i]: none after the last. *)
Definition pauseAfter (i : nat) : list event :=
  if Z.of_nat i <? Z.of_nat (List.length prompts) - 1
  then [EvSleep 45000] else [].
End Preview.

(** *** Observations used to state the properties *)

(** The state of the remote service after [n] invocations of [fn] in a
    row, none of the callers' own actions touching that state. *)
Fixpoint stateAfter {T} (fn : M T) (n : nat) (s : RemoteState)
  : RemoteState :=
  match n with
  | O => s
  | S n' => stateAfter fn n' (st (fn s))
  end.

(** The outcome of attempt number [n], counted from 1. *)
Definition attempt {T} (fn : M T) (n : nat) (s : RemoteState) : JsError + T :=
  res (fn (stateAfter fn (Nat.pred n) s)).

(** An operation that is one remote call and nothing else. *)
Definition singleCall {T} (fn : M T) : Prop :=
  forall s, exists req, tr (fn s) = [EvCall req].

(** The outcomes of the retry-wrapped calls of the edit loop, in order. *)
Fixpoint editOutcomes (img prompt : string) (remaining i : nat)
    (s : RemoteState) : list (JsError + GenerateContentResponse) :=
  match remaining with
  | O => []
  | S remaining' =>
      let r := editCall img prompt i s in
      res r :: editOutcomes img prompt remaining' (i + 1)%nat (st r)
  end.

End Service.

Arguments mkRun {RemoteState A}.
Arguments res {RemoteState A}.
Arguments st {RemoteState A}.
Arguments tr {RemoteState A}.
Arguments ret {RemoteState A}.
Arguments throw {RemoteState A}.
Arguments bind {RemoteState A B}.
Arguments tryCatch {RemoteState A}.
Arguments emit {RemoteState}.
Arguments when {RemoteState}.
Arguments sleep {RemoteState}.
Arguments generateContent {RemoteState}.
Arguments withRetryLoop {RemoteState T}.
Arguments withRetry {RemoteState T}.
Arguments generateKit {RemoteState}.
Arguments analyzeImage {RemoteState}.
Arguments editCall {RemoteState}.
Arguments editIteration {RemoteState}.
Arguments editLoop {RemoteState}.
Arguments editImageWithGemini {RemoteState}.
Arguments previewCall {RemoteState}.
Arguments previewIteration {RemoteState}.
Arguments previewLoop {RemoteState}.
Arguments previewFrom {RemoteState}.
Arguments generatePreviewImages {RemoteState}.
Arguments stateAfter {RemoteState T}.
Arguments attempt {RemoteState T}.
Arguments singleCall {RemoteState T}.
Arguments editOutcomes {RemoteState}.

(** Outcomes that are successes, and successes that carry an image. *)
Definition succeeded (o : JsError + GenerateContentResponse) : bool :=
  match o with inr _ => true | inl _ => false end.

Definition deliveredImage (o : JsError + GenerateContentResponse) : bool :=
  match o with
  | inr r => match responseImage r with Some _ => true | None => false end
  | inl _ => false
  end.

(** The asset an outcome contributes to the result of the edit loop. *)
Definition deliveredAssets (prompt : string)
    (o : JsError + GenerateContentResponse) : list GeneratedAsset :=
  match o with
  | inr r => match responseImage r with
             | Some d => [mkAsset (pngUrl d) prompt]
             | None => []
             end
  | inl _ => []
  end.

(** The asset built from the image answering prompt number [i]. *)
Definition assetFor (prompts : list string) (i : nat) (d : InlineData)
  : GeneratedAsset :=
  mkAsset (pngUrl d) (cleanPrompt (nth i prompts "")).

(** A response whose [text] is [undefined] or empty. *)
Definition noText (r : GenerateContentResponse) : bool :=
  match text r with Some t => negb (Js.truthy t) | None => true end.

(** The requests sent to the remote service, in order. *)
Definition calls (t : list event) : list Request :=
  flat_map (fun e => match e with EvCall q => [q] | _ => [] end) t.

(** Every remote call of the trace carries the request [req]. *)
Definition callsCarry (req : Request) (t : list event) : Prop :=
  Forall (fun e => match e with EvCall q => q = req | _ => True end) t.

(** The assets handed to [onAssetReady], in order. *)
Definition announced (t : list event) : list GeneratedAsset :=
  flat_map (fun e => match e with EvAssetReady a => [a] | _ => [] end) t.

(** The messages handed to [onRetry], in order. *)
Definition retryMessages (t : list event) : list string :=
  flat_map (fun e => match e with EvOnRetry msg => [msg] | _ => [] end) t.

(** Calls and waits, in the order in which they happen. *)
Inductive tick := Called | Slept (ms : Z).

Definition timeline (t : list event) : list tick :=
  flat_map (fun e => match e with
                     | EvCall _ => [Called]
                     | EvSleep ms => [Slept ms]
                     | _ => []
                     end) t.

(** [attempts] calls, with a wait before each call but the first: [d]
    before the second and twice the previous wait before each later one. *)
Fixpoint backoff (attempts : nat) (d : Z) : list tick :=
  match attempts with
  | O => []
  | S n =>
      Called :: match n with
                | O => []
                | S _ => Slept d :: backoff n (d * 2)
                end
  end.

(** Calls, invocations of the retry callback and waits, in the order in
    which they happen. *)
Inductive step := Attempt | Notice (msg : string) | Wait (ms : Z).

Definition steps (t : list event) : list step :=
  flat_map (fun e => match e with
                     | EvCall _ => [Attempt]
                     | EvOnRetry msg => [Notice msg]
                     | EvSleep ms => [Wait ms]
                     | _ => []
                     end) t.

(** What lies between a failed call and the next one: the callback, when
    there is one, told the message, then one wait; the next call follows. *)
Definition retryRound (onRetry : bool) (round : string * Z) : list step :=
  (if onRetry then [Notice (fst round)] else [])
  ++ [Wait (snd round); Attempt].

(** The fixed delay between two calls of an image loop. *)
Definition isPause (e : event) : bool :=
  match e with EvSleep ms => ms =? 45000 | _ => false end.

(** The requests of the edit loop entered at [i], the call of each
    iteration being sent as many times as [ns] says. *)
Fixpoint callBlocks (img prompt : string) (i : nat) (ns : list nat)
  : list Request :=
  match ns with
  | [] => []
  | n :: ns' =>
      repeat (editRequest img prompt i) n ++ callBlocks img prompt (i + 1) ns'
  end.

(** ** A scripted remote service, for running the model *)

Module Demo.

(** The service answers its [n]-th call from a script; past the end of the
    script every call fails with a status-400 error. *)
Definition scripted (script : list (JsError + GenerateContentResponse))
    (_ : Request) (n : nat)
  : (JsError + GenerateContentResponse) * nat :=
  (nth n script (inl (mkError (Some 400) (Some "Bad request"))), Datatypes.S n).

(** A service that gives every request the same answer. *)
Definition constant (answer : JsError + GenerateContentResponse)
    (_ : Request) (n : nat)
  : (JsError + GenerateContentResponse) * nat :=
  (answer, Datatypes.S n).

Definition imageResponse (d : string) : GenerateContentResponse :=
  mkResponse None
    (Some [mkCandidate (Some (mkContent (Some
       [mkPart (Some "here") None;
        mkPart None (Some (mkInline (Some "image/png") (Some d)))])))]).

Definition textResponse (t : string) : GenerateContentResponse :=
  mkResponse (Some t) (Some [mkCandidate (Some (mkContent (Some
    [mkPart (Some t) None])))]).

Definition emptyResponse : GenerateContentResponse := mkResponse None None.

Definition quotaError : JsError :=
  mkError (Some 429) (Some "RESOURCE_EXHAUSTED").
Definition serverError : JsError :=
  mkError (Some 500) (Some "Internal error").
Definition fatalError : JsError :=
  mkError (Some 400) (Some "Bad request").

End Demo.

(** ** The application shell (src/App.tsx) *)

Module App.

Inductive AppStatus := IDLE | LOADING | SUCCESS | ERROR.

Inductive ProductType := TSHIRT | INVITATION.

(** The string that an enum member stands for. *)
Definition productTypeValue (p : ProductType) : string :=
  match p with TSHIRT => "TSHIRT" | INVITATION => "INVITATION" end.

Record KitResult :=
  mkKitResult { markdown : string; assets : list GeneratedAsset }.

(** The state variables of the [App] component, one field for each
    [useState]. *)
Record State := mkState {
  status : AppStatus;
  inputText : string;
  productType : ProductType;
  imagePreview : option string;
  result : option KitResult;
  error : option string;
  isPermissionError : bool;
  useUltraQuality : bool;
  isEditMode : bool;
  thinkingMode : bool;
  fastMode : bool;
  imageSize : ImageSize;
  aspectRatio : AspectRatio;
  isGeneratingImages : bool;
  cooldownMessage : option string;
  analysisResult : option string
}.

(** The state at mount: the arguments of the [useState] calls. *)
Definition initial : State :=
  mkState IDLE "" TSHIRT None None None false false false false false
          Size1K AR_1_1 false None None.

(** The setters, one for each state variable that a handler writes. *)
Definition setStatus (v : AppStatus) (a : State) : State :=
  mkState v (inputText a) (productType a) (imagePreview a) (result a)
    (error a) (isPermissionError a) (useUltraQuality a) (isEditMode a)
    (thinkingMode a) (fastMode a) (imageSize a) (aspectRatio a)
    (isGeneratingImages a) (cooldownMessage a) (analysisResult a).

Definition setInputText (v : string) (a : State) : State :=
  mkState (status a) v (productType a) (imagePreview a) (result a) (error
    a) (isPermissionError a) (useUltraQuality a) (isEditMode a)
    (thinkingMode a) (fastMode a) (imageSize a) (aspectRatio a)
    (isGeneratingImages a) (cooldownMessage a) (analysisResult a).

Definition setImagePreview (v : option string) (a : State) : State :=
  mkState (status a) (inputText a) (productType a) v (result a) (error a)
    (isPermissionError a) (useUltraQuality a) (isEditMode a) (thinkingMode
    a) (fastMode a) (imageSize a) (aspectRatio a) (isGeneratingImages a)
    (cooldownMessage a) (analysisResult a).

Definition setResult (v : option KitResult) (a : State) : State :=
  mkState (status a) (inputText a) (productType a) (imagePreview a) v
    (error a) (isPermissionError a) (useUltraQuality a) (isEditMode a)
    (thinkingMode a) (fastMode a) (imageSize a) (aspectRatio a)
    (isGeneratingImages a) (cooldownMessage a) (analysisResult a).

Definition setError (v : option string) (a : State) : State :=
  mkState (status a) (inputText a) (productType a) (imagePreview a)
    (result a) v (isPermissionError a) (useUltraQuality a) (isEditMode a)
    (thinkingMode a) (fastMode a) (imageSize a) (aspectRatio a)
    (isGeneratingImages a) (cooldownMessage a) (analysisResult a).

Definition setIsPermissionError (v : bool) (a : State) : State :=
  mkState (status a) (inputText a) (productType a) (imagePreview a)
    (result a) (error a) v (useUltraQuality a) (isEditMode a)
    (thinkingMode a) (fastMode a) (imageSize a) (aspectRatio a)
    (isGeneratingImages a) (cooldownMessage a) (analysisResult a).

Definition setIsEditMode (v : bool) (a : State) : State :=
  mkState (status a) (inputText a) (productType a) (imagePreview a)
    (result a) (error a) (isPermissionError a) (useUltraQuality a) v
    (thinkingMode a) (fastMode a) (imageSize a) (aspectRatio a)
    (isGeneratingImages a) (cooldownMessage a) (analysisResult a).

Definition setThinkingMode (v : bool) (a : State) : State :=
  mkState (status a) (inputText a) (productType a) (imagePreview a)
    (result a) (error a) (isPermissionError a) (useUltraQuality a)
    (isEditMode a) v (fastMode a) (imageSize a) (aspectRatio a)
    (isGeneratingImages a) (cooldownMessage a) (analysisResult a).

Definition setFastMode (v : bool) (a : State) : State :=
  mkState (status a) (inputText a) (productType a) (imagePreview a)
    (result a) (error a) (isPermissionError a) (useUltraQuality a)
    (isEditMode a) (thinkingMode a) v (imageSize a) (aspectRatio a)
    (isGeneratingImages a) (cooldownMessage a) (analysisResult a).

Definition setIsGeneratingImages (v : bool) (a : State) : State :=
  mkState (status a) (inputText a) (productType a) (imagePreview a)
    (result a) (error a) (isPermissionError a) (useUltraQuality a)
    (isEditMode a) (thinkingMode a) (fastMode a) (imageSize a)
    (aspectRatio a) v (cooldownMessage a) (analysisResult a).

Definition setCooldownMessage (v : option string) (a : State) : State :=
  mkState (status a) (inputText a) (productType a) (imagePreview a)
    (result a) (error a) (isPermissionError a) (useUltraQuality a)
    (isEditMode a) (thinkingMode a) (fastMode a) (imageSize a)
    (aspectRatio a) (isGeneratingImages a) v (analysisResult a).

Definition setAnalysisResult (v : option string) (a : State) : State :=
  mkState (status a) (inputText a) (productType a) (imagePreview a)
    (result a) (error a) (isPermissionError a) (useUltraQuality a)
    (isEditMode a) (thinkingMode a) (fastMode a) (imageSize a)
    (aspectRatio a) (isGeneratingImages a) (cooldownMessage a) v.

(** Truthiness of a value of type [string | null]. *)
Definition truthyOpt (o : option string) : bool :=
  match o with Some v => Js.truthy v | None => false end.

(** [x || undefined] *)
Definition orUndefined (o : option string) : option string :=
  if truthyOpt o then o else None.

(** The two mode buttons. *)
Inductive modeClick := ClickThinking | ClickFast.

Definition click (a : State) (c : modeClick) : State :=
  match c with
  | ClickThinking => setFastMode false (setThinkingMode (negb (thinkingMode a)) a)
  | ClickFast => setThinkingMode false (setFastMode (negb (fastMode a)) a)
  end.

Definition resetApp (a : State) : State :=
  setAnalysisResult None
    (setCooldownMessage None
       (setIsGeneratingImages false
          (setError None (setResult None (setStatus IDLE a))))).

(** The [onEditImage] handler handed to the renderer. *)
Definition onEditImage (asset : GeneratedAsset) (a : State) : State :=
  setStatus IDLE
    (setIsEditMode true (setInputText "" (setImagePreview (Some (url asset)) a))).

(** The callbacks handed to [generatePreviewImages]. *)
Definition onAssetReady (a : State) (asset : GeneratedAsset) : State :=
  setCooldownMessage None
    (setResult
       (match result a with
        | Some prev => Some (mkKitResult (markdown prev) (assets prev ++ [asset]))
        | None => None
        end) a).

Definition onCooldownStart (a : State) (msg : string) : State :=
  setCooldownMessage (Some msg) a.

(** What an event of the service does to the state of the component: the
    two callbacks run, everything else passes unnoticed. *)
Definition replay (a : State) (e : event) : State :=
  match e with
  | EvAssetReady asset => onAssetReady a asset
  | EvOnRetry msg => onCooldownStart a msg
  | _ => a
  end.

(** The steps at which a batch is suspended: a remote call that is awaited
    and a wait. *)
Definition awaited (e : event) : bool :=
  match e with
  | EvCall _ | EvSleep _ => true
  | _ => false
  end.

(** While the image batch runs the status is SUCCESS and the result view is
    shown, with its Go Back button ([resetApp]) and the Refine button of
    every asset ([onEditImage]); after either the form is live again.  What
    the handlers run by the user do to the state while the [n]-th
    suspension of the batch lasts is [meanwhile n]: any function of the
    state. *)
Definition Interference := nat -> State -> State.

(** No other handler runs. *)
Definition quiet : Interference := fun _ a => a.

(** The user clicks Go Back during the [n]-th suspension, and nothing
    else. *)
Definition goBackAt (n : nat) : Interference :=
  fun m a => if Nat.eqb m n then resetApp a else a.

(** The state of the component along the events of a batch: the other
    handlers run while the batch is suspended, the callbacks when the batch
    invokes them.  [n] counts the suspensions. *)
Fixpoint replayAmid (meanwhile : Interference) (n : nat) (t : list event)
    (a : State) : State :=
  match t with
  | [] => a
  | e :: t' =>
      if awaited e then replayAmid meanwhile (S n) t' (meanwhile n a)
      else replayAmid meanwhile n t' (replay a e)
  end.

Section Handlers.

Variable RemoteState : Type.
Variable remote :
  Request -> RemoteState -> (JsError + GenerateContentResponse) * RemoteState.

(** The run of a handler: the state of the component when it ends, the
    state of the remote service, the events of the service calls and, when
    the promise of the handler is rejected, the error that nothing
    caught. *)
Record HandlerRun := mkHandlerRun {
  app : State;
  remoteState : RemoteState;
  events : list event;
  uncaught : option JsError
}.

Definition handleAnalyzeImage (a : State) (s : RemoteState) : HandlerRun :=
  match imagePreview a with
  | Some img =>
      if Js.truthy img then
        let a1 := setAnalysisResult None (setStatus LOADING a) in
        let r := analyzeImage remote img s in
        match res r with
        | inr analysis =>
            mkHandlerRun
              (setResult
                 (Some (mkKitResult
                          ("**Image Analysis**" ++ String Js.nl (String Js.nl analysis))
                          []))
                 (setStatus SUCCESS (setAnalysisResult (Some analysis) a1)))
              (st r) (tr r) None
        | inl err =>
            mkHandlerRun (setStatus ERROR (setError (message err) a1))
                         (st r) (tr r) None
        end
      else mkHandlerRun a s [] None
  | None => mkHandlerRun a s [] None
  end.

(** [hasKey] is the outcome of [await window.aistudio.hasSelectedApiKey()],
    which is evaluated only when the quality flag is set: the truthiness of
    what it answers or, when it throws or its promise is rejected, the
    error.  The check is outside every [try]: its error is the rejection
    of the handler, which has set nothing by then.

    What the handler reads ([inputText], [imagePreview], the flags) it
    reads from the state [a] of the render in which it was started; what
    it sets lands in the current state.  The key check is taken to be
    answered at once; while the status is LOADING the form is shielded
    ([pointer-events-none], the button disabled) and the run is taken to
    be alone; during the image batch it is not, and [meanwhile] is what
    the other handlers do then. *)
Definition handleProcess (meanwhile : Interference) (hasKey : JsError + bool)
    (a : State) (s : RemoteState) : HandlerRun :=
  if isEditMode a then
    if negb (truthyOpt (imagePreview a)) || negb (Js.truthy (inputText a)) then
      mkHandlerRun
        (setError (Some "Upload an image and type an instruction.") a) s []
        None
    else
      let a1 := setStatus LOADING a in
      let img := match imagePreview a with Some v => v | None => "" end in
      let r := editImageWithGemini remote img (inputText a) s in
      match res r with
      | inr editedAssets =>
          mkHandlerRun
            (setStatus SUCCESS
               (setResult
                  (Some (mkKitResult
                           ("**AI Edit Results**"
                            ++ String Js.nl (String Js.nl "Instruction: ")
                            ++ inputText a)
                           editedAssets)) a1))
            (st r) (tr r) None
      | inl err =>
          mkHandlerRun (setStatus ERROR (setError (message err) a1))
                       (st r) (tr r) None
      end
  else if negb (Js.truthy (inputText a)) && negb (truthyOpt (imagePreview a)) then
    mkHandlerRun
      (setError (Some "Provide a vision description or upload an image.") a)
      s [] None
  else
    match (if useUltraQuality a then hasKey else inr true) with
    | inl thrown => mkHandlerRun a s [] (Some thrown)
    | inr false =>
        mkHandlerRun
          (setError (Some "Ultra Pro models require a personal API key.")
             (setIsPermissionError true a)) s [] None
    | inr true =>
        let a1 :=
          setIsGeneratingImages false (setError None (setStatus LOADING a)) in
        let k :=
          generateKit remote (inputText a) (productTypeValue (productType a))
            (mkKitOptions (orUndefined (imagePreview a))
                          (thinkingMode a) (fastMode a)) s in
        match res k with
        | inl err =>
            mkHandlerRun (setStatus ERROR (setError (message err) a1))
                         (st k) (tr k) None
        | inr md =>
            let prompts := extractPrompts md in
            let a2 :=
              setIsGeneratingImages true
                (setStatus SUCCESS (setResult (Some (mkKitResult md [])) a1)) in
            let g := generatePreviewImages remote prompts
                       (mkPreviewOptions (useUltraQuality a)
                                         (Some (imageSize a))
                                         (Some (aspectRatio a)))
                       true true (st k) in
            let a3 := replayAmid meanwhile 0 (tr g) a2 in
            match res g with
            | inr _ =>
                mkHandlerRun (setIsGeneratingImages false a3) (st g)
                             (tr k ++ tr g) None
            | inl err =>
                mkHandlerRun (setStatus ERROR (setError (message err) a3))
                             (st g) (tr k ++ tr g) None
            end
        end
    end.

End Handlers.

Arguments mkHandlerRun {RemoteState}.
Arguments app {RemoteState}.
Arguments remoteState {RemoteState}.
Arguments events {RemoteState}.
Arguments uncaught {RemoteState}.
Arguments handleAnalyzeImage {RemoteState}.
Arguments handleProcess {RemoteState}.

End App.

(** ** The countdown of the renderer (src/components/KitRenderer.tsx) *)

(** The update handed to [setTimer] every second. *)
Definition timerTick (prev : Z) : Z := if prev >? 0 then prev - 1 else 45.

(** ** More shapes of lines, for the parser *)

(** A line of white space only. *)
Definition blankLine (line : string) : bool :=
  oneLine line && String.eqb (Js.trim line) "".

(** A line of the table body: any line that is neither blank nor a header
    line; it is a data row or it is passed over. *)
Definition bodyLine (line : string) : bool :=
  plainLine line && negb (String.eqb (Js.trim line) "").

(** A string in which the character [c] does not occur. *)
Definition without (c : ascii) (s : string) : bool :=
  negb (Js.includes (String c EmptyString) s).

(** A string that begins, or ends, with a white space character. *)
Definition startsWithSpace (s : string) : bool :=
  existsb (fun w => Js.startsWith w s) Js.whiteSpace.

Definition endsWithSpace (s : string) : bool :=
  existsb (fun w => Js.endsWith w s) Js.whiteSpace.

(** ** Observations of the preview loop *)

(** The outcomes of the retry-wrapped calls of the preview loop entered at
    index [i], in order. *)
Fixpoint previewOutcomes {RemoteState : Type}
    (remote : Request -> RemoteState
              -> (JsError + GenerateContentResponse) * RemoteState)
    (options : PreviewOptions) (onCooldownStart : bool)
    (prompts : list string) (remaining i : nat) (s : RemoteState)
  : list (JsError + GenerateContentResponse) :=
  match remaining with
  | O => []
  | S remaining' =>
      let r := previewCall remote options onCooldownStart (nth i prompts "") s in
      res r :: previewOutcomes remote options onCooldownStart prompts
                 remaining' (i + 1)%nat (st r)
  end.

(** The assets that outcomes contribute, the first outcome being that of
    prompt number [i]. *)
Fixpoint deliveredFrom (prompts : list string) (i : nat)
    (outs : list (JsError + GenerateContentResponse)) : list GeneratedAsset :=
  match outs with
  | [] => []
  | o :: outs' =>
      match o with
      | inr r => match responseImage r with
                 | Some d => [assetFor prompts i d]
                 | None => []
                 end
      | inl _ => []
      end ++ deliveredFrom prompts (i + 1) outs'
  end.

(** The requests of the preview loop entered at [i], the call of each
    iteration being sent as many times as [ns] says. *)
Fixpoint previewBlocks (options : PreviewOptions) (prompts : list string)
    (i : nat) (ns : list nat) : list Request :=
  match ns with
  | [] => []
  | n :: ns' =>
      repeat (previewRequest options (nth i prompts "")) n
      ++ previewBlocks options prompts (i + 1) ns'
  end.

(** What the scan keeps of a line is free of the column separator, of line
    feeds and of bold markers. *)
Definition promptShape (p : string) : Prop :=
  without "|" p = true /\ without Js.nl p = true
  /\ Js.includes "**" p = false.

(** * Properties *)

(** ** Counting events *)

Lemma count_app (p : event -> bool) (t1 t2 : list event) :
  count p (t1 ++ t2) = (count p t1 + count p t2)%nat.
Proof. unfold count. rewrite filter_app, length_app. reflexivity. Qed.

Lemma retryMessages_app (t1 t2 : list event) :
  retryMessages (t1 ++ t2) = retryMessages t1 ++ retryMessages t2.
Proof. unfold retryMessages. apply flat_map_app. Qed.

Lemma retryMessages_length (t : list event) :
  count isOnRetry t = List.length (retryMessages t).
Proof.
  unfold count, retryMessages. induction t as [|e t IH]; [reflexivity|].
  destruct e; simpl; rewrite <- ?IH; reflexivity.
Qed.

Lemma timeline_app (t1 t2 : list event) :
  timeline (t1 ++ t2) = timeline t1 ++ timeline t2.
Proof. unfold timeline. apply flat_map_app. Qed.

Lemma steps_app (t1 t2 : list event) :
  steps (t1 ++ t2) = steps t1 ++ steps t2.
Proof. unfold steps. apply flat_map_app. Qed.

Lemma sleeps_app (t1 t2 : list event) :
  sleeps (t1 ++ t2) = sleeps t1 ++ sleeps t2.
Proof. unfold sleeps. apply flat_map_app. Qed.

(** ** Running the combinators *)

Section Runs.

Variable RemoteState : Type.

Lemma run_eta {A} (r : Run RemoteState A) : mkRun (res r) (st r) (tr r) = r.
Proof. destruct r; reflexivity. Qed.

Lemma bind_ok {A B} (m : M RemoteState A) (k : A -> M RemoteState B) s a :
  res (m s) = inr a ->
  bind m k s =
    mkRun (res (k a (st (m s)))) (st (k a (st (m s))))
          (tr (m s) ++ tr (k a (st (m s)))).
Proof. intros H. unfold bind. rewrite H. reflexivity. Qed.

Lemma bind_err {A B} (m : M RemoteState A) (k : A -> M RemoteState B) s e :
  res (m s) = inl e ->
  bind m k s = mkRun (inl e) (st (m s)) (tr (m s)).
Proof. intros H. unfold bind. rewrite H. reflexivity. Qed.

Lemma tryCatch_ok {A} (m : M RemoteState A) (h : JsError -> M RemoteState A) s a :
  res (m s) = inr a -> tryCatch m h s = m s.
Proof. intros H. unfold tryCatch. rewrite H. reflexivity. Qed.

Lemma tryCatch_err {A} (m : M RemoteState A) (h : JsError -> M RemoteState A) s e :
  res (m s) = inl e ->
  tryCatch m h s =
    mkRun (res (h e (st (m s)))) (st (h e (st (m s))))
          (tr (m s) ++ tr (h e (st (m s)))).
Proof. intros H. unfold tryCatch. rewrite H. reflexivity. Qed.

(** ** One iteration of [withRetry] *)

Section RetryStep.
Context {T : Type}.
Variables (fn : M RemoteState T) (retries : Z) (onRetry : bool).

Lemma withRetryLoop_success remaining i d s v :
  res (fn s) = inr v ->
  withRetryLoop fn retries onRetry (S remaining) i d s = fn s.
Proof. intros H. simpl. apply (tryCatch_ok _ _ _ _ H). Qed.

Lemma withRetryLoop_giveup remaining i d s e :
  res (fn s) = inl e -> retryable retries i e = false ->
  withRetryLoop fn retries onRetry (S remaining) i d s =
    mkRun (inl e) (st (fn s)) (tr (fn s)).
Proof.
  intros H Hr. simpl. rewrite (tryCatch_err _ _ _ _ H).
  unfold retryable in Hr. rewrite Hr. simpl.
  rewrite app_nil_r. reflexivity.
Qed.

Lemma withRetryLoop_retry remaining i d s e :
  res (fn s) = inl e -> retryable retries i e = true ->
  withRetryLoop fn retries onRetry (S remaining) i d s =
    let next :=
      withRetryLoop fn retries onRetry remaining (i + 1) (d * 2)
                    (st (fn s)) in
    mkRun (res next) (st next)
          (tr (fn s) ++ retryEvents onRetry i d e ++ tr next).
Proof.
  intros H Hr. simpl. rewrite (tryCatch_err _ _ _ _ H).
  unfold retryable in Hr. rewrite Hr.
  unfold retryEvents, waitTime.
  destruct onRetry; simpl; unfold bind; simpl; reflexivity.
Qed.

Lemma withRetryLoop_zero i d s :
  withRetryLoop fn retries onRetry 0 i d s = mkRun (inl maxRetriesError) s [].
Proof. reflexivity. Qed.
End RetryStep.

(** ** The retry loop as a whole *)

Section RetryLoop.
Context {T : Type}.
Variables (fn : M RemoteState T) (retries : Z) (onRetry : bool).

(** Whatever holds of the operation's events and of the loop's own
    three kinds of event holds of the whole trace. *)
Lemma withRetryLoop_trace (P : event -> Prop) :
  (forall s, Forall P (tr (fn s))) ->
  (forall msg, P (EvOnRetry msg)) ->
  (forall a w, P (EvWarn a w)) ->
  (forall ms, P (EvSleep ms)) ->
  forall remaining i d s,
    Forall P (tr (withRetryLoop fn retries onRetry remaining i d s)).
Proof.
  intros Hfn Hr Hw Hs.
  induction remaining as [|remaining IH]; intros i d s.
  - constructor.
  - destruct (res (fn s)) as [e|v] eqn:E.
    + destruct (retryable retries i e) eqn:R.
      * rewrite (withRetryLoop_retry _ _ _ _ _ _ _ _ E R). simpl.
        apply Forall_app; split; [apply Hfn|].
        apply Forall_app; split; [|apply IH].
        unfold retryEvents.
        destruct onRetry; repeat constructor; auto.
      * rewrite (withRetryLoop_giveup _ _ _ _ _ _ _ _ E R). apply Hfn.
    + rewrite (withRetryLoop_success _ _ _ _ _ _ _ _ E). apply Hfn.
Qed.

(** [k] quota failures in a row and then a success, with attempts to
    spare: the success is returned after [k] cooldown messages. *)
Lemma withRetryLoop_quota_then_success k :
  forall remaining i d s v,
    (k < remaining)%nat -> i + Z.of_nat k < retries ->
    (forall j, (j < k)%nat ->
       exists e, res (fn (stateAfter fn j s)) = inl e
                 /\ isQuotaError e = true) ->
    res (fn (stateAfter fn k s)) = inr v ->
    (forall s', count isOnRetry (tr (fn s')) = 0%nat) ->
    let r := withRetryLoop fn retries true remaining i d s in
    res r = inr v
    /\ retryMessages (tr r)
       = repeat "Rate limit hit. Cooling down for 75s..." k
    /\ st r = stateAfter fn (S k) s.
Proof.
  induction k as [|k IH]; intros remaining i d s v Hk Hi Hfail Hok Hquiet.
  - destruct remaining as [|remaining]; [lia|].
    simpl in Hok. cbv zeta.
    rewrite (withRetryLoop_success _ _ _ _ _ _ _ _ Hok).
    repeat split; [exact Hok|].
    apply length_zero_iff_nil. rewrite <- retryMessages_length. apply Hquiet.
  - destruct remaining as [|remaining]; [lia|].
    destruct (Hfail 0%nat ltac:(lia)) as (e & He & Hq). simpl in He.
    assert (R : retryable retries i e = true).
    { unfold retryable. rewrite Hq. simpl.
      rewrite andb_true_r. apply Z.ltb_lt. lia. }
    cbv zeta. rewrite (withRetryLoop_retry _ _ _ _ _ _ _ _ He R).
    cbv zeta. cbn [res st tr].
    destruct (IH remaining (i + 1) (d * 2) (st (fn s)) v) as (H1 & H2 & H3).
    + lia.
    + lia.
    + intros j Hj. apply (Hfail (S j)). lia.
    + exact Hok.
    + exact Hquiet.
    + cbv zeta in H1, H2, H3. repeat split.
      * exact H1.
      * rewrite !retryMessages_app, H2.
        replace (retryMessages (tr (fn s))) with (@nil string)
          by (symmetry; apply length_zero_iff_nil;
              rewrite <- retryMessages_length; apply Hquiet).
        unfold retryEvents. rewrite Hq. reflexivity.
      * exact H3.
Qed.

(** Every attempt fails with a quota or server signal: the last
    attempt's own error is what the caller gets. *)
Lemma withRetryLoop_all_fail :
  forall remaining i d s,
    Z.of_nat (S remaining) = retries - i ->
    (forall j, (j <= remaining)%nat ->
       exists e, res (fn (stateAfter fn j s)) = inl e
                 /\ (isQuotaError e || statusIs e 500) = true) ->
    let r := withRetryLoop fn retries onRetry (S remaining) i d s in
    res r = res (fn (stateAfter fn remaining s))
    /\ st r = stateAfter fn (S remaining) s.
Proof.
  induction remaining as [|remaining IH]; intros i d s Hi Hfail.
  - destruct (Hfail 0%nat ltac:(lia)) as (e & He & _). simpl in He.
    assert (R : retryable retries i e = false).
    { unfold retryable. apply andb_false_intro1. apply Z.ltb_ge. lia. }
    cbv zeta. rewrite (withRetryLoop_giveup _ _ _ _ _ _ _ _ He R).
    simpl. auto.
  - destruct (Hfail 0%nat ltac:(lia)) as (e & He & Hc). simpl in He.
    assert (R : retryable retries i e = true).
    { unfold retryable. rewrite Hc, andb_true_r. apply Z.ltb_lt. lia. }
    cbv zeta. rewrite (withRetryLoop_retry _ _ _ _ _ _ _ _ He R).
    cbv zeta. cbn [res st tr].
    apply (IH (i + 1) (d * 2) (st (fn s))); [lia|].
    intros j Hj. apply (Hfail (S j)). lia.
Qed.

(** Every attempt fails with a server signal: one call per attempt,
    and the delays between them double from [d] on. *)
Lemma withRetryLoop_server_backoff :
  forall remaining i d s,
    Z.of_nat remaining = retries - i ->
    (forall j, (j < remaining)%nat ->
       exists e, res (fn (stateAfter fn j s)) = inl e
                 /\ statusIs e 500 = true /\ isQuotaError e = false) ->
    singleCall fn ->
    let r := withRetryLoop fn retries onRetry remaining i d s in
    count isCall (tr r) = remaining
    /\ sleeps (tr r)
       = map (fun j => d * 2 ^ Z.of_nat j) (seq 0 (remaining - 1))
    /\ timeline (tr r) = backoff remaining d.
Proof.
  induction remaining as [|remaining IH]; intros i d s Hi Hfail Hcall.
  - simpl. auto.
  - destruct (Hfail 0%nat ltac:(lia)) as (e & He & H5 & Hq). simpl in He.
    destruct (Hcall s) as (req & Htr).
    destruct remaining as [|remaining].
    + assert (R : retryable retries i e = false).
      { unfold retryable. apply andb_false_intro1. apply Z.ltb_ge. lia. }
      cbv zeta. rewrite (withRetryLoop_giveup _ _ _ _ _ _ _ _ He R).
      cbn [res st tr]. rewrite Htr. simpl. auto.
    + assert (R : retryable retries i e = true).
      { unfold retryable. rewrite H5, orb_true_r, andb_true_r.
        apply Z.ltb_lt. lia. }
      cbv zeta. rewrite (withRetryLoop_retry _ _ _ _ _ _ _ _ He R).
      cbv zeta. cbn [res st tr].
      destruct (IH (i + 1) (d * 2) (st (fn s))) as (H1 & H2 & H3).
      * lia.
      * intros j Hj. apply (Hfail (S j)). lia.
      * exact Hcall.
      * cbv zeta in H1, H2, H3. split; [|split].
        3: { rewrite !timeline_app, H3, Htr. unfold retryEvents, waitTime.
             rewrite Hq. destruct onRetry; reflexivity. }
        -- rewrite !count_app, H1, Htr. unfold retryEvents.
           destruct onRetry; reflexivity.
        -- rewrite !sleeps_app, H2, Htr. unfold retryEvents, waitTime.
           rewrite Hq.
           replace (S (S remaining) - 1)%nat with (S remaining) by lia.
           replace (S remaining - 1)%nat with remaining by lia.
           destruct onRetry; simpl sleeps; simpl app;
             change (seq 0 (S remaining)) with (0%nat :: seq 1 remaining);
             rewrite <- seq_shift; cbn [map]; rewrite map_map; f_equal;
             [ change (2 ^ Z.of_nat 0) with 1; lia
             | apply map_ext; intros j;
               rewrite Nat2Z.inj_succ, Z.pow_succ_r by lia; lia
             | change (2 ^ Z.of_nat 0) with 1; lia
             | apply map_ext; intros j;
               rewrite Nat2Z.inj_succ, Z.pow_succ_r by lia; lia ].
Qed.
End RetryLoop.

(** ** The remote call as an operation *)

Variable remote :
  Request -> RemoteState -> (JsError + GenerateContentResponse) * RemoteState.

Lemma generateContent_trace req s :
  tr (generateContent remote req s) = [EvCall req].
Proof. unfold generateContent. destruct (remote req s). reflexivity. Qed.

Lemma generateContent_res req s :
  res (generateContent remote req s) = fst (remote req s).
Proof. unfold generateContent. destruct (remote req s). reflexivity. Qed.

Lemma generateContent_st req s :
  st (generateContent remote req s) = snd (remote req s).
Proof. unfold generateContent. destruct (remote req s). reflexivity. Qed.

Lemma generateContent_singleCall req : singleCall (generateContent remote req).
Proof. intros s. exists req. apply generateContent_trace. Qed.

End Runs.

Arguments generateContent_trace {RemoteState}.
Arguments generateContent_res {RemoteState}.
Arguments generateContent_st {RemoteState}.
Arguments generateContent_singleCall {RemoteState}.

(** ** The Retry Executor *)

Section RetryExecutor.

Variable RemoteState : Type.
Context {T : Type}.
Variable fn : M RemoteState T.

(** C3.  If the operation fails with a quota signal on attempts
    [1 .. k-1] and succeeds on attempt [k], where [1 <= k <= retries], and
    a cooldown callback is supplied, then [withRetry] returns the
    operation's success value and has invoked the callback exactly
    [k - 1] times.  (The operation is assumed not to invoke the callback
    on its own.) *)
Theorem withRetry_quota_then_success
    (retries initialDelay : Z) (k : nat) (v : T) (s : RemoteState) :
  (1 <= k)%nat -> Z.of_nat k <= retries ->
  (forall j, (1 <= j < k)%nat ->
     exists e, attempt fn j s = inl e /\ isQuotaError e = true) ->
  attempt fn k s = inr v ->
  (forall s', count isOnRetry (tr (fn s')) = 0%nat) ->
  let r := withRetry fn retries initialDelay true s in
  res r = inr v
  /\ count isOnRetry (tr r) = (k - 1)%nat
  /\ retryMessages (tr r)
     = repeat "Rate limit hit. Cooling down for 75s..." (k - 1).
Proof.
  intros Hk Hle Hfail Hok Hquiet r. subst r. unfold withRetry.
  destruct k as [|k]; [lia|].
  replace (S k - 1)%nat with k by lia.
  destruct (withRetryLoop_quota_then_success RemoteState fn retries k
              (Z.to_nat retries) 0 initialDelay s v) as (H1 & H2 & _).
  - lia.
  - lia.
  - intros j Hj. apply (Hfail (S j)). lia.
  - exact Hok.
  - exact Hquiet.
  - cbv zeta in H1, H2. split; [exact H1|]. split; [|exact H2].
    rewrite retryMessages_length, H2. apply repeat_length.
Qed.

(** C6.  If the operation (one remote call per invocation) fails with a
    server signal (status 500, not a quota signal) on every attempt, then
    [withRetry] invokes it exactly [retries] times, sleeps
    [initialDelay] before the second attempt and twice the previous delay
    before each later one, and ends in a failure. *)
Theorem withRetry_server_backoff
    (retries initialDelay : Z) (onRetry : bool) (s : RemoteState) :
  0 <= retries ->
  (forall j, (1 <= j)%nat -> Z.of_nat j <= retries ->
     exists e, attempt fn j s = inl e
               /\ statusIs e 500 = true /\ isQuotaError e = false) ->
  singleCall fn ->
  let r := withRetry fn retries initialDelay onRetry s in
  (exists e, res r = inl e)
  /\ Z.of_nat (count isCall (tr r)) = retries
  /\ sleeps (tr r)
     = map (fun j => initialDelay * 2 ^ Z.of_nat j)
           (seq 0 (Z.to_nat retries - 1))
  /\ timeline (tr r) = backoff (Z.to_nat retries) initialDelay
  /\ st r = stateAfter fn (Z.to_nat retries) s.
Proof.
  intros H0 Hfail Hcall r. subst r. unfold withRetry.
  assert (Hfail' : forall j, (j < Z.to_nat retries)%nat ->
            exists e, res (fn (stateAfter fn j s)) = inl e
                      /\ statusIs e 500 = true /\ isQuotaError e = false).
  { intros j Hj. apply (Hfail (S j)); lia. }
  destruct (withRetryLoop_server_backoff RemoteState fn retries onRetry
              (Z.to_nat retries) 0 initialDelay s) as (H1 & H2 & Htl);
    [lia | exact Hfail' | exact Hcall |].
  cbv zeta in H1, H2, Htl.
  split; [|split; [|split; [|split; [exact Htl|]]]].
  - destruct (Z.to_nat retries) as [|n] eqn:En.
    + eexists. reflexivity.
    + destruct (withRetryLoop_all_fail RemoteState fn retries onRetry
                  n 0 initialDelay s) as (H3 & _).
      * lia.
      * intros j Hj. destruct (Hfail' j ltac:(lia)) as (e & He & H5 & _).
        exists e. split; [exact He|]. rewrite H5. apply orb_true_r.
      * cbv zeta in H3. rewrite H3.
        destruct (Hfail' n ltac:(lia)) as (e & He & _).
        exists e. exact He.
  - rewrite H1. lia.
  - exact H2.
  - destruct (Z.to_nat retries) as [|n] eqn:En.
    + reflexivity.
    + destruct (withRetryLoop_all_fail RemoteState fn retries onRetry
                  n 0 initialDelay s) as (_ & H4).
      * lia.
      * intros j Hj. destruct (Hfail' j ltac:(lia)) as (e & He & H5 & _).
        exists e. split; [exact He|]. rewrite H5. apply orb_true_r.
      * exact H4.
Qed.

(** When every attempt, [retries >= 1] of them, fails with a quota or
    server signal, the failure propagated is the error thrown by the last
    attempt itself. *)
Lemma withRetry_exhausted_rethrows
    (retries initialDelay : Z) (onRetry : bool) (s : RemoteState) :
  1 <= retries ->
  (forall j, (1 <= j)%nat -> Z.of_nat j <= retries ->
     exists e, attempt fn j s = inl e
               /\ (isQuotaError e || statusIs e 500) = true) ->
  res (withRetry fn retries initialDelay onRetry s)
  = attempt fn (Z.to_nat retries) s.
Proof.
  intros H1 Hfail. unfold withRetry, attempt.
  destruct (Z.to_nat retries) as [|n] eqn:En; [lia|].
  destruct (withRetryLoop_all_fail RemoteState fn retries onRetry
              n 0 initialDelay s) as (H3 & _).
  - lia.
  - intros j Hj. apply (Hfail (S j)); lia.
  - exact H3.
Qed.

End RetryExecutor.

Lemma withRetry_quota_then_success_witness :
  let fn := generateContent
              (Demo.scripted [inl Demo.quotaError; inl Demo.quotaError;
                              inr (Demo.textResponse "ok")])
              (analyzeRequest "x") in
  let r := withRetry fn 3 5000 true 0%nat in
  res r = inr (Demo.textResponse "ok")
  /\ count isOnRetry (tr r) = 2%nat
  /\ retryMessages (tr r)
     = ["Rate limit hit. Cooling down for 75s...";
        "Rate limit hit. Cooling down for 75s..."].
Proof.
  intros fn.
  apply (withRetry_quota_then_success nat fn 3 5000 3
           (Demo.textResponse "ok") 0%nat).
  - lia.
  - lia.
  - intros j Hj. assert (Hc : j = 1%nat \/ j = 2%nat) by lia.
    destruct Hc as [-> | ->]; exists Demo.quotaError; split; reflexivity.
  - reflexivity.
  - intros s'. unfold fn. rewrite generateContent_trace. reflexivity.
Defined.

Lemma withRetry_server_backoff_witness :
  let fn := generateContent (Demo.constant (inl Demo.serverError))
              (analyzeRequest "x") in
  let r := withRetry fn 4 5000 false 0%nat in
  (exists e, res r = inl e)
  /\ Z.of_nat (count isCall (tr r)) = 4
  /\ sleeps (tr r) = [5000; 10000; 20000]
  /\ timeline (tr r)
     = [Called; Slept 5000; Called; Slept 10000; Called; Slept 20000; Called]
  /\ st r = 4%nat.
Proof.
  intros fn.
  apply (withRetry_server_backoff nat fn 4 5000 false 0%nat).
  - lia.
  - intros j _ _. exists Demo.serverError. repeat split; reflexivity.
  - apply generateContent_singleCall.
Defined.

(** C1.  Three attempts that all fail with a server signal: the caller gets
    the server error of the third attempt, not the error announcing that the
    retries are exhausted. *)
Theorem withRetry_exhaustion_not_signalled :
  let fn := generateContent (Demo.constant (inl Demo.serverError))
              (analyzeRequest "x") in
  let r := withRetry fn 3 5000 true 0%nat in
  res r = inl Demo.serverError
  /\ res r <> inl maxRetriesError
  /\ count isCall (tr r) = 3%nat.
Proof.
  cbv zeta. split; [reflexivity|]. split; [|reflexivity].
  intros H. vm_compute in H. discriminate H.
Qed.

(** ** The Kit Generator *)

Section KitGenerator.

Variable RemoteState : Type.
Variable remote :
  Request -> RemoteState -> (JsError + GenerateContentResponse) * RemoteState.

Lemma bind_ret_trace {A B} (m : M RemoteState A) (f : A -> B) s :
  tr (bind m (fun x => ret (f x)) s) = tr (m s).
Proof.
  unfold bind. destruct (res (m s)); simpl; [|rewrite app_nil_r]; reflexivity.
Qed.

(** A retry-wrapped remote call with at least one attempt begins with
    the call, and all its calls carry the same request. *)
Lemma withRetry_call_first req retries d cb s :
  1 <= retries ->
  exists t,
    tr (withRetry (generateContent remote req) retries d cb s)
    = EvCall req :: t.
Proof.
  intros H. unfold withRetry.
  destruct (Z.to_nat retries) as [|n] eqn:En; [lia|].
  set (fn := generateContent remote req).
  destruct (res (fn s)) as [e|v] eqn:E.
  - destruct (retryable retries 0 e) eqn:R.
    + rewrite (withRetryLoop_retry _ _ _ _ _ _ _ _ _ E R). cbv zeta.
      cbn [tr]. unfold fn at 1. rewrite generateContent_trace.
      eexists. reflexivity.
    + rewrite (withRetryLoop_giveup _ _ _ _ _ _ _ _ _ E R). cbn [tr].
      unfold fn. rewrite generateContent_trace. eexists. reflexivity.
  - rewrite (withRetryLoop_success _ _ _ _ _ _ _ _ _ E).
    unfold fn. rewrite generateContent_trace. eexists. reflexivity.
Qed.

Lemma withRetry_callsCarry req retries d cb s :
  callsCarry req (tr (withRetry (generateContent remote req) retries d cb s)).
Proof.
  unfold withRetry, callsCarry. apply withRetryLoop_trace; try exact (fun _ => I).
  - intros s'. rewrite generateContent_trace. repeat constructor.
  - exact (fun _ _ => I).
Qed.

(** C9.  With [thinkingMode] and [fastMode] both set, the request that
    [generateKit] sends names the thinking model and carries the
    reasoning budget of 32768; the fast model is not used: every remote
    call of the run carries that one request, and there is at least
    one. *)
Theorem generateKit_thinking_takes_precedence
    (input productType : string) (img : option string) (s : RemoteState) :
  let options := mkKitOptions img true true in
  let req := kitRequest input productType options in
  let r := generateKit remote input productType options s in
  model req = "gemini-3-pro-preview"
  /\ model req <> "gemini-flash-lite-latest"
  /\ (exists c, config req = Some c /\ thinkingBudget c = Some 32768)
  /\ (exists t, tr r = EvCall req :: t)
  /\ callsCarry req (tr r).
Proof.
  intros options req r.
  split; [reflexivity|]. split; [discriminate|].
  split; [eexists; split; reflexivity|].
  subst r. unfold generateKit. rewrite bind_ret_trace. split.
  - apply withRetry_call_first. lia.
  - apply withRetry_callsCarry.
Qed.

Lemma orElse_truthy x fallback :
  Js.truthy fallback = true -> Js.truthy (orElse x fallback) = true.
Proof.
  intros H. unfold orElse. destruct x as [t|]; [|exact H].
  destruct (Js.truthy t) eqn:E; [exact E | exact H].
Qed.

(** C8.  [generateKit] does not throw when the remote call yields a
    response without text: it returns the fixed fallback string; and
    whatever document it returns is a non-empty string. *)
Theorem generateKit_never_empty
    (input productType : string) (options : KitOptions) (s : RemoteState) :
  let call := withRetry (generateContent remote
                           (kitRequest input productType options))
                        3 5000 false s in
  let r := generateKit remote input productType options s in
  (forall response,
      res call = inr response -> noText response = true ->
      res r = inr "Error generating the kit content.")
  /\ (forall doc, res r = inr doc -> doc <> "").
Proof.
  intros call r. split.
  - intros response Hc Hn. subst r. unfold generateKit.
    rewrite (bind_ok _ _ _ _ _ Hc). cbn [res ret]. f_equal.
    unfold noText in Hn. unfold orElse.
    destruct (text response) as [t|]; [|reflexivity].
    destruct (Js.truthy t); [discriminate|reflexivity].
  - intros doc Hd. subst r. unfold generateKit in Hd.
    destruct (res call) as [e|response] eqn:Hc; subst call.
    + rewrite (bind_err _ _ _ _ _ Hc) in Hd. discriminate.
    + rewrite (bind_ok _ _ _ _ _ Hc) in Hd. cbn [res ret] in Hd.
      injection Hd as <-. intros Habs.
      assert (Ht := orElse_truthy (text response)
                      "Error generating the kit content." eq_refl).
      rewrite Habs in Ht. discriminate.
Qed.

End KitGenerator.

Lemma generateKit_never_empty_witness :
  let remote := Demo.scripted [inl Demo.quotaError; inr Demo.emptyResponse] in
  let options := mkKitOptions None false true in
  let r := generateKit remote "retro cat" "TSHIRT" options 0%nat in
  res r = inr "Error generating the kit content."
  /\ "Error generating the kit content." <> "".
Proof.
  intros remote options.
  destruct (generateKit_never_empty nat remote "retro cat" "TSHIRT" options 0%nat)
    as (Hfallback & Hnonempty).
  assert (H : res (generateKit remote "retro cat" "TSHIRT" options 0%nat)
              = inr "Error generating the kit content.").
  { apply (Hfallback Demo.emptyResponse); reflexivity. }
  split; [exact H | exact (Hnonempty _ H)].
Defined.

(** ** The image loops *)

Lemma calls_app (t1 t2 : list event) : calls (t1 ++ t2) = calls t1 ++ calls t2.
Proof. unfold calls. apply flat_map_app. Qed.

Lemma announced_app (t1 t2 : list event) :
  announced (t1 ++ t2) = announced t1 ++ announced t2.
Proof. unfold announced. apply flat_map_app. Qed.

Lemma count_zero (p : event -> bool) (t : list event) :
  Forall (fun e => p e = false) t -> count p t = 0%nat.
Proof.
  unfold count. induction 1 as [|e t He _ IH]; simpl; [|rewrite He]; auto.
Qed.

Lemma announced_nil (t : list event) :
  Forall (fun e => isAssetReady e = false) t -> announced t = [].
Proof.
  unfold announced. induction 1 as [|e t He _ IH]; simpl; [reflexivity|].
  rewrite IH. destruct e; try reflexivity; discriminate.
Qed.

Section ImageLoops.

Variable RemoteState : Type.
Variable remote :
  Request -> RemoteState -> (JsError + GenerateContentResponse) * RemoteState.

(** *** A remote call wrapped in two attempts *)

(** The trace of [withRetry(call, 2, d, cb)]: the call alone, or the
    call, the events of one retry and the call again. *)
Lemma withRetry2_trace req d cb s :
  let t := tr (withRetry (generateContent remote req) 2 d cb s) in
  t = [EvCall req]
  \/ exists e, t = [EvCall req] ++ retryEvents cb 0 d e ++ [EvCall req].
Proof.
  cbv zeta. unfold withRetry. change (Z.to_nat 2) with 2%nat.
  set (fn := generateContent remote req).
  destruct (res (fn s)) as [e|v] eqn:E.
  - destruct (retryable 2 0 e) eqn:R.
    + right. exists e.
      rewrite (withRetryLoop_retry _ _ _ _ _ _ _ _ _ E R). cbv zeta.
      cbn [tr]. unfold fn at 1. rewrite generateContent_trace.
      do 2 f_equal.
      destruct (res (fn (st (fn s)))) as [e'|v'] eqn:E'.
      * rewrite (withRetryLoop_giveup _ _ _ _ _ _ _ _ _ E').
        -- cbn [tr]. unfold fn at 1. apply generateContent_trace.
        -- reflexivity.
      * rewrite (withRetryLoop_success _ _ _ _ _ _ _ _ _ E').
        unfold fn at 1. apply generateContent_trace.
    + left. rewrite (withRetryLoop_giveup _ _ _ _ _ _ _ _ _ E R). cbn [tr].
      unfold fn. apply generateContent_trace.
  - left. rewrite (withRetryLoop_success _ _ _ _ _ _ _ _ _ E).
    unfold fn. apply generateContent_trace.
Qed.

Lemma retryEvents_calls cb i d e : calls (retryEvents cb i d e) = [].
Proof. unfold retryEvents. destruct cb; reflexivity. Qed.

Lemma retryEvents_announced cb i d e : announced (retryEvents cb i d e) = [].
Proof. unfold retryEvents. destruct cb; reflexivity. Qed.

Lemma retryEvents_errors cb i d e :
  count isConsoleError (retryEvents cb i d e) = 0%nat.
Proof. unfold retryEvents. destruct cb; reflexivity. Qed.

(** The retry waits of the image loops are 65 s or 75 s, never the 45 s
    of the delay between calls. *)
Lemma retryEvents_pauses cb i e :
  count isPause (retryEvents cb i 65000 e) = 0%nat.
Proof.
  unfold retryEvents, waitTime. destruct cb, (isQuotaError e); reflexivity.
Qed.

Lemma withRetry2_calls req d cb s :
  exists n, (1 <= n <= 2)%nat
    /\ calls (tr (withRetry (generateContent remote req) 2 d cb s))
       = repeat req n.
Proof.
  destruct (withRetry2_trace req d cb s) as [H | (e & H)];
    cbv zeta in H; rewrite H.
  - exists 1%nat. split; [lia | reflexivity].
  - exists 2%nat. split; [lia|].
    rewrite !calls_app, retryEvents_calls. reflexivity.
Qed.

Lemma withRetry2_quiet req cb s :
  let t := tr (withRetry (generateContent remote req) 2 65000 cb s) in
  announced t = [] /\ count isConsoleError t = 0%nat
  /\ count isPause t = 0%nat.
Proof.
  destruct (withRetry2_trace req 65000 cb s) as [H | (e & H)];
    cbv zeta in H |- *; rewrite H.
  - repeat split; reflexivity.
  - rewrite !announced_app, !count_app, retryEvents_announced,
      retryEvents_errors, retryEvents_pauses.
    repeat split; reflexivity.
Qed.

(** *** One iteration of the edit loop *)

Lemma editIteration_ok img prompt i results s response :
  let call := editCall remote img prompt i s in
  res call = inr response ->
  editIteration remote img prompt i results s
  = mkRun (inr (results ++ deliveredAssets prompt (inr response)))
          (st call)
          (tr call ++ (if (i <? 5)%nat then [EvSleep 45000] else [])).
Proof.
  cbv zeta. intros H. unfold editIteration.
  unfold tryCatch, bind. cbv beta zeta. rewrite H. cbv beta iota zeta.
  unfold deliveredAssets.
  destruct (i <? 5)%nat, (responseImage response);
    cbn; rewrite ?app_nil_r; reflexivity.
Qed.

Lemma editIteration_err img prompt i results s e :
  let call := editCall remote img prompt i s in
  res call = inl e ->
  editIteration remote img prompt i results s
  = mkRun (inr results) (st call)
          (tr call ++ [EvConsoleError "Edit failed" e]).
Proof.
  cbv zeta. intros H. unfold editIteration.
  rewrite (tryCatch_err _ _ _ _ e).
  - rewrite (bind_err _ _ _ _ _ H). reflexivity.
  - rewrite (bind_err _ _ _ _ _ H). reflexivity.
Qed.

(** *** The edit loop *)

Lemma delivered_length prompt outs :
  List.length (flat_map (deliveredAssets prompt) outs)
  = List.length (filter deliveredImage outs).
Proof.
  induction outs as [|o outs IH]; [reflexivity|].
  simpl. rewrite length_app, IH.
  destruct o as [e|r]; simpl; [reflexivity|].
  destruct (responseImage r); reflexivity.
Qed.

Lemma delivered_le_succeeded outs :
  (List.length (filter deliveredImage outs)
   <= List.length (filter succeeded outs))%nat.
Proof.
  induction outs as [|o outs IH]; [reflexivity|].
  simpl. destruct o as [e|r]; simpl; [exact IH|].
  destruct (responseImage r); simpl; lia.
Qed.

Lemma editLoop_run img prompt :
  forall remaining i results s,
    let r := editLoop remote img prompt remaining i results s in
    let outs := editOutcomes remote img prompt remaining i s in
    res r = inr (results ++ flat_map (deliveredAssets prompt) outs)
    /\ count isConsoleError (tr r)
       = List.length (filter (fun o => negb (succeeded o)) outs)
    /\ (exists ns,
          List.length ns = remaining
          /\ Forall (fun n => (1 <= n <= 2)%nat) ns
          /\ calls (tr r) = callBlocks img prompt i ns)
    /\ count isPause (tr r)
       = List.length (filter succeeded (firstn (5 - i) outs)).
Proof.
  induction remaining as [|remaining IH]; intros i results s.
  - cbv zeta. simpl. rewrite app_nil_r, firstn_nil.
    repeat split. exists []. repeat split. constructor.
  - cbv zeta.
    destruct (IH (i + 1)%nat
                (results ++ deliveredAssets prompt
                              (res (editCall remote img prompt i s)))
                (st (editCall remote img prompt i s)))
      as (IH1 & IH2 & (ns & Hn1 & Hn2 & Hn3) & IH4).
    destruct (IH (i + 1)%nat results (st (editCall remote img prompt i s)))
      as (IE1 & IE2 & (ms & Hm1 & Hm2 & Hm3) & IE4).
    cbv zeta in IH1, IH2, Hn3, IH4, IE1, IE2, Hm3, IE4.
    destruct (withRetry2_calls (editRequest img prompt i) 65000 false s)
      as (n & Hn & Hcalls).
    destruct (withRetry2_quiet (editRequest img prompt i) false s)
      as (_ & Hquiet & Hnopause).
    fold (editCall remote img prompt i) in Hcalls, Hquiet, Hnopause.
    cbv zeta in Hquiet, Hnopause.
    cbn [editLoop editOutcomes]. unfold bind.
    destruct (res (editCall remote img prompt i s)) as [e|response] eqn:E.
    + rewrite (editIteration_err _ _ _ _ _ _ E). cbn [res st tr].
      split; [|split; [|split]].
      * rewrite IE1. reflexivity.
      * rewrite !count_app, Hquiet, IE2. reflexivity.
      * exists (n :: ms). split; [simpl; congruence|].
        split; [constructor; assumption|].
        rewrite !calls_app, Hcalls, Hm3. cbn [calls flat_map callBlocks].
        rewrite !app_nil_r. reflexivity.
      * rewrite !count_app, Hnopause, IE4.
        replace (5 - (i + 1))%nat with (Nat.pred (5 - i)) by lia.
        destruct (5 - i)%nat as [|m]; reflexivity.
    + rewrite (editIteration_ok _ _ _ _ _ _ E). cbn [res st tr].
      split; [|split; [|split]].
      * rewrite IH1. cbn [flat_map]. rewrite app_assoc. reflexivity.
      * rewrite !count_app, Hquiet, IH2.
        destruct (i <? 5)%nat; reflexivity.
      * exists (n :: ns). split; [simpl; congruence|].
        split; [constructor; assumption|].
        rewrite !calls_app, Hcalls, Hn3.
        destruct (i <? 5)%nat; cbn [calls flat_map callBlocks];
          rewrite !app_nil_r; reflexivity.
      * rewrite !count_app, Hnopause, IH4.
        replace (5 - (i + 1))%nat with (Nat.pred (5 - i)) by lia.
        destruct (i <? 5)%nat eqn:E5.
        -- apply Nat.ltb_lt in E5.
           destruct (5 - i)%nat as [|m] eqn:Em; [lia|]. reflexivity.
        -- apply Nat.ltb_ge in E5.
           replace (5 - i)%nat with 0%nat by lia. reflexivity.
Qed.

(** C7, amended.  Whatever the remote service answers,
    [editImageWithGemini] makes its six retry-wrapped edit calls, one for
    each variation in order and each sent once or twice; a failed call is
    logged and leaves the result as it was; the function returns, and the
    length of what it returns is the number of calls that succeeded with
    a response carrying an inline image, which is at most the number of
    calls that succeeded. *)
Theorem editImageWithGemini_six_calls (img prompt : string) (s : RemoteState) :
  let r := editImageWithGemini remote img prompt s in
  let outcomes := editOutcomes remote img prompt 6 0 s in
  List.length outcomes = 6%nat
  /\ (exists ns,
        List.length ns = 6%nat
        /\ Forall (fun n => (1 <= n <= 2)%nat) ns
        /\ calls (tr r) = callBlocks img prompt 0 ns)
  /\ count isConsoleError (tr r)
     = List.length (filter (fun o => negb (succeeded o)) outcomes)
  /\ exists results,
       res r = inr results
       /\ results = flat_map (deliveredAssets prompt) outcomes
       /\ List.length results = List.length (filter deliveredImage outcomes)
       /\ (List.length results <= List.length (filter succeeded outcomes))%nat.
Proof.
  intros r outcomes.
  destruct (editLoop_run img prompt 6 0 [] s) as (H1 & H2 & H3 & _).
  fold (editImageWithGemini remote img prompt) in H1, H2, H3.
  cbv zeta in H1, H2, H3. fold r outcomes in H1, H2, H3.
  split; [reflexivity|]. split; [exact H3|]. split; [exact H2|].
  eexists. split; [exact H1|]. split; [reflexivity|].
  rewrite app_nil_l, delivered_length.
  split; [reflexivity | apply delivered_le_succeeded].
Qed.

(** The fixed delay follows the successful calls among the first five
    and no other: a failed call is followed at once by the next one. *)
Lemma editImageWithGemini_pauses (img prompt : string) (s : RemoteState) :
  count isPause (tr (editImageWithGemini remote img prompt s))
  = List.length (filter succeeded
                   (firstn 5 (editOutcomes remote img prompt 6 0 s))).
Proof.
  destruct (editLoop_run img prompt 6 0 [] s) as (_ & _ & _ & H4).
  exact H4.
Qed.

End ImageLoops.

(** C7 as stated fails: a service that answers every call with a response
    holding no image lets all six calls succeed, yet nothing is returned. *)
Lemma editImageWithGemini_length_counterexample :
  let remote := Demo.constant (inr Demo.emptyResponse) in
  let r := editImageWithGemini remote "data:image/jpeg;base64,AAAA" "blue" 0%nat in
  let outcomes :=
    editOutcomes remote "data:image/jpeg;base64,AAAA" "blue" 6 0 0%nat in
  List.length (filter succeeded outcomes) = 6%nat
  /\ res r = inr []
  /\ ~ (forall results,
          res r = inr results ->
          List.length results = List.length (filter succeeded outcomes)).
Proof.
  cbv zeta. split; [reflexivity|]. split; [reflexivity|].
  intros H. specialize (H [] eq_refl). vm_compute in H. discriminate H.
Qed.

(** C5.  The first edit call fails (status 400, no retry) and the other
    five succeed: six calls are made but only four delays elapse, and the
    second call follows the failure of the first with no delay between
    them. *)
Theorem editImageWithGemini_no_delay_after_failure :
  let img := "data:image/jpeg;base64,AAAA" in
  let remote :=
    Demo.scripted
      [inl Demo.fatalError; inr (Demo.imageResponse "B");
       inr (Demo.imageResponse "C"); inr (Demo.imageResponse "D");
       inr (Demo.imageResponse "E"); inr (Demo.imageResponse "F")] in
  let r := editImageWithGemini remote img "blue" 0%nat in
  calls (tr r) = map (editRequest img "blue") (seq 0 6)
  /\ sleeps (tr r) = [45000; 45000; 45000; 45000]
  /\ count isPause (tr r) = 4%nat
  /\ firstn 3 (tr r)
     = [EvCall (editRequest img "blue" 0);
        EvConsoleError "Edit failed" Demo.fatalError;
        EvCall (editRequest img "blue" 1)].
Proof. cbv zeta. repeat split; vm_compute; reflexivity. Qed.

(** ** The Image Batch Generator *)

Section BatchGenerator.

Variable RemoteState : Type.
Variable remote :
  Request -> RemoteState -> (JsError + GenerateContentResponse) * RemoteState.
Variable prompts : list string.
Variable options : PreviewOptions.
Variables onAssetReady onCooldownStart : bool.

Local Abbreviation call i :=
  (previewCall remote options onCooldownStart (nth i prompts "")).
Local Abbreviation iteration :=
  (previewIteration remote prompts options onAssetReady onCooldownStart).
Local Abbreviation loop :=
  (previewLoop remote prompts options onAssetReady onCooldownStart).

Lemma previewIteration_image i results s response d :
  res (call i s) = inr response -> responseImage response = Some d ->
  iteration i results s
  = mkRun (inr (results ++ [assetFor prompts i d])) (st (call i s))
          (tr (call i s)
           ++ (if onAssetReady then [EvAssetReady (assetFor prompts i d)] else [])
           ++ pauseAfter prompts i).
Proof.
  intros H Hd. unfold previewIteration, pauseAfter, assetFor.
  unfold tryCatch, bind. cbv beta zeta. rewrite H. cbv beta iota zeta.
  rewrite Hd.
  destruct onAssetReady,
    (Z.of_nat i <? Z.of_nat (List.length prompts) - 1);
    unfold when, sleep, emit, ret; cbn [res st tr app];
    rewrite ?app_nil_r, <- ?app_assoc; reflexivity.
Qed.

Lemma previewIteration_noimage i results s response :
  res (call i s) = inr response -> responseImage response = None ->
  iteration i results s
  = mkRun (inr results) (st (call i s))
          (tr (call i s) ++ pauseAfter prompts i).
Proof.
  intros H Hd. unfold previewIteration, pauseAfter.
  unfold tryCatch, bind. cbv beta zeta. rewrite H. cbv beta iota zeta.
  rewrite Hd.
  destruct (Z.of_nat i <? Z.of_nat (List.length prompts) - 1);
    unfold when, sleep, emit, ret; cbn [res st tr app];
    rewrite ?app_nil_r, <- ?app_assoc; reflexivity.
Qed.

Lemma previewIteration_err i results s e :
  res (call i s) = inl e ->
  iteration i results s
  = mkRun (inr results) (st (call i s))
          (tr (call i s)
           ++ [EvConsoleError
                 ("Skipping variation due to limit: " ++ nth i prompts "")%string
                 e]
           ++ pauseAfter prompts i).
Proof.
  intros H. unfold previewIteration, pauseAfter.
  unfold tryCatch, bind. cbv beta zeta. rewrite H. cbv beta iota zeta.
  destruct (Z.of_nat i <? Z.of_nat (List.length prompts) - 1);
    unfold when, sleep, emit, ret; cbn [res st tr app];
    rewrite ?app_nil_r, <- ?app_assoc; reflexivity.
Qed.

(** An iteration never throws and adds at most one asset. *)
Lemma previewIteration_total i results s :
  exists results1,
    res (iteration i results s) = inr results1
    /\ (List.length results1 <= List.length results + 1)%nat.
Proof.
  destruct (res (call i s)) as [e|response] eqn:E.
  - rewrite (previewIteration_err _ _ _ _ E). exists results.
    split; [reflexivity | lia].
  - destruct (responseImage response) as [d|] eqn:Ed.
    + rewrite (previewIteration_image _ _ _ _ _ E Ed).
      eexists. split; [reflexivity|]. rewrite length_app. simpl. lia.
    + rewrite (previewIteration_noimage _ _ _ _ E Ed). exists results.
      split; [reflexivity | lia].
Qed.

(** The loop never throws, and returns at most one asset for each
    iteration it still had to run. *)
Lemma previewLoop_total :
  forall remaining i results s,
  exists out,
    res (loop remaining i results s) = inr out
    /\ (List.length out <= List.length results + remaining)%nat.
Proof.
  induction remaining as [|remaining IH]; intros i results s.
  - exists results. split; [reflexivity | lia].
  - destruct (previewIteration_total i results s) as (results1 & H1 & L1).
    destruct (IH (i + 1)%nat results1 (st (iteration i results s)))
      as (out & H2 & L2).
    exists out. split; [|lia].
    cbn [previewLoop].
    rewrite (bind_ok _ _ _ _ _ H1). exact H2.
Qed.

Lemma previewLoop_step remaining i results s results1 :
  res (iteration i results s) = inr results1 ->
  let next := loop remaining (i + 1)%nat results1 (st (iteration i results s)) in
  loop (S remaining) i results s
  = mkRun (res next) (st next) (tr (iteration i results s) ++ tr next).
Proof.
  intros H. cbv zeta. cbn [previewLoop]. apply (bind_ok _ _ _ _ _ H).
Qed.

Lemma previewCall_quiet i s :
  announced (tr (call i s)) = []
  /\ count isConsoleError (tr (call i s)) = 0%nat.
Proof.
  destruct (withRetry2_quiet RemoteState remote
              (previewRequest options (nth i prompts "")) onCooldownStart s)
    as (H1 & H2 & _).
  split; assumption.
Qed.

End BatchGenerator.

Lemma announced_length (t : list event) :
  count isAssetReady t = List.length (announced t).
Proof.
  unfold count, announced. induction t as [|e t IH]; [reflexivity|].
  destruct e; simpl; rewrite <- ?IH; reflexivity.
Qed.

Lemma pauseAfter_quiet (prompts : list string) (i : nat) :
  announced (pauseAfter prompts i) = []
  /\ count isConsoleError (pauseAfter prompts i) = 0%nat.
Proof.
  unfold pauseAfter.
  destruct (Z.of_nat i <? Z.of_nat (List.length prompts) - 1);
    split; reflexivity.
Qed.

(** C10.  In the loop of [generatePreviewImages], entered at a prompt
    whose remote call succeeds with a response that holds no inline image:
    the iteration emits the events of the call and the delay that follows
    it, among them no [onAssetReady] and no logged failure, and the loop
    goes on with the next prompt and the very same results.  The loop
    returns, with fewer assets than there were prompts left to process. *)
Theorem generatePreviewImages_skips_imageless_response
    (RemoteState : Type)
    (remote : Request -> RemoteState
              -> (JsError + GenerateContentResponse) * RemoteState)
    (prompts : list string) (options : PreviewOptions)
    (onAssetReady onCooldownStart : bool)
    (i : nat) (results : list GeneratedAsset) (s : RemoteState)
    (response : GenerateContentResponse) :
  (i < List.length prompts)%nat ->
  let call := previewCall remote options onCooldownStart (nth i prompts "") s in
  res call = inr response -> responseImage response = None ->
  let loopFrom :=
    previewFrom remote prompts options onAssetReady onCooldownStart in
  let r := loopFrom i results s in
  let next := loopFrom (i + 1)%nat results (st call) in
  generatePreviewImages remote prompts options onAssetReady onCooldownStart
  = loopFrom 0%nat []
  /\ r = mkRun (res next) (st next)
               (tr call ++ pauseAfter prompts i ++ tr next)
  /\ announced (tr call ++ pauseAfter prompts i) = []
  /\ count isConsoleError (tr call ++ pauseAfter prompts i) = 0%nat
  /\ exists out,
       res r = inr out
       /\ (List.length out
           < List.length results + (List.length prompts - i))%nat.
Proof.
  intros Hi call Hc Hd loopFrom r next.
  assert (It := previewIteration_noimage RemoteState remote prompts options
                  onAssetReady onCooldownStart i results s response Hc Hd).
  fold call in It.
  assert (Hr : r = mkRun (res next) (st next)
                     (tr call ++ pauseAfter prompts i ++ tr next)).
  { subst r next loopFrom. unfold previewFrom.
    replace (List.length prompts - i)%nat
      with (S (List.length prompts - (i + 1))) by lia.
    rewrite (previewLoop_step RemoteState remote prompts options onAssetReady
               onCooldownStart _ i results s results)
      by (rewrite It; reflexivity).
    cbv zeta. rewrite It. cbn [res st tr]. rewrite <- app_assoc. reflexivity. }
  destruct (previewCall_quiet RemoteState remote prompts options
              onCooldownStart i s) as (Q1 & Q2).
  fold call in Q1, Q2.
  destruct (pauseAfter_quiet prompts i) as (P1 & P2).
  split; [|split; [exact Hr|split; [|split]]].
  - unfold loopFrom, previewFrom, generatePreviewImages.
    rewrite Nat.sub_0_r. reflexivity.
  - rewrite announced_app, Q1, P1. reflexivity.
  - rewrite count_app, Q2, P2. reflexivity.
  - destruct (previewLoop_total RemoteState remote prompts options onAssetReady
                onCooldownStart (List.length prompts - (i + 1)) (i + 1)%nat
                results (st call)) as (out & Ho & Lo).
    exists out. split; [|lia].
    rewrite Hr. cbn [res]. exact Ho.
Qed.

Lemma generatePreviewImages_skips_imageless_response_witness :
  let remote := Demo.scripted [inr (Demo.imageResponse "A");
                               inr (Demo.textResponse "sorry");
                               inr (Demo.imageResponse "C")] in
  let options := mkPreviewOptions false None None in
  let prompts := ["a"; "b"; "c"] in
  let a0 := assetFor prompts 0 (mkInline (Some "image/png") (Some "A")) in
  let call := previewCall remote options true "b" 1%nat in
  let loopFrom := previewFrom remote prompts options true true in
  let r := loopFrom 1%nat [a0] 1%nat in
  let next := loopFrom 2%nat [a0] (st call) in
  generatePreviewImages remote prompts options true true = loopFrom 0%nat []
  /\ r = mkRun (res next) (st next) (tr call ++ pauseAfter prompts 1 ++ tr next)
  /\ announced (tr call ++ pauseAfter prompts 1) = []
  /\ count isConsoleError (tr call ++ pauseAfter prompts 1) = 0%nat
  /\ exists out, res r = inr out /\ (List.length out < 1 + (3 - 1))%nat.
Proof.
  intros remote options prompts a0.
  apply (generatePreviewImages_skips_imageless_response nat remote prompts
           options true true 1 [a0] 1%nat (Demo.textResponse "sorry")).
  - simpl. lia.
  - reflexivity.
  - reflexivity.
Defined.

(** C4.  Three prompts, the retry-wrapped call of the second ending in
    failure and those of the first and third returning a response with an
    inline image: [generatePreviewImages] returns the assets of the first
    and third prompts, in that order, and [onAssetReady] has been invoked
    exactly twice, with these two assets. *)
Theorem generatePreviewImages_partial_failure
    (RemoteState : Type)
    (remote : Request -> RemoteState
              -> (JsError + GenerateContentResponse) * RemoteState)
    (p1 p2 p3 : string) (options : PreviewOptions) (onCooldownStart : bool)
    (s : RemoteState) (r1 r3 : GenerateContentResponse) (e2 : JsError)
    (d1 d3 : InlineData) :
  let call := previewCall remote options onCooldownStart in
  let c1 := call p1 s in
  let c2 := call p2 (st c1) in
  let c3 := call p3 (st c2) in
  res c1 = inr r1 -> responseImage r1 = Some d1 ->
  res c2 = inl e2 ->
  res c3 = inr r3 -> responseImage r3 = Some d3 ->
  let r := generatePreviewImages remote [p1; p2; p3] options true
             onCooldownStart s in
  let a1 := mkAsset (pngUrl d1) (cleanPrompt p1) in
  let a3 := mkAsset (pngUrl d3) (cleanPrompt p3) in
  res r = inr [a1; a3]
  /\ announced (tr r) = [a1; a3]
  /\ count isAssetReady (tr r) = 2%nat.
Proof.
  intros call c1 c2 c3 H1 Hd1 H2 H3 Hd3 r a1 a3.
  set (prompts := [p1; p2; p3]).
  assert (I1 := previewIteration_image RemoteState remote prompts options
                  true onCooldownStart 0 [] s r1 d1 H1 Hd1).
  assert (I2 := previewIteration_err RemoteState remote prompts options
                  true onCooldownStart 1 [a1] (st c1) e2 H2).
  assert (I3 := previewIteration_image RemoteState remote prompts options
                  true onCooldownStart 2 [a1] (st c2) r3 d3 H3 Hd3).
  cbn [nth prompts] in I1, I2, I3.
  fold call in I1, I2, I3. fold c1 in I1, I2. fold c2 in I2, I3. fold c3 in I3.
  assert (Hr : r = mkRun (inr [a1; a3]) (st c3)
                     ((tr c1 ++ [EvAssetReady a1] ++ pauseAfter prompts 0)
                      ++ (tr c2
                          ++ [EvConsoleError
                                ("Skipping variation due to limit: " ++ p2)%string
                                e2]
                          ++ pauseAfter prompts 1)
                      ++ (tr c3 ++ [EvAssetReady a3] ++ pauseAfter prompts 2)
                      ++ [])).
  { subst r. unfold generatePreviewImages. fold prompts.
    change (List.length prompts) with 3%nat.
    rewrite (previewLoop_step RemoteState remote prompts options true
               onCooldownStart 2 0 [] s [a1]) by (rewrite I1; reflexivity).
    cbv zeta. rewrite I1. cbn [res st tr Nat.add].
    rewrite (previewLoop_step RemoteState remote prompts options true
               onCooldownStart 1 1 [a1] (st c1) [a1])
      by (rewrite I2; reflexivity).
    cbv zeta. rewrite I2. cbn [res st tr Nat.add].
    rewrite (previewLoop_step RemoteState remote prompts options true
               onCooldownStart 0 2 [a1] (st c2) [a1; a3])
      by (rewrite I3; reflexivity).
    cbv zeta. rewrite I3. cbn [res st tr previewLoop ret].
    reflexivity. }
  assert (Ha : announced (tr r) = [a1; a3]).
  { rewrite Hr. cbn [tr].
    destruct (previewCall_quiet RemoteState remote prompts options
                onCooldownStart 0 s) as (Q1 & _).
    destruct (previewCall_quiet RemoteState remote prompts options
                onCooldownStart 1 (st c1)) as (Q2 & _).
    destruct (previewCall_quiet RemoteState remote prompts options
                onCooldownStart 2 (st c2)) as (Q3 & _).
    cbn [nth prompts] in Q1, Q2, Q3.
    fold call in Q1, Q2, Q3. fold c1 in Q1, Q2. fold c2 in Q2, Q3. fold c3 in Q3.
    rewrite !announced_app, Q1, Q2, Q3.
    rewrite !(proj1 (pauseAfter_quiet prompts _)). reflexivity. }
  split; [rewrite Hr; reflexivity|]. split; [exact Ha|].
  rewrite announced_length, Ha. reflexivity.
Qed.

Lemma generatePreviewImages_partial_failure_witness :
  let remote := Demo.scripted [inr (Demo.imageResponse "A");
                               inl Demo.serverError; inl Demo.quotaError;
                               inr (Demo.imageResponse "C")] in
  let options := mkPreviewOptions false None None in
  let r := generatePreviewImages remote ["**a**"; "[b]"; "c"] options true true
             0%nat in
  res r = inr [mkAsset "data:image/png;base64,A" "a";
               mkAsset "data:image/png;base64,C" "c"]
  /\ announced (tr r) = [mkAsset "data:image/png;base64,A" "a";
                         mkAsset "data:image/png;base64,C" "c"]
  /\ count isAssetReady (tr r) = 2%nat.
Proof.
  intros remote options.
  apply (generatePreviewImages_partial_failure nat remote "**a**" "[b]" "c"
           options true 0%nat (Demo.imageResponse "A") (Demo.imageResponse "C")
           Demo.quotaError
           (mkInline (Some "image/png") (Some "A"))
           (mkInline (Some "image/png") (Some "C")));
    reflexivity.
Defined.

(** ** The Prompt Extractor *)

Section PromptExtractor.

Lemma includes_char_cons c a s :
  Js.includes (String c EmptyString) (String a s)
  = Ascii.eqb c a || Js.includes (String c EmptyString) s.
Proof. simpl. rewrite andb_true_r. reflexivity. Qed.

(** A field free of the separator is not split... *)
Lemma split_free c s :
  Js.includes (String c EmptyString) s = false -> Js.split c s = [s].
Proof.
  induction s as [|a s IH]; intros H; [reflexivity|].
  rewrite includes_char_cons in H. apply orb_false_elim in H as (Ha & Hs).
  simpl. rewrite Ascii.eqb_sym, Ha, (IH Hs). reflexivity.
Qed.

(** ... and is the first field of whatever it is followed by. *)
Lemma split_app c f rest :
  Js.includes (String c EmptyString) f = false ->
  Js.split c (f ++ String c rest)%string = f :: Js.split c rest.
Proof.
  induction f as [|a f IH]; intros H.
  - simpl. rewrite Ascii.eqb_refl. reflexivity.
  - rewrite includes_char_cons in H. apply orb_false_elim in H as (Ha & Hf).
    simpl. rewrite Ascii.eqb_sym, Ha, (IH Hf). reflexivity.
Qed.

Lemma split_join c lines :
  lines <> [] ->
  Forall (fun l => Js.includes (String c EmptyString) l = false) lines ->
  Js.split c (Js.join c lines) = lines.
Proof.
  induction lines as [|l lines IH]; intros Hne Hall; [congruence|].
  inversion Hall as [|? ? Hl Hrest]; subst.
  destruct lines as [|l' lines].
  - simpl. apply split_free. exact Hl.
  - change (Js.join c (l :: l' :: lines))
      with (l ++ String c (Js.join c (l' :: lines)))%string.
    rewrite (split_app _ _ _ Hl), IH; [reflexivity | discriminate | exact Hrest].
Qed.

(** At least two columns means a separator is there. *)
Lemma split_columns c s :
  (2 <= List.length (Js.split c s))%nat ->
  Js.includes (String c EmptyString) s = true.
Proof.
  intros H. destruct (Js.includes (String c EmptyString) s) eqn:E;
    [reflexivity|].
  rewrite (split_free _ _ E) in H. simpl in H. lia.
Qed.

(** *** White space *)

Lemma isSpace2_high a b :
  Js.isSpace2 a b = true ->
  (128 <= nat_of_ascii a)%nat /\ (128 <= nat_of_ascii b)%nat.
Proof.
  unfold Js.isSpace2. intros H.
  apply andb_prop in H as (Ha & Hb).
  apply Nat.eqb_eq in Ha, Hb. rewrite Ha, Hb. split; lia.
Qed.

Lemma isSpace3_high a b c :
  Js.isSpace3 a b c = true ->
  (128 <= nat_of_ascii a)%nat /\ (128 <= nat_of_ascii b)%nat
  /\ (128 <= nat_of_ascii c)%nat.
Proof.
  unfold Js.isSpace3. cbv zeta. intros H.
  repeat first [ rewrite orb_true_iff in H | rewrite andb_true_iff in H
               | rewrite Nat.eqb_eq in H | rewrite Nat.leb_le in H ].
  lia.
Qed.

(** A visible character is none of the bytes of a white space character. *)
Lemma visible_space c a :
  Js.visible c = true -> Js.isSpace a = true -> Ascii.eqb c a = false.
Proof.
  unfold Js.visible. intros Hc Ha. apply andb_prop in Hc as (_ & Hc).
  apply negb_true_iff in Hc.
  destruct (Ascii.eqb_spec c a) as [-> | _]; [congruence | reflexivity].
Qed.

Lemma visible_high c a :
  Js.visible c = true -> (128 <= nat_of_ascii a)%nat -> Ascii.eqb c a = false.
Proof.
  unfold Js.visible. intros Hc Ha. apply andb_prop in Hc as (Hc & _).
  apply Nat.ltb_lt in Hc.
  destruct (Ascii.eqb_spec c a) as [-> | _]; [lia | reflexivity].
Qed.

Lemma trimStart_eq s :
  Js.trimStart s
  = match Js.dropSpace s with
    | Some r => Js.trimStart r
    | None => s
    end.
Proof.
  destruct s as [|a [|b [|c s]]]; cbn [Js.trimStart Js.dropSpace];
    try reflexivity.
  - destruct (Js.isSpace a); reflexivity.
  - destruct (Js.isSpace a); [reflexivity|].
    destruct (Js.isSpace2 a b); reflexivity.
  - destruct (Js.isSpace a); [reflexivity|].
    destruct (Js.isSpace2 a b); [reflexivity|].
    destruct (Js.isSpace3 a b c); reflexivity.
Qed.

Lemma includes_head c p s :
  Js.includes (String c p) s = true ->
  Js.includes (String c EmptyString) s = true.
Proof.
  induction s as [|a s IH]; [discriminate|].
  rewrite includes_char_cons.
  cbn [Js.includes Js.startsWith]. intros H.
  apply orb_true_iff in H as [H | H].
  - apply andb_prop in H as (-> & _). reflexivity.
  - rewrite (IH H). apply orb_true_r.
Qed.

Lemma without_app c x y :
  without c (x ++ y)%string = without c x && without c y.
Proof.
  unfold without. induction x as [|a x IH].
  - reflexivity.
  - cbn [String.append]. rewrite !includes_char_cons, !negb_orb, IH.
    apply andb_assoc.
Qed.

Lemma string_app_assoc (x y z : string) :
  ((x ++ y) ++ z = x ++ (y ++ z))%string.
Proof. induction x as [|a x IH]; simpl; congruence. Qed.

Lemma string_app_nil (x : string) : (x ++ "")%string = x.
Proof. induction x as [|a x IH]; simpl; congruence. Qed.

Lemma string_length_app (x y : string) :
  String.length (x ++ y) = (String.length x + String.length y)%nat.
Proof.
  induction x as [|a x IH]; simpl; [reflexivity | rewrite IH; reflexivity].
Qed.

(** What [dropSpace] removes: one to three bytes, none of them visible. *)
Lemma dropSpace_inv s r :
  Js.dropSpace s = Some r ->
  exists w, s = (w ++ r)%string
            /\ (1 <= String.length w)%nat
            /\ (forall c, Js.visible c = true -> without c w = true)
            /\ forall z, Js.dropSpace (w ++ z) = Some z.
Proof.
  destruct s as [|a s1]; cbn [Js.dropSpace]; [discriminate|].
  destruct (Js.isSpace a) eqn:Ea.
  { intros [= <-]. exists (String a ""). repeat split.
    - simpl. lia.
    - intros c Hc. unfold without. rewrite includes_char_cons.
      rewrite (visible_space _ _ Hc Ea). reflexivity.
    - intros z. cbn [String.append Js.dropSpace]. rewrite Ea. reflexivity. }
  destruct s1 as [|b s2]; [discriminate|].
  destruct (Js.isSpace2 a b) eqn:Eb.
  { intros [= <-]. exists (String a (String b "")).
    destruct (isSpace2_high _ _ Eb) as (Ha & Hb). repeat split.
    - simpl. lia.
    - intros c Hc. unfold without. rewrite !includes_char_cons.
      rewrite (visible_high _ _ Hc Ha), (visible_high _ _ Hc Hb). reflexivity.
    - intros z. cbn [String.append Js.dropSpace]. rewrite Ea, Eb. reflexivity. }
  destruct s2 as [|c s3]; [discriminate|].
  destruct (Js.isSpace3 a b c) eqn:Ec; [|discriminate].
  intros [= <-]. exists (String a (String b (String c ""))).
  destruct (isSpace3_high _ _ _ Ec) as (Ha & Hb & Hc'). repeat split.
  - simpl. lia.
  - intros x Hx. unfold without. rewrite !includes_char_cons.
    rewrite (visible_high _ _ Hx Ha), (visible_high _ _ Hx Hb),
      (visible_high _ _ Hx Hc'). reflexivity.
  - intros z. cbn [String.append Js.dropSpace]. rewrite Ea, Eb, Ec.
    reflexivity.
Qed.

(** Induction along the white space at the head of a string. *)
Lemma dropSpace_ind (P : string -> Prop) :
  (forall s, Js.dropSpace s = None -> P s) ->
  (forall s r, Js.dropSpace s = Some r -> P r -> P s) ->
  forall s, P s.
Proof.
  intros Hnone Hsome s.
  assert (H : forall n s, (String.length s <= n)%nat -> P s).
  { clear s. induction n as [|n IH]; intros s Hn.
    - destruct s; [apply Hnone; reflexivity | simpl in Hn; lia].
    - destruct (Js.dropSpace s) as [r|] eqn:E; [|apply Hnone, E].
      apply (Hsome s r E), IH.
      destruct (dropSpace_inv _ _ E) as (w & -> & Hw & _).
      rewrite string_length_app in Hn. lia. }
  apply (H (String.length s)). lia.
Qed.

Lemma trimStart_some s r :
  Js.dropSpace s = Some r -> Js.trimStart s = Js.trimStart r.
Proof. intros H. rewrite (trimStart_eq s), H. reflexivity. Qed.

Lemma trimStart_none s : Js.dropSpace s = None -> Js.trimStart s = s.
Proof. intros H. rewrite (trimStart_eq s), H. reflexivity. Qed.

(** What [trimStart] returns begins with no white space, *)
Lemma trimStart_fixed s : Js.dropSpace (Js.trimStart s) = None.
Proof.
  induction s as [s H | s r H IH] using dropSpace_ind.
  - rewrite (trimStart_none _ H). exact H.
  - rewrite (trimStart_some _ _ H). exact IH.
Qed.

(** and is the end of the string, after bytes none of which is visible. *)
Lemma trimStart_split s :
  exists w, s = (w ++ Js.trimStart s)%string
            /\ forall c, Js.visible c = true -> without c w = true.
Proof.
  induction s as [s H | s r H (w & IH & Hw)] using dropSpace_ind.
  - exists "". rewrite (trimStart_none _ H). split; [reflexivity|].
    intros c _. reflexivity.
  - destruct (dropSpace_inv _ _ H) as (v & -> & _ & Hv & Hd).
    exists (v ++ w)%string. split.
    + rewrite (trimStart_some _ _ (Hd r)), string_app_assoc, <- IH.
      reflexivity.
    + intros c Hc. rewrite without_app, (Hv c Hc), (Hw c Hc). reflexivity.
Qed.

(** White space in front of white space is white space. *)
Lemma blank_app x z :
  Js.trimStart x = EmptyString -> Js.trimStart z = EmptyString ->
  Js.trimStart (x ++ z) = EmptyString.
Proof.
  intros Hx Hz. induction x as [x H | x r H IH] using dropSpace_ind.
  - rewrite (trimStart_none _ H) in Hx. subst x. exact Hz.
  - destruct (dropSpace_inv _ _ H) as (v & -> & _ & _ & Hd).
    rewrite (trimStart_some _ _ (Hd r)) in Hx.
    rewrite string_app_assoc, (trimStart_some _ _ (Hd (r ++ z)%string)).
    exact (IH Hx).
Qed.

(** [trimEnd] cuts a string in front of white space... *)
Lemma trimEnd_split s :
  exists z, s = (Js.trimEnd s ++ z)%string /\ Js.trimStart z = EmptyString.
Proof.
  induction s as [|a s (z & IH & Hz)].
  - exists "". split; reflexivity.
  - cbn [Js.trimEnd].
    destruct (Js.trimStart (String a s)) as [|b t] eqn:E.
    + exists (String a s). split; [reflexivity | exact E].
    + exists z. split; [|exact Hz]. cbn [String.append]. rewrite <- IH.
      reflexivity.
Qed.

(** ... and nowhere later: no end of what it returns is white space. *)
Lemma trimEnd_tail s x y :
  Js.trimEnd s = (x ++ y)%string -> y <> EmptyString ->
  Js.trimStart y <> EmptyString.
Proof.
  revert x. induction s as [|a s IH]; intros x Hs Hy.
  - destruct x, y; try discriminate. congruence.
  - cbn [Js.trimEnd] in Hs.
    destruct (Js.trimStart (String a s)) as [|b t] eqn:E.
    + destruct x, y; try discriminate. congruence.
    + destruct x as [|a' x]; cbn [String.append] in Hs.
      * subst y. intros Hb.
        destruct (trimEnd_split s) as (z & Hsz & Hz).
        pose proof (blank_app _ _ Hb Hz) as Hall.
        cbn [String.append] in Hall. rewrite <- Hsz, E in Hall.
        discriminate.
      * injection Hs as _ Hs. exact (IH x Hs Hy).
Qed.

Lemma trimEnd_idem s : Js.trimEnd (Js.trimEnd s) = Js.trimEnd s.
Proof.
  induction s as [|a s IH]; [reflexivity|].
  cbn [Js.trimEnd].
  destruct (Js.trimStart (String a s)) as [|b t] eqn:E; [reflexivity|].
  cbn [Js.trimEnd]. rewrite IH.
  destruct (Js.trimStart (String a (Js.trimEnd s))) eqn:E'; [|reflexivity].
  exfalso.
  apply (trimEnd_tail (String a s) "" (String a (Js.trimEnd s))).
  - cbn [Js.trimEnd String.append]. rewrite E. reflexivity.
  - discriminate.
  - exact E'.
Qed.

(** [trimEnd] leaves the front of the string as it is. *)
Lemma trimEnd_front s :
  Js.dropSpace s = None -> Js.dropSpace (Js.trimEnd s) = None.
Proof.
  intros H.
  destruct (Js.dropSpace (Js.trimEnd s)) as [r|] eqn:E; [|reflexivity].
  destruct (dropSpace_inv _ _ E) as (w & Hw & _ & _ & Hd).
  destruct (trimEnd_split s) as (z & Hs & _).
  rewrite Hs, Hw, string_app_assoc, Hd in H. discriminate.
Qed.

Lemma trim_idem s : Js.trim (Js.trim s) = Js.trim s.
Proof.
  unfold Js.trim.
  rewrite (trimStart_none _ (trimEnd_front _ (trimStart_fixed s))).
  apply trimEnd_idem.
Qed.

Lemma trim_blank s : Js.trim s = EmptyString -> Js.trimStart s = EmptyString.
Proof.
  unfold Js.trim. intros H.
  destruct (Js.trimStart s) as [|a t] eqn:E; [reflexivity|].
  exfalso. cbn [Js.trimEnd] in H.
  rewrite (trimStart_none (String a t)) in H; [discriminate|].
  rewrite <- E. apply trimStart_fixed.
Qed.

(** A blank line holds no occurrence of a text that begins with a visible
    character. *)
Lemma blank_includes s c p :
  Js.trimStart s = EmptyString -> Js.visible c = true ->
  Js.includes (String c p) s = false.
Proof.
  intros Hs Hc. destruct (trimStart_split s) as (w & Hw & Hfree).
  rewrite Hs, string_app_nil in Hw. subst w.
  destruct (Js.includes (String c p) s) eqn:E; [|reflexivity].
  apply includes_head in E. specialize (Hfree c Hc).
  unfold without in Hfree. rewrite E in Hfree. discriminate.
Qed.

Lemma without_trimStart c s :
  without c s = true -> without c (Js.trimStart s) = true.
Proof.
  intros H. destruct (trimStart_split s) as (w & Hw & _).
  rewrite Hw, without_app in H. apply andb_prop in H as (_ & H). exact H.
Qed.

Lemma without_trimEnd c s :
  without c s = true -> without c (Js.trimEnd s) = true.
Proof.
  intros H. destruct (trimEnd_split s) as (z & Hz & _).
  rewrite Hz, without_app in H. apply andb_prop in H as (H & _). exact H.
Qed.

Lemma without_trim c s : without c s = true -> without c (Js.trim s) = true.
Proof. intros H. apply without_trimEnd, without_trimStart, H. Qed.

(** *** White space at the ends of a string *)

Lemma startsWith_inv w s :
  Js.startsWith w s = true -> exists r, s = (w ++ r)%string.
Proof.
  revert s. induction w as [|a w IH]; intros s H.
  - exists s. reflexivity.
  - destruct s as [|b s]; [discriminate|].
    cbn [Js.startsWith] in H. apply andb_prop in H as (Hab & H).
    apply Ascii.eqb_eq in Hab. subst b.
    destruct (IH s H) as (r & ->). exists r. reflexivity.
Qed.

Lemma endsWith_inv w s :
  Js.endsWith w s = true -> exists x, s = (x ++ w)%string.
Proof.
  induction s as [|a s IH]; cbn [Js.endsWith]; intros H;
    apply orb_true_iff in H as [H | H]; try discriminate.
  - apply String.eqb_eq in H. subst w. exists "". reflexivity.
  - apply String.eqb_eq in H. subst w. exists "". reflexivity.
  - destruct (IH H) as (x & ->). exists (String a x). reflexivity.
Qed.

(** Each white space character is one that [trim] removes. *)
Lemma whiteSpace_drop w :
  In w Js.whiteSpace -> forall z, Js.dropSpace (w ++ z) = Some z.
Proof.
  intros Hin z. vm_compute in Hin.
  repeat (destruct Hin as [<- | Hin]; [reflexivity|]). contradiction.
Qed.

Lemma whiteSpace_blank w :
  In w Js.whiteSpace -> w <> EmptyString /\ Js.trimStart w = EmptyString.
Proof.
  intros Hin. vm_compute in Hin.
  repeat (destruct Hin as [<- | Hin]; [split; [discriminate | reflexivity]|]).
  contradiction.
Qed.

Lemma startsWithSpace_trim s : startsWithSpace (Js.trim s) = false.
Proof.
  unfold startsWithSpace.
  destruct (existsb _ Js.whiteSpace) eqn:E; [|reflexivity].
  apply existsb_exists in E as (w & Hin & Hw).
  apply startsWith_inv in Hw as (r & Hr).
  pose proof (trimEnd_front _ (trimStart_fixed s)) as H.
  fold (Js.trim s) in H. rewrite Hr, (whiteSpace_drop _ Hin) in H.
  discriminate.
Qed.

Lemma endsWithSpace_trim s : endsWithSpace (Js.trim s) = false.
Proof.
  unfold endsWithSpace.
  destruct (existsb _ Js.whiteSpace) eqn:E; [|reflexivity].
  apply existsb_exists in E as (w & Hin & Hw).
  apply endsWith_inv in Hw as (x & Hx).
  destruct (whiteSpace_blank _ Hin) as (Hne & Hb).
  exfalso. exact (trimEnd_tail _ _ _ Hx Hne Hb).
Qed.

(** *** One step of the scan *)

Lemma scanLine_outside prompts line :
  Js.includes headerMarker line = false ->
  scanLine (prompts, false) line = (prompts, false).
Proof. intros H. unfold scanLine. rewrite H. reflexivity. Qed.

Lemma scanLine_header prompts inTable line :
  Js.includes headerMarker line = true ->
  scanLine (prompts, inTable) line = (prompts, true).
Proof. intros H. unfold scanLine. rewrite H. reflexivity. Qed.

Lemma scanLine_row prompts row :
  dataRow row = true ->
  scanLine (prompts, true) row
  = (prompts ++ [Js.stripBold (promptCell row)], true).
Proof.
  unfold dataRow, plainLine. intros H.
  apply andb_prop in H as (H & Hrepeat).
  apply andb_prop in H as (H & Hsep).
  apply andb_prop in H as (H & Htruthy).
  apply andb_prop in H as (Hplain & Hcols).
  apply andb_prop in Hplain as (_ & Hmark).
  apply negb_true_iff in Hrepeat, Hsep, Hmark.
  assert (Hbar : Js.includes "|" row = true).
  { apply split_columns. apply Nat.leb_le in Hcols. lia. }
  assert (Htrim : String.eqb (Js.trim row) "" = false).
  { apply String.eqb_neq. intros Hb.
    rewrite (blank_includes row "|" "" (trim_blank _ Hb) eq_refl) in Hbar.
    discriminate. }
  unfold scanLine. fold (promptCell row).
  rewrite Hmark, Hbar, Hcols, Htruthy, Hsep, Hrepeat, Htrim. reflexivity.
Qed.

Lemma scanLine_blank prompts blank :
  prompts <> [] -> Js.trim blank = EmptyString ->
  scanLine (prompts, true) blank = (prompts, false).
Proof.
  intros Hne Hb.
  assert (Hmark : Js.includes headerMarker blank = false)
    by exact (blank_includes blank "|" " VARIATION | IMAGE PROMPT |"
                (trim_blank _ Hb) eq_refl).
  assert (Hbar : Js.includes "|" blank = false)
    by exact (blank_includes blank "|" "" (trim_blank _ Hb) eq_refl).
  unfold scanLine. rewrite Hmark, Hbar, Hb.
  destruct prompts; [congruence | reflexivity].
Qed.

(** *** The scan of a whole document *)

Lemma scan_outside lines prompts :
  forallb plainLine lines = true ->
  fold_left scanLine lines (prompts, false) = (prompts, false).
Proof.
  induction lines as [|l lines IH]; intros H; [reflexivity|].
  simpl in H. apply andb_prop in H as (Hl & Hrest).
  unfold plainLine in Hl. apply andb_prop in Hl as (_ & Hl).
  apply negb_true_iff in Hl.
  cbn [fold_left]. rewrite (scanLine_outside _ _ Hl). exact (IH Hrest).
Qed.

Lemma scan_rows rows prompts :
  forallb dataRow rows = true ->
  fold_left scanLine rows (prompts, true)
  = (prompts ++ map (fun row => Js.stripBold (promptCell row)) rows, true).
Proof.
  revert prompts. induction rows as [|row rows IH]; intros prompts H.
  - simpl. rewrite app_nil_r. reflexivity.
  - simpl in H. apply andb_prop in H as (Hrow & Hrest).
    cbn [fold_left]. rewrite (scanLine_row _ _ Hrow), (IH _ Hrest), <- app_assoc.
    reflexivity.
Qed.

Lemma scan_after rest prompts :
  prompts <> [] -> afterTable rest = true ->
  fst (fold_left scanLine rest (prompts, true)) = prompts.
Proof.
  intros Hne H. destruct rest as [|blank more]; [reflexivity|].
  simpl in H. apply andb_prop in H as (Hb & H).
  apply andb_prop in H as (_ & Hmore). apply String.eqb_eq in Hb.
  cbn [fold_left]. rewrite (scanLine_blank _ _ Hne Hb), (scan_outside _ _ Hmore).
  reflexivity.
Qed.

(** *** The body of the table *)

Lemma scanLine_body prompts line :
  bodyLine line = true ->
  scanLine (prompts, true) line
  = (if dataRow line
     then prompts ++ [Js.stripBold (promptCell line)] else prompts, true).
Proof.
  unfold bodyLine. intros H. apply andb_prop in H as (Hplain & Hnb).
  apply negb_true_iff in Hnb.
  destruct (dataRow line) eqn:D; [rewrite (scanLine_row _ _ D); reflexivity|].
  unfold dataRow in D. rewrite Hplain in D. cbn [andb] in D.
  unfold plainLine in Hplain. apply andb_prop in Hplain as (_ & Hmark).
  apply negb_true_iff in Hmark.
  unfold scanLine. fold (promptCell line). rewrite Hmark, Hnb. cbn [andb].
  destruct (Js.includes "|" line) eqn:Hbar.
  - destruct (3 <=? List.length (Js.split "|" line))%nat; [|reflexivity].
    cbn [andb] in D. rewrite <- !andb_assoc in D.
    rewrite andb_assoc in D. rewrite D. reflexivity.
  - reflexivity.
Qed.

Lemma scanLine_gap line :
  blankLine line = true -> scanLine ([], true) line = ([], true).
Proof.
  unfold blankLine. intros H. apply andb_prop in H as (_ & Hb).
  apply String.eqb_eq in Hb.
  assert (Hmark : Js.includes headerMarker line = false)
    by exact (blank_includes line "|" " VARIATION | IMAGE PROMPT |"
                (trim_blank _ Hb) eq_refl).
  assert (Hbar : Js.includes "|" line = false)
    by exact (blank_includes line "|" "" (trim_blank _ Hb) eq_refl).
  unfold scanLine. rewrite Hmark, Hbar, Hb. reflexivity.
Qed.

Lemma scan_gap gap :
  forallb blankLine gap = true ->
  fold_left scanLine gap ([], true) = ([], true).
Proof.
  induction gap as [|l gap IH]; intros H; [reflexivity|].
  cbn [forallb] in H. apply andb_prop in H as (Hl & Hgap).
  cbn [fold_left]. rewrite (scanLine_gap _ Hl). exact (IH Hgap).
Qed.

Lemma scan_body body :
  forallb bodyLine body = true ->
  forall prompts,
    fold_left scanLine body (prompts, true)
    = (prompts
       ++ map (fun row => Js.stripBold (promptCell row)) (filter dataRow body),
       true).
Proof.
  induction body as [|l body IH]; intros H prompts.
  - simpl. rewrite app_nil_r. reflexivity.
  - cbn [forallb] in H. apply andb_prop in H as (Hl & Hbody).
    cbn [fold_left filter]. rewrite (scanLine_body _ _ Hl).
    destruct (dataRow l).
    + rewrite (IH Hbody). cbn [map]. rewrite <- app_assoc. reflexivity.
    + apply (IH Hbody).
Qed.

Lemma oneLine_all lines :
  forallb oneLine lines = true ->
  Forall (fun l => Js.includes (String Js.nl EmptyString) l = false) lines.
Proof.
  intros H. apply Forall_forall. intros l Hl.
  rewrite forallb_forall in H. specialize (H l Hl).
  unfold oneLine in H. apply negb_true_iff in H. exact H.
Qed.

Lemma forallb_weaken {A} (p q : A -> bool) l :
  (forall x, p x = true -> q x = true) ->
  forallb p l = true -> forallb q l = true.
Proof.
  intros Hpq H. rewrite forallb_forall in *. auto.
Qed.

(** *** Bold markers *)

Lemma stripBold_clean_upto n :
  forall s, (String.length s <= n)%nat ->
            Js.includes "**" (Js.stripBold s) = false.
Proof.
  induction n as [|n IH]; intros s Hn.
  - destruct s; [reflexivity | simpl in Hn; lia].
  - destruct s as [|a [|b s]]; [reflexivity | |].
    + cbn [Js.stripBold Js.includes Js.startsWith].
      rewrite andb_false_r. reflexivity.
    + assert (Hs : Js.includes "**" (Js.stripBold s) = false)
        by (apply IH; simpl in Hn; lia).
      assert (Hbs : Js.includes "**" (Js.stripBold (String b s)) = false)
        by (apply IH; simpl in Hn; simpl; lia).
      change (Js.stripBold (String a (String b s)))
        with (if Ascii.eqb a "*" && Ascii.eqb b "*" then Js.stripBold s
              else String a (Js.stripBold (String b s))).
      destruct (Ascii.eqb a "*" && Ascii.eqb b "*") eqn:E; [exact Hs|].
      change (Js.includes "**" (String a (Js.stripBold (String b s))))
        with (Js.startsWith "**" (String a (Js.stripBold (String b s)))
              || Js.includes "**" (Js.stripBold (String b s))).
      rewrite Hbs, orb_false_r.
      change (Js.startsWith "**" (String a (Js.stripBold (String b s))))
        with (Ascii.eqb "*" a
              && Js.startsWith "*" (Js.stripBold (String b s))).
      rewrite (Ascii.eqb_sym "*" a).
      destruct (Ascii.eqb a "*") eqn:Ea; [|reflexivity].
      cbn [andb] in E. clear Hbs.
      destruct s as [|c s]; cbn [Js.stripBold andb]; rewrite ?E;
        cbn [Js.startsWith andb];
        rewrite (Ascii.eqb_sym "*" b), E; reflexivity.
Qed.

Lemma stripBold_clean s : Js.includes "**" (Js.stripBold s) = false.
Proof. apply (stripBold_clean_upto (String.length s)). lia. Qed.

End PromptExtractor.

(** C2.  A document made of lines without the header marker, then a line
    holding the header marker, then the table (blank lines, if any, and
    then lines that are neither blank nor header lines, [N >= 1] of which
    are data rows; the others, such as the alignment row, are passed over),
    then nothing or a blank line followed by lines without the header
    marker: [extractPrompts] returns the trimmed third column of the first
    [min N 6] data rows, in row order, each with its bold markers
    removed. *)
Theorem extractPrompts_table
    (preamble : list string) (header : string) (gap body rest : list string) :
  forallb plainLine preamble = true ->
  oneLine header = true ->
  Js.includes headerMarker header = true ->
  forallb blankLine gap = true ->
  forallb bodyLine body = true ->
  (1 <= List.length (filter dataRow body))%nat ->
  afterTable rest = true ->
  let rows := filter dataRow body in
  let markdown :=
    Js.join Js.nl (preamble ++ header :: gap ++ body ++ rest) in
  extractPrompts markdown
  = map (fun row => Js.stripBold (promptCell row)) (firstn 6 rows)
  /\ List.length (extractPrompts markdown) = Nat.min (List.length rows) 6
  /\ Forall (fun p => Js.includes "**" p = false) (extractPrompts markdown).
Proof.
  intros Hpre Hone Hhdr Hgap Hbody Hn Hrest rows markdown.
  set (f := fun row => Js.stripBold (promptCell row)).
  assert (Hlines : Js.split Js.nl markdown
                   = preamble ++ header :: gap ++ body ++ rest).
  { assert (Hplain : forall x, plainLine x = true -> oneLine x = true)
      by (intros x Hx; apply andb_prop in Hx; tauto).
    assert (H1 : forallb oneLine preamble = true)
      by (apply (forallb_weaken plainLine); assumption).
    assert (H2 : forallb oneLine gap = true).
    { apply (forallb_weaken blankLine); [|exact Hgap].
      intros x Hx. apply andb_prop in Hx. tauto. }
    assert (H3 : forallb oneLine body = true).
    { apply (forallb_weaken bodyLine); [|exact Hbody].
      intros x Hx. apply andb_prop in Hx as (Hx & _). exact (Hplain _ Hx). }
    assert (H4 : forallb oneLine rest = true).
    { destruct rest as [|blank more]; [reflexivity|].
      unfold afterTable in Hrest. apply andb_prop in Hrest as (_ & Hrest).
      apply (forallb_weaken plainLine); assumption. }
    apply split_join; [destruct preamble; discriminate|].
    apply oneLine_all. rewrite forallb_app. cbn [forallb].
    rewrite !forallb_app, Hone, H1, H2, H3, H4. reflexivity. }
  assert (Hex : extractPrompts markdown = firstn 6 (map f rows)).
  { unfold extractPrompts. rewrite Hlines.
    rewrite fold_left_app, (scan_outside _ _ Hpre).
    cbn [fold_left]. rewrite (scanLine_header _ _ _ Hhdr).
    rewrite fold_left_app, (scan_gap _ Hgap).
    rewrite fold_left_app, (scan_body _ Hbody). cbn [app].
    fold f. fold rows.
    assert (Hne : map f rows <> []).
    { unfold rows. destruct (filter dataRow body);
        [simpl in Hn; lia | discriminate]. }
    pose proof (scan_after rest _ Hne Hrest) as Hafter.
    destruct (fold_left scanLine rest _) as [prompts inTable].
    cbn [fst] in Hafter. subst prompts. reflexivity. }
  rewrite Hex. split; [|split].
  - apply firstn_map.
  - rewrite length_firstn, length_map. lia.
  - rewrite firstn_map. apply Forall_map, Forall_forall.
    intros row _. apply stripBold_clean.
Qed.

Lemma extractPrompts_table_witness :
  let markdown :=
    Js.join Js.nl
      (["Here is your kit."]
       ++ "| VARIATION | IMAGE PROMPT |"
          :: []
          ++ ["| :--- | :--- |";
              "| 1 | **Vintage** cat |"; "| 2 | [Line art] dog |";
              "| 3 | watercolor fox |"; "| 4 | bold **type** |";
              "| 5 | neon city |"; "| 6 | boho sun |";
              "| 7 | one too many |"]
          ++ [""; "---"; "**TITLE & SEO (Etsy/Google)**"]) in
  extractPrompts markdown
  = ["Vintage cat"; "[Line art] dog"; "watercolor fox"; "bold type";
     "neon city"; "boho sun"]
  /\ List.length (extractPrompts markdown) = 6%nat
  /\ Forall (fun p => Js.includes "**" p = false) (extractPrompts markdown).
Proof.
  apply (extractPrompts_table
           ["Here is your kit."]
           "| VARIATION | IMAGE PROMPT |"
           []
           ["| :--- | :--- |";
            "| 1 | **Vintage** cat |"; "| 2 | [Line art] dog |";
            "| 3 | watercolor fox |"; "| 4 | bold **type** |";
            "| 5 | neon city |"; "| 6 | boho sun |"; "| 7 | one too many |"]
           [""; "---"; "**TITLE & SEO (Etsy/Google)**"]);
    [reflexivity | reflexivity | reflexivity | reflexivity | reflexivity
    | vm_compute; lia | reflexivity].
Defined.

(** * Further properties of the service *)

(** ** The Retry Executor, whatever the operation does *)

Section RetryPolicy.

Variable RemoteState : Type.
Context {T : Type}.
Variable fn : M RemoteState T.

(** X1.  With at least one attempt allowed, an operation whose first
    attempt succeeds, or fails with an error that is neither a quota signal
    nor a status 500, is invoked once and that is all: no wait, no
    callback, its outcome is the outcome of [withRetry]. *)
Theorem withRetry_first_attempt_final
    (retries initialDelay : Z) (onRetry : bool) (s : RemoteState) :
  1 <= retries ->
  (forall e, res (fn s) = inl e ->
             isQuotaError e = false /\ statusIs e 500 = false) ->
  withRetry fn retries initialDelay onRetry s = fn s.
Proof.
  intros H1 Hfatal. unfold withRetry.
  destruct (Z.to_nat retries) as [|n] eqn:En; [lia|].
  destruct (res (fn s)) as [e|v] eqn:E.
  - destruct (Hfatal e eq_refl) as (Hq & H5).
    rewrite (withRetryLoop_giveup _ _ _ _ _ _ _ _ _ E).
    + rewrite <- E. apply run_eta.
    + unfold retryable. rewrite Hq, H5. apply andb_false_r.
  - apply (withRetryLoop_success _ _ _ _ _ _ _ _ _ E).
Qed.

(** X2.  The degenerate policies.  With no attempt allowed the operation
    is not invoked and the failure is the error announcing that the
    retries are exhausted; with a single attempt allowed [withRetry] is the
    operation itself, whatever it does. *)
Theorem withRetry_degenerate
    (retries initialDelay : Z) (onRetry : bool) (s : RemoteState) :
  (retries <= 0 ->
   withRetry fn retries initialDelay onRetry s
   = mkRun (inl maxRetriesError) s [])
  /\ withRetry fn 1 initialDelay onRetry s = fn s.
Proof.
  split.
  - intros H. unfold withRetry.
    replace (Z.to_nat retries) with 0%nat by lia. reflexivity.
  - unfold withRetry. change (Z.to_nat 1) with 1%nat.
    destruct (res (fn s)) as [e|v] eqn:E.
    + rewrite (withRetryLoop_giveup _ _ _ _ _ _ _ _ _ E).
      * rewrite <- E. apply run_eta.
      * reflexivity.
    + apply (withRetryLoop_success _ _ _ _ _ _ _ _ _ E).
Qed.

(** The loop, for an operation that is one remote call: calls, waits and
    callback invocations are tied together whatever the outcomes are. *)
Lemma withRetryLoop_accounting (retries : Z) (onRetry : bool) :
  singleCall fn ->
  forall remaining i d s,
    Z.of_nat remaining = retries - i ->
    let t := tr (withRetryLoop fn retries onRetry remaining i d s) in
    (count isCall t <= remaining)%nat
    /\ ((1 <= remaining)%nat ->
        count isCall t = S (List.length (sleeps t)))
    /\ count isOnRetry t
       = (if onRetry then List.length (sleeps t) else 0%nat)
    /\ (forall j ms, nth_error (sleeps t) j = Some ms ->
                     ms = 75000 \/ ms = d * 2 ^ Z.of_nat j).
Proof.
  intros Hcall.
  induction remaining as [|remaining IH]; intros i d s Hi.
  - cbv zeta. cbn [withRetryLoop throw tr].
    split; [reflexivity|]. split; [lia|].
    split; [destruct onRetry; reflexivity|].
    intros [|j] ms H; discriminate H.
  - destruct (Hcall s) as (req & Htr). cbv zeta.
    assert (Hone :
      let t := [EvCall req] in
      (count isCall t <= S remaining)%nat
      /\ ((1 <= S remaining)%nat -> count isCall t = S (List.length (sleeps t)))
      /\ count isOnRetry t = (if onRetry then List.length (sleeps t) else 0%nat)
      /\ (forall j ms, nth_error (sleeps t) j = Some ms ->
                       ms = 75000 \/ ms = d * 2 ^ Z.of_nat j)).
    { cbv zeta. split; [unfold count; simpl; lia|].
      split; [intros _; reflexivity|].
      split; [destruct onRetry; reflexivity|].
      intros [|j] ms H; discriminate H. }
    destruct (res (fn s)) as [e|v] eqn:E.
    + destruct (retryable retries i e) eqn:R.
      * rewrite (withRetryLoop_retry _ _ _ _ _ _ _ _ _ E R). cbv zeta.
        cbn [tr]. rewrite Htr.
        assert (Hlt : i < retries - 1).
        { unfold retryable in R. apply andb_prop in R as (R & _).
          apply Z.ltb_lt. exact R. }
        destruct (IH (i + 1) (d * 2) (st (fn s)) ltac:(lia))
          as (B1 & B2 & B3 & B4).
        cbv zeta in B1, B2, B3, B4.
        specialize (B2 ltac:(lia)).
        set (next := withRetryLoop fn retries onRetry remaining (i + 1) (d * 2)
                       (st (fn s))) in *.
        assert (Hs : sleeps ([EvCall req] ++ retryEvents onRetry i d e ++ tr next)
                     = waitTime d e :: sleeps (tr next)).
        { rewrite !sleeps_app. unfold retryEvents.
          destruct onRetry; reflexivity. }
        assert (Hc : count isCall
                       ([EvCall req] ++ retryEvents onRetry i d e ++ tr next)
                     = S (count isCall (tr next))).
        { rewrite !count_app. unfold retryEvents.
          destruct onRetry; reflexivity. }
        assert (Hr : count isOnRetry
                       ([EvCall req] ++ retryEvents onRetry i d e ++ tr next)
                     = ((if onRetry then 1 else 0) + count isOnRetry (tr next))%nat).
        { rewrite !count_app. unfold retryEvents.
          destruct onRetry; reflexivity. }
        rewrite Hs, Hc, Hr, B3. cbn [List.length].
        split; [lia|]. split; [intros _; lia|].
        split; [destruct onRetry; reflexivity|].
        intros [|j] ms H.
        -- injection H as <-. unfold waitTime.
           destruct (isQuotaError e); [left; reflexivity|right].
           change (2 ^ Z.of_nat 0) with 1. lia.
        -- destruct (B4 j ms H) as [-> | ->]; [left; reflexivity|right].
           rewrite Nat2Z.inj_succ, Z.pow_succ_r by lia. lia.
      * rewrite (withRetryLoop_giveup _ _ _ _ _ _ _ _ _ E R). cbn [tr].
        rewrite Htr. exact Hone.
    + rewrite (withRetryLoop_success _ _ _ _ _ _ _ _ _ E).
      rewrite Htr. exact Hone.
Qed.

(** The order of the steps of the loop, for an operation that is one
    remote call: a call comes first, and each later call is preceded by
    the callback, when there is one, and one wait; nothing follows the
    last call. *)
Lemma withRetryLoop_steps (retries : Z) (onRetry : bool) :
  singleCall fn ->
  forall remaining i d s,
    (1 <= remaining)%nat ->
    Z.of_nat remaining = retries - i ->
    exists rounds,
      steps (tr (withRetryLoop fn retries onRetry remaining i d s))
      = Attempt :: flat_map (retryRound onRetry) rounds
      /\ (List.length rounds < remaining)%nat
      /\ map snd rounds
         = sleeps (tr (withRetryLoop fn retries onRetry remaining i d s)).
Proof.
  intros Hcall.
  induction remaining as [|remaining IH]; intros i d s Hpos Hi; [lia|].
  destruct (Hcall s) as (req & Htr).
  destruct (res (fn s)) as [e|v] eqn:E.
  - destruct (retryable retries i e) eqn:R.
    + rewrite (withRetryLoop_retry _ _ _ _ _ _ _ _ _ E R). cbv zeta.
      cbn [tr]. rewrite Htr.
      assert (Hlt : i < retries - 1).
      { unfold retryable in R. apply andb_prop in R as (R & _).
        apply Z.ltb_lt. exact R. }
      destruct (IH (i + 1) (d * 2) (st (fn s)) ltac:(lia) ltac:(lia))
        as (rounds & Hsteps & Hlen & Hwaits).
      exists ((if isQuotaError e
               then "Rate limit hit. Cooling down for 75s..."
               else "Server busy. Retrying...", waitTime d e) :: rounds).
      split; [|split].
      * rewrite !steps_app, Hsteps. unfold retryEvents, retryRound.
        destruct onRetry; reflexivity.
      * cbn [List.length]. lia.
      * rewrite !sleeps_app, <- Hwaits. unfold retryEvents.
        destruct onRetry; reflexivity.
    + rewrite (withRetryLoop_giveup _ _ _ _ _ _ _ _ _ E R). cbn [tr].
      rewrite Htr. exists []. repeat split. cbn [List.length]. lia.
  - rewrite (withRetryLoop_success _ _ _ _ _ _ _ _ _ E).
    rewrite Htr. exists []. repeat split. cbn [List.length]. lia.
Qed.

(** X3.  For an operation that is one remote call and whatever its
    outcomes: [withRetry] makes at most [retries] calls; the first step is
    a call, every later call comes right after one wait, itself right
    after the callback when there is one, and nothing follows the last
    call.  So there is exactly one wait between two consecutive calls and
    none after the last, and the callback is invoked once for each wait. *)
Theorem withRetry_accounting
    (retries initialDelay : Z) (onRetry : bool) (s : RemoteState) :
  singleCall fn ->
  1 <= retries ->
  let t := tr (withRetry fn retries initialDelay onRetry s) in
  (exists rounds,
      steps t = Attempt :: flat_map (retryRound onRetry) rounds
      /\ Z.of_nat (List.length rounds) < retries
      /\ map snd rounds = sleeps t)
  /\ (1 <= Z.of_nat (count isCall t) <= retries)
  /\ count isCall t = S (List.length (sleeps t))
  /\ count isOnRetry t = (if onRetry then List.length (sleeps t) else 0%nat).
Proof.
  intros Hcall H1. cbv zeta. unfold withRetry.
  destruct (withRetryLoop_accounting retries onRetry Hcall
              (Z.to_nat retries) 0 initialDelay s ltac:(lia))
    as (B1 & B2 & B3 & _).
  cbv zeta in B1, B2, B3. specialize (B2 ltac:(lia)).
  destruct (withRetryLoop_steps retries onRetry Hcall
              (Z.to_nat retries) 0 initialDelay s ltac:(lia) ltac:(lia))
    as (rounds & Hsteps & Hlen & Hwaits).
  split; [exists rounds; repeat split; [exact Hsteps | lia | exact Hwaits]|].
  split; [lia|]. split; assumption.
Qed.

(** X4.  For an operation that is one remote call: every wait of
    [withRetry] is the quota cooldown of 75 s or the server delay, and the
    server delay of the wait number [j] (from 0) is [initialDelay * 2^j]:
    the delay is doubled at every retry, those after a quota signal
    included. *)
Theorem withRetry_wait_schedule
    (retries initialDelay : Z) (onRetry : bool) (s : RemoteState)
    (j : nat) (ms : Z) :
  singleCall fn ->
  nth_error (sleeps (tr (withRetry fn retries initialDelay onRetry s))) j
  = Some ms ->
  ms = 75000 \/ ms = initialDelay * 2 ^ Z.of_nat j.
Proof.
  intros Hcall H. unfold withRetry in H.
  destruct (Z_le_gt_dec 0 retries) as [Hr|Hr].
  - destruct (withRetryLoop_accounting retries onRetry Hcall
                (Z.to_nat retries) 0 initialDelay s ltac:(lia))
      as (_ & _ & _ & B4).
    exact (B4 j ms H).
  - replace (Z.to_nat retries) with 0%nat in H by lia.
    destruct j; discriminate H.
Qed.

(** X5.  The callback is an observer only: whether it is supplied or not,
    [withRetry] returns the same outcome, leaves the remote service in the
    same state and emits the same events, the callback's own apart. *)
Theorem withRetry_callback_is_observer
    (retries initialDelay : Z) (s : RemoteState) :
  let quiet := filter (fun e => negb (isOnRetry e)) in
  let r1 := withRetry fn retries initialDelay true s in
  let r0 := withRetry fn retries initialDelay false s in
  res r1 = res r0 /\ st r1 = st r0 /\ quiet (tr r1) = quiet (tr r0).
Proof.
  cbv zeta. unfold withRetry.
  generalize (Z.to_nat retries) 0 initialDelay s.
  induction n as [|n IH]; intros i d s0; [repeat split|].
  destruct (res (fn s0)) as [e|v] eqn:E.
  - destruct (retryable retries i e) eqn:R.
    + rewrite !(withRetryLoop_retry _ _ _ _ _ _ _ _ _ E R). cbv zeta.
      cbn [res st tr].
      destruct (IH (i + 1) (d * 2) (st (fn s0))) as (H1 & H2 & H3).
      repeat split; try assumption.
      rewrite !filter_app, H3. reflexivity.
    + rewrite !(withRetryLoop_giveup _ _ _ _ _ _ _ _ _ E R). repeat split.
  - rewrite !(withRetryLoop_success _ _ _ _ _ _ _ _ _ E). repeat split.
Qed.

End RetryPolicy.

Lemma withRetry_first_attempt_final_witness :
  let fn := generateContent (Demo.constant (inl Demo.fatalError))
              (analyzeRequest "x") in
  withRetry fn 3 5000 true 0%nat = fn 0%nat.
Proof.
  intros fn. apply (withRetry_first_attempt_final nat fn 3 5000 true 0%nat).
  - lia.
  - intros e H. injection H as <-. split; reflexivity.
Defined.

Lemma withRetry_degenerate_witness :
  let fn := generateContent (Demo.constant (inr Demo.emptyResponse))
              (analyzeRequest "x") in
  withRetry fn (-2) 5000 true 7%nat = mkRun (inl maxRetriesError) 7%nat []
  /\ withRetry fn 1 5000 true 7%nat = fn 7%nat.
Proof.
  intros fn.
  destruct (withRetry_degenerate nat fn (-2) 5000 true 7%nat) as (H0 & H1).
  split; [apply H0; lia | exact H1].
Defined.

Lemma withRetry_accounting_witness :
  let fn := generateContent
              (Demo.scripted [inl Demo.serverError; inl Demo.quotaError;
                              inr (Demo.textResponse "ok")])
              (analyzeRequest "x") in
  let t := tr (withRetry fn 5 5000 true 0%nat) in
  (exists rounds,
      steps t = Attempt :: flat_map (retryRound true) rounds
      /\ Z.of_nat (List.length rounds) < 5
      /\ map snd rounds = sleeps t)
  /\ (1 <= Z.of_nat (count isCall t) <= 5)
  /\ count isCall t = S (List.length (sleeps t))
  /\ count isOnRetry t = List.length (sleeps t).
Proof.
  intros fn.
  apply (withRetry_accounting nat fn 5 5000 true 0%nat).
  - apply generateContent_singleCall.
  - lia.
Defined.

Lemma withRetry_wait_schedule_witness :
  let fn := generateContent
              (Demo.scripted [inl Demo.quotaError; inl Demo.serverError;
                              inr (Demo.textResponse "ok")])
              (analyzeRequest "x") in
  10000 = 75000 \/ 10000 = 5000 * 2 ^ Z.of_nat 1.
Proof.
  intros fn.
  apply (withRetry_wait_schedule nat fn 5 5000 true 0%nat 1 10000).
  - apply generateContent_singleCall.
  - reflexivity.
Defined.

(** ** The text calls: [generateKit] and [analyzeImage] *)

Section TextCalls.

Variable RemoteState : Type.
Variable remote :
  Request -> RemoteState -> (JsError + GenerateContentResponse) * RemoteState.

(** What [generateKit] and [analyzeImage] have in common: a remote call
    wrapped in [withRetry] without callback, and a fallback for a response
    without text. *)
Lemma textCall_run (req : Request) (retries d : Z) (fallback : string)
    (s : RemoteState) :
  1 <= retries -> Js.truthy fallback = true ->
  let call := withRetry (generateContent remote req) retries d false s in
  let r := bind (withRetry (generateContent remote req) retries d false)
                (fun response => ret (orElse (text response) fallback)) s in
  (forall e, res call = inl e -> res r = inl e)
  /\ (forall response t,
        res call = inr response -> text response = Some t -> t <> "" ->
        res r = inr t)
  /\ (forall response,
        res call = inr response -> noText response = true ->
        res r = inr fallback)
  /\ (forall doc, res r = inr doc -> doc <> "")
  /\ st r = st call
  /\ (1 <= Z.of_nat (count isCall (tr r)) <= retries)
  /\ count isCall (tr r) = S (List.length (sleeps (tr r)))
  /\ count isOnRetry (tr r) = 0%nat
  /\ callsCarry req (tr r)
  /\ (exists rounds,
        steps (tr r) = Attempt :: flat_map (retryRound false) rounds
        /\ Z.of_nat (List.length rounds) < retries
        /\ map snd rounds = sleeps (tr r)).
Proof.
  intros H1 Hfb call r.
  assert (Htr : tr r = tr call) by apply bind_ret_trace.
  destruct (withRetryLoop_steps RemoteState (generateContent remote req)
              retries false (generateContent_singleCall remote req)
              (Z.to_nat retries) 0 d s ltac:(lia) ltac:(lia))
    as (rounds & Hsteps & Hlen & Hwaits).
  fold (withRetry (generateContent remote req) retries d false s)
    in Hsteps, Hwaits.
  fold call in Hsteps, Hwaits.
  destruct (withRetryLoop_accounting RemoteState (generateContent remote req)
              retries false (generateContent_singleCall remote req)
              (Z.to_nat retries) 0 d s ltac:(lia)) as (B1 & B2 & B3 & _).
  cbv zeta in B1, B2, B3. specialize (B2 ltac:(lia)).
  fold (withRetry (generateContent remote req) retries d false s) in B1, B2, B3.
  fold call in B1, B2, B3.
  split; [|split; [|split; [|split; [|split]]]].
  - intros e He. subst r. rewrite (bind_err _ _ _ _ _ He). reflexivity.
  - intros response t Hc Ht Hne. subst r. rewrite (bind_ok _ _ _ _ _ Hc).
    cbn [res ret]. rewrite Ht. unfold orElse.
    destruct t; [congruence | reflexivity].
  - intros response Hc Hn. subst r. rewrite (bind_ok _ _ _ _ _ Hc).
    cbn [res ret]. f_equal. unfold noText in Hn. unfold orElse.
    destruct (text response) as [t|]; [|reflexivity].
    destruct (Js.truthy t); [discriminate | reflexivity].
  - intros doc Hd. subst r.
    destruct (res call) as [e|response] eqn:Hc; subst call.
    + rewrite (bind_err _ _ _ _ _ Hc) in Hd. discriminate.
    + rewrite (bind_ok _ _ _ _ _ Hc) in Hd. cbn [res ret] in Hd.
      injection Hd as <-. intros Habs.
      assert (Ht := orElse_truthy (text response) fallback Hfb).
      rewrite Habs in Ht. discriminate.
  - subst r. unfold bind. destruct (res call) eqn:Hc; subst call;
      rewrite Hc; reflexivity.
  - rewrite Htr. split; [lia|]. split; [exact B2|]. split; [exact B3|].
    split; [apply withRetry_callsCarry|].
    exists rounds. repeat split; [exact Hsteps | lia | exact Hwaits].
Qed.

(** X6.  [generateKit] passes on the failure of its retry-wrapped call and
    returns the text of the response when there is some; it makes between
    one and three remote calls, all with the same request; the first step
    is a call, every later call comes right after one wait, and nothing
    follows the last call; it reports no cooldown.  The request names the
    thinking model exactly when [thinkingMode] is set, the fast model
    exactly when [fastMode] is set and [thinkingMode] is not, and carries a
    reasoning budget exactly when it names the thinking model. *)
Theorem generateKit_contract
    (input productType : string) (options : KitOptions) (s : RemoteState) :
  let req := kitRequest input productType options in
  let call := withRetry (generateContent remote req) 3 5000 false s in
  let r := generateKit remote input productType options s in
  (forall e, res call = inl e -> res r = inl e)
  /\ (forall response t,
        res call = inr response -> text response = Some t -> t <> "" ->
        res r = inr t)
  /\ (1 <= count isCall (tr r) <= 3)%nat
  /\ (exists rounds,
        steps (tr r) = Attempt :: flat_map (retryRound false) rounds
        /\ (List.length rounds <= 2)%nat
        /\ map snd rounds = sleeps (tr r))
  /\ count isCall (tr r) = S (List.length (sleeps (tr r)))
  /\ count isOnRetry (tr r) = 0%nat
  /\ callsCarry req (tr r)
  /\ (model req = "gemini-3-pro-preview" <-> thinkingMode options = true)
  /\ (model req = "gemini-flash-lite-latest"
      <-> thinkingMode options = false /\ fastMode options = true)
  /\ (exists c, config req = Some c
                /\ thinkingBudget c
                   = (if thinkingMode options then Some 32768 else None)).
Proof.
  intros req call r.
  destruct (textCall_run req 3 5000 "Error generating the kit content." s
              ltac:(lia) eq_refl)
    as (H1 & H2 & _ & _ & _ & H6 & H7 & H8 & H9 & rounds & R1 & R2 & R3).
  cbv zeta in H1, H2, H6, H7, H8, H9, R1, R3.
  split; [exact H1|]. split; [exact H2|].
  split; [change (1 <= Z.of_nat (count isCall (tr r)) <= 3) in H6; lia|].
  split; [exists rounds; repeat split; [exact R1 | lia | exact R3]|].
  split; [exact H7|]. split; [exact H8|]. split; [exact H9|].
  unfold req, kitRequest. cbn [model config].
  destruct (thinkingMode options), (fastMode options); cbn.
  all: repeat split; try discriminate; try reflexivity;
    try (intros (? & ?); discriminate); try (intros; discriminate);
    try (eexists; split; reflexivity).
Qed.

(** X7.  [analyzeImage] passes on the failure of its retry-wrapped call,
    returns the text of the response when there is some and the fixed
    fallback when there is none, so that what it returns is never empty;
    it makes one or two remote calls, all with the request built from the
    image. *)
Theorem analyzeImage_contract (img : string) (s : RemoteState) :
  let req := analyzeRequest img in
  let call := withRetry (generateContent remote req) 2 5000 false s in
  let r := analyzeImage remote img s in
  (forall e, res call = inl e -> res r = inl e)
  /\ (forall response t,
        res call = inr response -> text response = Some t -> t <> "" ->
        res r = inr t)
  /\ (forall response,
        res call = inr response -> noText response = true ->
        res r = inr "Could not analyze image.")
  /\ (forall doc, res r = inr doc -> doc <> "")
  /\ (1 <= count isCall (tr r) <= 2)%nat
  /\ callsCarry req (tr r).
Proof.
  intros req call r.
  destruct (textCall_run req 2 5000 "Could not analyze image." s
              ltac:(lia) eq_refl)
    as (H1 & H2 & H3 & H4 & _ & H6 & _ & _ & H9 & _).
  cbv zeta in H1, H2, H3, H4, H6, H9.
  split; [exact H1|]. split; [exact H2|]. split; [exact H3|].
  split; [exact H4|].
  split; [change (1 <= Z.of_nat (count isCall (tr r)) <= 2) in H6; lia
         | exact H9].
Qed.

End TextCalls.

Lemma generateKit_contract_witness :
  let remote := Demo.scripted [inl Demo.serverError;
                               inr (Demo.textResponse "the kit")] in
  let options := mkKitOptions None false true in
  let r := generateKit remote "retro cat" "TSHIRT" options 0%nat in
  res r = inr "the kit"
  /\ model (kitRequest "retro cat" "TSHIRT" options) = "gemini-flash-lite-latest".
Proof.
  intros remote options.
  destruct (generateKit_contract nat remote "retro cat" "TSHIRT" options 0%nat)
    as (_ & Htext & _ & _ & _ & _ & _ & _ & Hfast & _).
  split.
  - apply (Htext (Demo.textResponse "the kit") "the kit");
      [reflexivity | reflexivity | discriminate].
  - apply Hfast. split; reflexivity.
Defined.

Lemma analyzeImage_contract_witness :
  let remote := Demo.scripted [inl Demo.quotaError; inr Demo.emptyResponse] in
  let r := analyzeImage remote "data:image/png;base64,AAAA" 0%nat in
  res r = inr "Could not analyze image."
  /\ "Could not analyze image." <> "".
Proof.
  intros remote.
  destruct (analyzeImage_contract nat remote "data:image/png;base64,AAAA" 0%nat)
    as (_ & _ & Hfallback & Hnonempty & _).
  assert (H : res (analyzeImage remote "data:image/png;base64,AAAA" 0%nat)
              = inr "Could not analyze image.")
    by (apply (Hfallback Demo.emptyResponse); reflexivity).
  split; [exact H | exact (Hnonempty _ H)].
Defined.

(** ** The image payload of a request *)

(** X8.  The inline part built from an image string carries what stands
    between the first and the second comma of the string: for a data URL,
    header, comma, payload, it is the payload; for a string without comma
    it is nothing at all, and the request goes out with no image data. *)
Theorem jpegPart_payload (img : string) :
  (forall header payload,
      Js.includes "," header = false -> Js.includes "," payload = false ->
      img = (header ++ String "," payload)%string ->
      inlineData (jpegPart img) = Some (mkInline (Some "image/jpeg") (Some payload)))
  /\ (Js.includes "," img = false ->
      inlineData (jpegPart img) = Some (mkInline (Some "image/jpeg") None)).
Proof.
  split.
  - intros header payload Hh Hp ->. unfold jpegPart. cbn [inlineData].
    rewrite (split_app _ _ _ Hh), (split_free _ _ Hp). reflexivity.
  - intros H. unfold jpegPart. cbn [inlineData].
    rewrite (split_free _ _ H). reflexivity.
Qed.

Lemma jpegPart_payload_witness :
  inlineData (jpegPart "data:image/jpeg;base64,QUJD")
  = Some (mkInline (Some "image/jpeg") (Some "QUJD"))
  /\ inlineData (jpegPart "QUJD") = Some (mkInline (Some "image/jpeg") None).
Proof.
  split.
  - apply (proj1 (jpegPart_payload "data:image/jpeg;base64,QUJD")
             "data:image/jpeg;base64" "QUJD"); reflexivity.
  - apply (proj2 (jpegPart_payload "QUJD")). reflexivity.
Defined.

(** ** The instruction template *)

(** X9.  Whatever the product type, the instruction asks for a table under
    the very header that [extractPrompts] looks for, and its own example of
    the table is read back as its two placeholder rows.  The card template
    is part of the instruction exactly for the product type INVITATION,
    and the flat-artwork rule exactly for TSHIRT; every other product type
    gets the card layout rule. *)
Theorem getSystemInstruction_shape (productType : string) :
  let text := getSystemInstruction productType in
  Js.includes headerMarker text = true
  /\ extractPrompts text = ["[Prompt 1]"; "[Prompt 2]"]
  /\ (Js.includes "**CARD TEMPLATE TEXT:**" text = true
      <-> productType = "INVITATION")
  /\ (Js.includes "isolated on white background" text = true
      <-> productType = "TSHIRT")
  /\ (Js.includes "5x7 inch layout" text = true <-> productType <> "TSHIRT").
Proof.
  cbv zeta. unfold getSystemInstruction.
  rewrite <- (String.eqb_eq productType "INVITATION").
  rewrite <- (String.eqb_neq productType "TSHIRT").
  rewrite <- (String.eqb_eq productType "TSHIRT").
  destruct (String.eqb productType "TSHIRT"),
    (String.eqb productType "INVITATION");
    (split; [vm_compute; reflexivity|]);
    (split; [vm_compute; reflexivity|]);
    repeat split; intros H; try reflexivity; try discriminate H;
      try (vm_compute in H; discriminate H);
      try (vm_compute; reflexivity).
Qed.

(** ** The Prompt Extractor on arbitrary documents *)

Section Substrings.

Lemma includes_cons p a s :
  Js.includes p s = true -> Js.includes p (String a s) = true.
Proof. intros H. cbn [Js.includes]. rewrite H. apply orb_true_r. Qed.

Lemma includes_empty s : Js.includes EmptyString s = true.
Proof. destruct s; reflexivity. Qed.

Lemma startsWith_app p f g :
  Js.startsWith p f = true -> Js.startsWith p (f ++ g)%string = true.
Proof.
  revert f. induction p as [|a p IH]; intros f H; [reflexivity|].
  destruct f as [|b f]; [discriminate|].
  cbn [Js.startsWith append] in *. apply andb_prop in H as (Hab & Hp).
  rewrite Hab, (IH _ Hp). reflexivity.
Qed.

Lemma includes_app_l p f g :
  Js.includes p f = true -> Js.includes p (f ++ g)%string = true.
Proof.
  induction f as [|a f IH]; intros H.
  - destruct p; [apply includes_empty | discriminate].
  - cbn [Js.includes] in H. apply orb_prop in H as [H|H].
    + pose proof (startsWith_app _ (String a f) g H) as Hs.
      cbn [append] in Hs. cbn [append Js.includes]. rewrite Hs. reflexivity.
    + cbn [append]. apply includes_cons, IH, H.
Qed.

Lemma includes_app_r p f g :
  Js.includes p g = true -> Js.includes p (f ++ g)%string = true.
Proof.
  intros H. induction f as [|a f IH]; [exact H|].
  cbn [append]. apply includes_cons, IH.
Qed.

(** Splitting loses nothing: the fields joined again are the string. *)
Lemma join_split c s : Js.join c (Js.split c s) = s.
Proof.
  induction s as [|a s IH]; [reflexivity|].
  cbn [Js.split]. destruct (Ascii.eqb_spec a c) as [->|Hac].
  - destruct (Js.split c s) as [|f fs] eqn:E.
    + simpl in IH. subst s. discriminate E.
    + change (Js.join c (EmptyString :: f :: fs))
        with (String c (Js.join c (f :: fs))). rewrite IH. reflexivity.
  - destruct (Js.split c s) as [|f fs] eqn:E.
    + simpl in IH. subst s. discriminate E.
    + destruct fs as [|g fs].
      * simpl in IH. simpl. rewrite IH. reflexivity.
      * change (Js.join c (String a f :: g :: fs))
          with (String a (f ++ String c (Js.join c (g :: fs))))%string.
        change (Js.join c (f :: g :: fs))
          with (f ++ String c (Js.join c (g :: fs)))%string in IH.
        rewrite IH. reflexivity.
Qed.

Lemma includes_join p c lines line :
  In line lines -> Js.includes p line = true ->
  Js.includes p (Js.join c lines) = true.
Proof.
  induction lines as [|l lines IH]; intros Hin Hp; [destruct Hin|].
  destruct lines as [|l' lines].
  - destruct Hin as [->|[]]. exact Hp.
  - change (Js.join c (l :: l' :: lines))
      with (l ++ String c (Js.join c (l' :: lines)))%string.
    destruct Hin as [->|Hin].
    + apply includes_app_l, Hp.
    + apply includes_app_r, includes_cons, IH; assumption.
Qed.

(** What occurs in a field of a string occurs in the string. *)
Lemma includes_field p c s line :
  In line (Js.split c s) -> Js.includes p line = true ->
  Js.includes p s = true.
Proof.
  intros Hin Hp. rewrite <- (join_split c s).
  exact (includes_join p c _ line Hin Hp).
Qed.

Lemma without_field c c' s :
  without c' s = true -> Forall (fun f => without c' f = true) (Js.split c s).
Proof.
  intros H. apply Forall_forall. intros f Hf. unfold without in *.
  apply negb_true_iff. apply negb_true_iff in H.
  destruct (Js.includes (String c' EmptyString) f) eqn:E; [|reflexivity].
  rewrite (includes_field _ c s f Hf E) in H. discriminate.
Qed.

(** No field holds the separator. *)
Lemma split_fields c s :
  Forall (fun f => without c f = true) (Js.split c s).
Proof.
  unfold without. induction s as [|a s IH]; [repeat constructor|].
  cbn [Js.split]. destruct (Ascii.eqb a c) eqn:E.
  - constructor; [reflexivity | exact IH].
  - destruct (Js.split c s) as [|f fs]; [repeat constructor|].
    + rewrite includes_char_cons, Ascii.eqb_sym, E. reflexivity.
    + inversion IH as [|? ? Hf Hfs]; subst. constructor; [|exact Hfs].
      rewrite includes_char_cons, Ascii.eqb_sym, E. exact Hf.
Qed.

Lemma without_cons c a s :
  without c (String a s) = negb (Ascii.eqb c a) && without c s.
Proof. unfold without. rewrite includes_char_cons. apply negb_orb. Qed.

Lemma without_stripBold_upto c n :
  forall s, (String.length s <= n)%nat ->
            without c s = true -> without c (Js.stripBold s) = true.
Proof.
  induction n as [|n IH]; intros s Hn H.
  - destruct s; [reflexivity | simpl in Hn; lia].
  - destruct s as [|a [|b s]]; [reflexivity | exact H |].
    change (Js.stripBold (String a (String b s)))
      with (if Ascii.eqb a "*" && Ascii.eqb b "*" then Js.stripBold s
            else String a (Js.stripBold (String b s))).
    rewrite without_cons in H. apply andb_prop in H as (Ha & Hbs).
    destruct (Ascii.eqb a "*" && Ascii.eqb b "*").
    + rewrite without_cons in Hbs. apply andb_prop in Hbs as (_ & Hs).
      apply IH; [simpl in Hn; lia | exact Hs].
    + rewrite without_cons, Ha. apply IH; [simpl in Hn; simpl; lia | exact Hbs].
Qed.

Lemma without_stripBold c s :
  without c s = true -> without c (Js.stripBold s) = true.
Proof. apply (without_stripBold_upto c (String.length s)). lia. Qed.

(** Where there is no bold marker, removing bold markers changes
    nothing. *)
Lemma stripBold_id_upto n :
  forall s, (String.length s <= n)%nat ->
            Js.includes "**" s = false -> Js.stripBold s = s.
Proof.
  induction n as [|n IH]; intros s Hn H.
  - destruct s; [reflexivity | simpl in Hn; lia].
  - destruct s as [|a [|b s]]; [reflexivity | reflexivity |].
    change (Js.stripBold (String a (String b s)))
      with (if Ascii.eqb a "*" && Ascii.eqb b "*" then Js.stripBold s
            else String a (Js.stripBold (String b s))).
    change (Js.includes "**" (String a (String b s)))
      with ((Ascii.eqb "*" a && (Ascii.eqb "*" b && true))
            || Js.includes "**" (String b s)) in H.
    apply orb_false_elim in H as (Hab & Hbs).
    rewrite andb_true_r, (Ascii.eqb_sym "*" a), (Ascii.eqb_sym "*" b) in Hab.
    rewrite Hab. f_equal. apply IH; [simpl in Hn; simpl; lia | exact Hbs].
Qed.

Lemma stripBold_id s : Js.includes "**" s = false -> Js.stripBold s = s.
Proof. apply (stripBold_id_upto (String.length s)). lia. Qed.

End Substrings.

Section ExtractorAtLarge.

Lemma firstn_In {A} (x : A) n l : In x (firstn n l) -> In x l.
Proof.
  revert l. induction n as [|n IH]; intros [|a l] H; try destruct H.
  - left. assumption.
  - right. apply IH. assumption.
Qed.

Lemma scan_no_marker lines prompts :
  Forall (fun l => Js.includes headerMarker l = false) lines ->
  fold_left scanLine lines (prompts, false) = (prompts, false).
Proof.
  induction 1 as [|l lines Hl _ IH]; [reflexivity|].
  cbn [fold_left]. rewrite (scanLine_outside _ _ Hl). exact IH.
Qed.

(** X10.  A document in which the header marker does not occur yields no
    prompt, whatever else it holds. *)
Theorem extractPrompts_no_header (markdown : string) :
  Js.includes headerMarker markdown = false ->
  extractPrompts markdown = [].
Proof.
  intros H. unfold extractPrompts.
  rewrite scan_no_marker; [reflexivity|].
  apply Forall_forall. intros l Hl.
  destruct (Js.includes headerMarker l) eqn:E; [|reflexivity].
  rewrite (includes_field _ _ _ _ Hl E) in H. discriminate.
Qed.

Lemma scanLine_shape prompts inTable line :
  Forall promptShape prompts -> without Js.nl line = true ->
  Forall promptShape (fst (scanLine (prompts, inTable) line)).
Proof.
  intros Hps Hline. unfold scanLine.
  destruct (Js.includes headerMarker line); [exact Hps|].
  cbn [fst].
  destruct (inTable && Js.includes "|" line); [|exact Hps].
  destruct (3 <=? List.length (Js.split "|" line))%nat; [|exact Hps].
  match goal with |- context [if ?b then _ else _] => destruct b end;
    [|exact Hps].
  apply Forall_app. split; [exact Hps|]. constructor; [|constructor].
  set (cell := nth 2 (Js.split "|" line) "").
  assert (Hbar : without "|" cell = true).
  { destruct (nth_in_or_default 2 (Js.split "|" line) "") as [Hin|Hd].
    - exact (proj1 (Forall_forall _ _) (split_fields "|" line) _ Hin).
    - unfold cell. rewrite Hd. reflexivity. }
  assert (Hnl : without Js.nl cell = true).
  { destruct (nth_in_or_default 2 (Js.split "|" line) "") as [Hin|Hd].
    - exact (proj1 (Forall_forall _ _)
               (without_field "|" Js.nl line Hline) _ Hin).
    - unfold cell. rewrite Hd. reflexivity. }
  repeat split.
  - apply without_stripBold, without_trim, Hbar.
  - apply without_stripBold, without_trim, Hnl.
  - apply stripBold_clean.
Qed.

Lemma scan_shape lines :
  Forall (fun l => without Js.nl l = true) lines ->
  forall prompts inTable,
    Forall promptShape prompts ->
    Forall promptShape (fst (fold_left scanLine lines (prompts, inTable))).
Proof.
  induction 1 as [|l lines Hl _ IH]; intros prompts inTable Hps; [exact Hps|].
  cbn [fold_left].
  pose proof (scanLine_shape prompts inTable l Hps Hl) as Hstep.
  destruct (scanLine (prompts, inTable) l) as [prompts1 inTable1].
  apply IH. exact Hstep.
Qed.

Lemma extractPrompts_bounds_aux (markdown prompt : string) :
  In prompt (extractPrompts markdown) -> promptShape prompt.
Proof.
  unfold extractPrompts.
  pose proof (scan_shape (Js.split Js.nl markdown)
                (split_fields Js.nl markdown) [] false (Forall_nil _)) as H.
  destruct (fold_left scanLine (Js.split Js.nl markdown) ([], false))
    as [prompts inTable].
  cbn [fst] in H. intros Hp.
  exact (proj1 (Forall_forall _ _) H prompt (firstn_In _ _ _ Hp)).
Qed.

(** X11.  Whatever the document, [extractPrompts] returns at most six
    prompts, and none of them holds a column separator, a line feed or a
    bold marker. *)
Theorem extractPrompts_bounds (markdown : string) :
  (List.length (extractPrompts markdown) <= 6)%nat
  /\ Forall (fun p => without "|" p = true /\ without Js.nl p = true
                      /\ Js.includes "**" p = false)
            (extractPrompts markdown).
Proof.
  split.
  - unfold extractPrompts.
    destruct (fold_left scanLine (Js.split Js.nl markdown) ([], false))
      as [prompts inTable].
    rewrite length_firstn. lia.
  - apply Forall_forall. intros p Hp.
    exact (extractPrompts_bounds_aux markdown p Hp).
Qed.

(** X12.  The prompts that [extractPrompts] hands to
    [generatePreviewImages] have lost their bold markers already: cleaning
    them there removes the brackets and trims, and nothing else. *)
Theorem cleanPrompt_of_extracted (markdown prompt : string) :
  In prompt (extractPrompts markdown) ->
  cleanPrompt prompt = Js.trim (Js.stripBrackets prompt).
Proof.
  intros Hin. unfold cleanPrompt.
  destruct (extractPrompts_bounds_aux markdown prompt Hin) as (_ & _ & H).
  rewrite (stripBold_id _ H). reflexivity.
Qed.

End ExtractorAtLarge.



Lemma extractPrompts_no_header_witness :
  extractPrompts "| 1 | a cat |
| 2 | a dog |" = [].
Proof. apply extractPrompts_no_header. reflexivity. Defined.

Lemma cleanPrompt_of_extracted_witness :
  cleanPrompt "[Line art] dog" = Js.trim (Js.stripBrackets "[Line art] dog").
Proof.
  apply (cleanPrompt_of_extracted
           "| VARIATION | IMAGE PROMPT |
| 1 | **[Line art] dog** |").
  left. reflexivity.
Defined.

(** ** Cleaning a prompt *)

Section CleanPrompt.

Lemma without_stripBrackets s :
  without "[" (Js.stripBrackets s) = true
  /\ without "]" (Js.stripBrackets s) = true.
Proof.
  induction s as [|a s (IH1 & IH2)]; [split; reflexivity|].
  cbn [Js.stripBrackets].
  destruct (Ascii.eqb a "[") eqn:E1; [split; assumption|].
  destruct (Ascii.eqb a "]") eqn:E2; [split; assumption|].
  cbn [orb]. rewrite !without_cons, IH1, IH2.
  rewrite (Ascii.eqb_sym "[" a), (Ascii.eqb_sym "]" a), E1, E2.
  split; reflexivity.
Qed.

(** X14.  A cleaned prompt holds no bracket, and neither begins nor ends
    with a white space character (so that trimming it again changes
    nothing). *)
Theorem cleanPrompt_clean (prompt : string) :
  without "[" (cleanPrompt prompt) = true
  /\ without "]" (cleanPrompt prompt) = true
  /\ startsWithSpace (cleanPrompt prompt) = false
  /\ endsWithSpace (cleanPrompt prompt) = false
  /\ Js.trim (cleanPrompt prompt) = cleanPrompt prompt.
Proof.
  unfold cleanPrompt.
  destruct (without_stripBrackets (Js.stripBold prompt)) as (H1 & H2).
  split; [apply without_trim, H1|]. split; [apply without_trim, H2|].
  split; [apply startsWithSpace_trim|]. split; [apply endsWithSpace_trim|].
  apply trim_idem.
Qed.

End CleanPrompt.

(** ** The Image Batch Generator, whatever the remote service answers *)

Section BatchAtLarge.

Variable RemoteState : Type.
Variable remote :
  Request -> RemoteState -> (JsError + GenerateContentResponse) * RemoteState.
Variable prompts : list string.
Variable options : PreviewOptions.
Variables onAssetReady onCooldownStart : bool.

Local Abbreviation call i :=
  (previewCall remote options onCooldownStart (nth i prompts "")).
Local Abbreviation iteration :=
  (previewIteration remote prompts options onAssetReady onCooldownStart).
Local Abbreviation loop :=
  (previewLoop remote prompts options onAssetReady onCooldownStart).
Local Abbreviation outcomes :=
  (previewOutcomes remote options onCooldownStart prompts).

(** One iteration, whatever its call returns. *)
Lemma previewIteration_run i results s :
  exists mid,
    iteration i results s
    = mkRun (inr (results ++ deliveredFrom prompts i [res (call i s)]))
            (st (call i s))
            (tr (call i s) ++ mid ++ pauseAfter prompts i)
    /\ announced mid
       = (if onAssetReady then deliveredFrom prompts i [res (call i s)]
          else [])
    /\ count isConsoleError mid
       = (if succeeded (res (call i s)) then 0 else 1)%nat
    /\ count isPause mid = 0%nat
    /\ calls mid = [].
Proof.
  destruct (res (call i s)) as [e|response] eqn:E.
  - exists [EvConsoleError
              ("Skipping variation due to limit: " ++ nth i prompts "")%string
              e].
    split.
    + rewrite (previewIteration_err _ _ _ _ _ _ _ _ _ _ E).
      cbn [deliveredFrom app]. rewrite app_nil_r. reflexivity.
    + repeat split. destruct onAssetReady; reflexivity.
  - destruct (responseImage response) as [d|] eqn:Ed.
    + exists (if onAssetReady then [EvAssetReady (assetFor prompts i d)] else []).
      split.
      * rewrite (previewIteration_image _ _ _ _ _ _ _ _ _ _ _ E Ed).
        cbn [deliveredFrom]. rewrite Ed, app_nil_r. reflexivity.
      * cbn [deliveredFrom succeeded]. rewrite Ed.
        destruct onAssetReady; repeat split.
    + exists []. split.
      * rewrite (previewIteration_noimage _ _ _ _ _ _ _ _ _ _ E Ed).
        cbn [deliveredFrom]. rewrite Ed, !app_nil_r. reflexivity.
      * cbn [deliveredFrom succeeded]. rewrite Ed.
        destruct onAssetReady; repeat split.
Qed.

Lemma pauseAfter_count i remaining :
  (i + S remaining = List.length prompts)%nat ->
  count isPause (pauseAfter prompts i)
  = match remaining with O => 0 | S _ => 1 end%nat
  /\ calls (pauseAfter prompts i) = [].
Proof.
  intros H. unfold pauseAfter.
  destruct (Z.ltb_spec (Z.of_nat i) (Z.of_nat (List.length prompts) - 1));
    destruct remaining; try lia; split; reflexivity.
Qed.

Lemma previewLoop_run :
  forall remaining i results s,
    (i + remaining = List.length prompts)%nat ->
    let r := loop remaining i results s in
    let outs := outcomes remaining i s in
    res r = inr (results ++ deliveredFrom prompts i outs)
    /\ announced (tr r)
       = (if onAssetReady then deliveredFrom prompts i outs else [])
    /\ count isConsoleError (tr r)
       = List.length (filter (fun o => negb (succeeded o)) outs)
    /\ count isPause (tr r) = (remaining - 1)%nat
    /\ exists ns,
         List.length ns = remaining
         /\ Forall (fun n => (1 <= n <= 2)%nat) ns
         /\ calls (tr r) = previewBlocks options prompts i ns.
Proof.
  induction remaining as [|remaining IH]; intros i results s Hi.
  - cbv zeta. cbn [previewLoop previewOutcomes deliveredFrom ret res tr].
    rewrite app_nil_r. repeat split.
    + destruct onAssetReady; reflexivity.
    + exists []. repeat split. constructor.
  - destruct (previewIteration_run i results s)
      as (mid & Hit & Ma & Me & Mp & Mc).
    destruct (IH (i + 1)%nat
                (results ++ deliveredFrom prompts i [res (call i s)])
                (st (call i s)) ltac:(lia))
      as (I1 & I2 & I3 & I4 & (ns & Hn1 & Hn2 & Hn3)).
    cbv zeta in I1, I2, I3, I4, Hn3.
    destruct (withRetry2_quiet RemoteState remote
                (previewRequest options (nth i prompts "")) onCooldownStart s)
      as (Qa & Qe & Qp).
    destruct (withRetry2_calls RemoteState remote
                (previewRequest options (nth i prompts "")) 65000
                onCooldownStart s) as (n & Hn & Qc).
    cbv zeta in Qa, Qe, Qp.
    fold (previewCall remote options onCooldownStart (nth i prompts "") s)
      in Qa, Qe, Qp, Qc.
    destruct (pauseAfter_count i remaining Hi) as (Pp & Pc).
    destruct (pauseAfter_quiet prompts i) as (Pa & Pe).
    cbv zeta.
    rewrite (previewLoop_step _ _ _ _ _ _ remaining i results s
               (results ++ deliveredFrom prompts i [res (call i s)]))
      by (rewrite Hit; reflexivity).
    cbv zeta. rewrite Hit. cbn [res st tr previewOutcomes].
    set (next := loop remaining (i + 1)%nat
                   (results ++ deliveredFrom prompts i [res (call i s)])
                   (st (call i s))) in *.
    set (outs := outcomes remaining (i + 1)%nat (st (call i s))) in *.
    assert (Hd : deliveredFrom prompts i (res (call i s) :: outs)
                 = deliveredFrom prompts i [res (call i s)]
                   ++ deliveredFrom prompts (i + 1) outs).
    { cbn [deliveredFrom]. rewrite app_nil_r. reflexivity. }
    split; [|split; [|split; [|split]]].
    + rewrite I1, Hd, app_assoc. reflexivity.
    + rewrite !announced_app, Qa, Ma, Pa, I2, Hd.
      destruct onAssetReady; [rewrite app_nil_r|]; reflexivity.
    + rewrite !count_app, Qe, Me, Pe, I3. cbn [filter].
      destruct (succeeded (res (call i s))); reflexivity.
    + rewrite !count_app, Qp, Mp, Pp, I4. destruct remaining; simpl; lia.
    + exists (n :: ns). split; [simpl; congruence|].
      split; [constructor; assumption|].
      rewrite !calls_app, Qc, Mc, Pc, Hn3. cbn [previewBlocks app].
      rewrite app_nil_r. reflexivity.
Qed.

Lemma deliveredFrom_length i outs :
  (List.length (deliveredFrom prompts i outs) <= List.length outs)%nat.
Proof.
  revert i. induction outs as [|o outs IH]; intros i; [reflexivity|].
  cbn [deliveredFrom]. rewrite length_app. specialize (IH (i + 1)%nat).
  destruct o as [e|r]; [simpl; lia|].
  destruct (responseImage r); simpl; lia.
Qed.

Lemma previewOutcomes_length remaining :
  forall i s, List.length (outcomes remaining i s) = remaining.
Proof.
  induction remaining as [|remaining IH]; intros i s; [reflexivity|].
  cbn [previewOutcomes List.length]. rewrite IH. reflexivity.
Qed.

Lemma previewBlocks_length i ns :
  Forall (fun n => (1 <= n <= 2)%nat) ns ->
  (List.length ns <= List.length (previewBlocks options prompts i ns)
   <= 2 * List.length ns)%nat.
Proof.
  intros H. revert i. induction H as [|n ns Hn _ IH]; intros i; [simpl; lia|].
  cbn [previewBlocks List.length]. rewrite length_app, repeat_length.
  specialize (IH (i + 1)%nat). lia.
Qed.

Lemma previewBlocks_requests i ns :
  Forall (fun q => exists j, q = previewRequest options (nth j prompts ""))
         (previewBlocks options prompts i ns).
Proof.
  revert i. induction ns as [|n ns IH]; intros i; [constructor|].
  cbn [previewBlocks]. apply Forall_app. split; [|apply IH].
  apply Forall_forall. intros q Hq. apply repeat_spec in Hq. exists i. exact Hq.
Qed.

(** X15.  Whatever the remote service answers, [generatePreviewImages]
    returns: its result is, in the order of the prompts, one asset for each
    prompt whose call ended with a response holding an inline image, and
    so no longer than the list of prompts; with an [onAssetReady] callback
    the assets announced are exactly the assets returned, in the same
    order, and without one nothing is announced. *)
Theorem generatePreviewImages_result (s : RemoteState) :
  let r := generatePreviewImages remote prompts options onAssetReady
             onCooldownStart s in
  let outs := outcomes (List.length prompts) 0%nat s in
  exists out,
    res r = inr out
    /\ out = deliveredFrom prompts 0 outs
    /\ (List.length out <= List.length prompts)%nat
    /\ announced (tr r) = (if onAssetReady then out else []).
Proof.
  intros r outs.
  destruct (previewLoop_run (List.length prompts) 0 [] s eq_refl)
    as (H1 & H2 & _).
  cbv zeta in H1, H2.
  exists (deliveredFrom prompts 0 outs).
  split; [exact H1|]. split; [reflexivity|]. split; [|exact H2].
  etransitivity; [apply deliveredFrom_length|].
  unfold outs. rewrite previewOutcomes_length. reflexivity.
Qed.

(** X16.  The pace of the batch.  Whatever the remote service answers,
    [generatePreviewImages] lets the fixed delay of 45 s elapse exactly
    once between two prompts (one less than there are prompts), logs one
    failure for each call that ended in failure, and sends to the remote
    service the request of each prompt in turn, once or twice: between
    [n] and [2 n] remote calls for [n] prompts, each for the model that the
    quality flag selects. *)
Theorem generatePreviewImages_pace (s : RemoteState) :
  let r := generatePreviewImages remote prompts options onAssetReady
             onCooldownStart s in
  let outs := outcomes (List.length prompts) 0%nat s in
  count isPause (tr r) = (List.length prompts - 1)%nat
  /\ count isConsoleError (tr r)
     = List.length (filter (fun o => negb (succeeded o)) outs)
  /\ (exists ns,
        List.length ns = List.length prompts
        /\ Forall (fun n => (1 <= n <= 2)%nat) ns
        /\ calls (tr r) = previewBlocks options prompts 0 ns)
  /\ (List.length prompts <= List.length (calls (tr r))
      <= 2 * List.length prompts)%nat
  /\ Forall (fun q => model q = (if useHighQuality options
                                 then "gemini-3-pro-image-preview"
                                 else "gemini-2.5-flash-image"))
            (calls (tr r)).
Proof.
  intros r outs.
  destruct (previewLoop_run (List.length prompts) 0 [] s eq_refl)
    as (_ & _ & H3 & H4 & (ns & Hn1 & Hn2 & Hn3)).
  cbv zeta in H3, H4, Hn3.
  fold (generatePreviewImages remote prompts options onAssetReady
          onCooldownStart s) in H3, H4, Hn3.
  fold r in H3, H4, Hn3.
  split; [exact H4|]. split; [exact H3|].
  split; [exists ns; repeat split; assumption|].
  rewrite Hn3. split.
  - rewrite <- Hn1. apply previewBlocks_length, Hn2.
  - eapply Forall_impl; [|apply previewBlocks_requests].
    intros q (j & ->). reflexivity.
Qed.

End BatchAtLarge.

(** ** The Image Editor, whatever the remote service answers *)

Section EditorAtLarge.

Variable RemoteState : Type.
Variable remote :
  Request -> RemoteState -> (JsError + GenerateContentResponse) * RemoteState.

Lemma editOutcomes_length img prompt remaining :
  forall i s,
    List.length (editOutcomes remote img prompt remaining i s) = remaining.
Proof.
  induction remaining as [|remaining IH]; intros i s; [reflexivity|].
  cbn [editOutcomes List.length]. rewrite IH. reflexivity.
Qed.

Lemma deliveredAssets_shape instruction outs :
  Forall (fun a => prompt a = instruction
                   /\ Js.startsWith "data:image/png;base64," (url a) = true)
         (flat_map (deliveredAssets instruction) outs).
Proof.
  induction outs as [|o outs IH]; [constructor|].
  cbn [flat_map]. apply Forall_app. split; [|exact IH].
  destruct o as [e|r]; [constructor|]. cbn [deliveredAssets].
  destruct (responseImage r); repeat constructor.
Qed.

Lemma callBlocks_length img instruction i ns :
  Forall (fun n => (1 <= n <= 2)%nat) ns ->
  (List.length ns <= List.length (callBlocks img instruction i ns)
   <= 2 * List.length ns)%nat.
Proof.
  intros H. revert i. induction H as [|n ns Hn _ IH]; intros i; [simpl; lia|].
  cbn [callBlocks List.length]. rewrite length_app, repeat_length.
  specialize (IH (i + 1)%nat). lia.
Qed.

Lemma callBlocks_requests img instruction i ns :
  Forall (fun q => exists j, q = editRequest img instruction j)
         (callBlocks img instruction i ns).
Proof.
  revert i. induction ns as [|n ns IH]; intros i; [constructor|].
  cbn [callBlocks]. apply Forall_app. split; [|apply IH].
  apply Forall_forall. intros q Hq. apply repeat_spec in Hq. exists i. exact Hq.
Qed.

(** X17.  Whatever the remote service answers, [editImageWithGemini]
    returns at most six assets, each of them carrying the instruction as
    its prompt and a PNG data URL; it sends between 6 and 12 requests, all
    of them to the image editing model with the reference image as their
    first part. *)
Theorem editImageWithGemini_assets (img instruction : string) (s : RemoteState) :
  let r := editImageWithGemini remote img instruction s in
  (exists results,
      res r = inr results
      /\ (List.length results <= 6)%nat
      /\ Forall (fun a => prompt a = instruction
                          /\ Js.startsWith "data:image/png;base64," (url a)
                             = true) results)
  /\ (6 <= List.length (calls (tr r)) <= 12)%nat
  /\ Forall (fun q => model q = "gemini-2.5-flash-image"
                      /\ hd_error (contents q) = Some (jpegPart img))
            (calls (tr r)).
Proof.
  intros r.
  destruct (editLoop_run RemoteState remote img instruction 6 0 [] s)
    as (H1 & _ & (ns & Hn1 & Hn2 & Hn3) & _).
  cbv zeta in H1, Hn3.
  fold (editImageWithGemini remote img instruction s) in H1, Hn3.
  fold r in H1, Hn3.
  split; [|split].
  - eexists. split; [exact H1|]. rewrite app_nil_l. split.
    + rewrite delivered_length.
      etransitivity; [apply filter_length_le|].
      rewrite editOutcomes_length. reflexivity.
    + apply deliveredAssets_shape.
  - rewrite Hn3.
    pose proof (callBlocks_length img instruction 0 ns Hn2) as H. lia.
  - rewrite Hn3. eapply Forall_impl; [|apply callBlocks_requests].
    intros q (j & ->). split; reflexivity.
Qed.

End EditorAtLarge.

(** * Properties of the application shell *)

(** X18.  The two mode buttons.  After a click on either of them, whatever
    the modes were before and whatever clicks follow, thinking mode and
    fast mode are not both set; nor are they after any clicks from the
    state at mount. *)
Theorem modes_never_both
    (a : App.State) (c : App.modeClick) (clicks : list App.modeClick) :
  let after := fold_left App.click clicks (App.click a c) in
  let fromMount := fold_left App.click clicks App.initial in
  App.thinkingMode after && App.fastMode after = false
  /\ App.thinkingMode fromMount && App.fastMode fromMount = false.
Proof.
  assert (Hkeep : forall l b,
            App.thinkingMode b && App.fastMode b = false ->
            App.thinkingMode (fold_left App.click l b)
            && App.fastMode (fold_left App.click l b) = false).
  { induction l as [|c' l IH]; intros b Hb; [exact Hb|].
    cbn [fold_left]. apply IH. destruct c'; cbn; [apply andb_false_r|reflexivity]. }
  cbv zeta. split; apply Hkeep.
  - destruct c; cbn; [apply andb_false_r | reflexivity].
  - reflexivity.
Qed.

(** X19.  The countdown shown while an image is awaited: from 45 it goes
    down by one every second, and the second after it has reached 0 it is
    back at 45; it never leaves the range from 0 to 45. *)
Theorem timerTick_cycle (n : nat) :
  Nat.iter n timerTick 45 = 45 - Z.of_nat n mod 46
  /\ 0 <= Nat.iter n timerTick 45 <= 45.
Proof.
  assert (H : Nat.iter n timerTick 45 = 45 - Z.of_nat n mod 46).
  { induction n as [|n IH]; [reflexivity|].
    rewrite Nat.iter_succ, IH. unfold timerTick.
    rewrite Nat2Z.inj_succ.
    destruct (Z.gtb_spec (45 - Z.of_nat n mod 46) 0);
      Z.div_mod_to_equations; lia. }
  split; [exact H|]. rewrite H. Z.div_mod_to_equations. lia.
Qed.

Lemma calls_count (t : list event) : List.length (calls t) = count isCall t.
Proof.
  unfold calls, count. induction t as [|e t IH]; [reflexivity|].
  destruct e; simpl; rewrite ?IH; reflexivity.
Qed.

Section Shell.

Variable RemoteState : Type.
Variable remote :
  Request -> RemoteState -> (JsError + GenerateContentResponse) * RemoteState.

(** What the two callbacks do to the state while a batch runs: they add
    the announced assets to the result and touch nothing of what the
    handler itself sets. *)
Lemma replay_fold (t : list event) :
  forall a,
    let b := fold_left App.replay t a in
    App.status b = App.status a
    /\ App.error b = App.error a
    /\ App.isGeneratingImages b = App.isGeneratingImages a
    /\ App.result b
       = match App.result a with
         | Some prev =>
             Some (App.mkKitResult (App.markdown prev)
                                   (App.assets prev ++ announced t))
         | None => None
         end.
Proof.
  induction t as [|e t IH]; intros a.
  - cbv zeta. cbn [fold_left announced flat_map]. repeat split.
    destruct (App.result a) as [[md l]|]; [|reflexivity].
    cbn. rewrite app_nil_r. reflexivity.
  - cbv zeta. cbn [fold_left].
    destruct (IH (App.replay a e)) as (H1 & H2 & H3 & H4).
    cbv zeta in H1, H2, H3, H4. rewrite H1, H2, H3, H4.
    destruct e; cbn; repeat split;
      destruct (App.result a) as [[md l]|]; cbn;
      rewrite <- ?app_assoc; reflexivity.
Qed.

(** The same with other handlers running meanwhile, for each state
    variable that they leave alone. *)
Lemma replayAmid_fields (meanwhile : App.Interference) (t : list event) :
  forall n a,
    let b := App.replayAmid meanwhile n t a in
    ((forall m c, App.status (meanwhile m c) = App.status c) ->
     App.status b = App.status a)
    /\ ((forall m c, App.error (meanwhile m c) = App.error c) ->
        App.error b = App.error a)
    /\ ((forall m c, App.result (meanwhile m c) = App.result c) ->
        App.result b
        = match App.result a with
          | Some prev =>
              Some (App.mkKitResult (App.markdown prev)
                                    (App.assets prev ++ announced t))
          | None => None
          end).
Proof.
  induction t as [|e t IH]; intros n a.
  - cbv zeta. cbn [App.replayAmid announced flat_map]. repeat split.
    destruct (App.result a) as [[md l]|]; [|reflexivity].
    cbn. rewrite app_nil_r. reflexivity.
  - cbv zeta. cbn [App.replayAmid].
    destruct (App.awaited e) eqn:Ew.
    + destruct (IH (S n) (meanwhile n a)) as (H1 & H2 & H3).
      cbv zeta in H1, H2, H3.
      assert (Ha : announced (e :: t) = announced t)
        by (destruct e; try discriminate Ew; reflexivity).
      rewrite Ha.
      split; [|split]; intros Hm.
      * rewrite (H1 Hm). apply Hm.
      * rewrite (H2 Hm). apply Hm.
      * rewrite (H3 Hm), Hm. reflexivity.
    + destruct (IH n (App.replay a e)) as (H1 & H2 & H3).
      cbv zeta in H1, H2, H3.
      split; [|split]; intros Hm.
      * rewrite (H1 Hm). destruct e; reflexivity.
      * rewrite (H2 Hm). destruct e; reflexivity.
      * rewrite (H3 Hm).
        destruct e; try discriminate Ew; cbn;
          destruct (App.result a) as [[md l]|]; cbn;
          rewrite <- ?app_assoc; reflexivity.
Qed.

(** Once the user has gone back, the batch goes on over an empty result. *)
Lemma replayAmid_past (n : nat) (t : list event) :
  forall m a,
    (n < m)%nat ->
    App.replayAmid (App.goBackAt n) m t a = fold_left App.replay t a.
Proof.
  induction t as [|e t IH]; intros m a Hm; [reflexivity|].
  cbn [App.replayAmid fold_left].
  destruct (App.awaited e) eqn:Ew.
  - rewrite (IH (S m)) by lia. unfold App.goBackAt.
    destruct (Nat.eqb_spec m n) as [E|_]; [lia|].
    destruct e; try discriminate Ew; reflexivity.
  - apply IH, Hm.
Qed.

Lemma replayAmid_goBack (n : nat) (t : list event) :
  forall m a,
    (m <= n)%nat ->
    (n - m < count App.awaited t)%nat ->
    let b := App.replayAmid (App.goBackAt n) m t a in
    App.status b = App.IDLE /\ App.result b = None.
Proof.
  induction t as [|e t IH]; intros m a Hm Hn; [cbn in Hn; lia|].
  cbv zeta. cbn [App.replayAmid].
  unfold count in Hn. cbn [filter] in Hn.
  destruct (App.awaited e) eqn:Ew.
  - cbn [List.length] in Hn. fold (count App.awaited t) in Hn.
    change (App.goBackAt n m a)
      with (if Nat.eqb m n then App.resetApp a else a).
    destruct (Nat.eqb_spec m n) as [E|E].
    + subst m. rewrite replayAmid_past by lia.
      destruct (replay_fold t (App.resetApp a)) as (H1 & _ & _ & H4).
      cbv zeta in H1, H4. rewrite H1, H4. split; reflexivity.
    + apply IH; lia.
  - fold (count App.awaited t) in Hn. apply IH; assumption.
Qed.

(** X20.  [handleProcess] rejects its input before any remote call: in
    edit mode when the image or the instruction is missing, in kit mode
    when both the description and the image are missing, and when the
    quality flag is set and the key check answers that there is no
    personal key.  The state of the remote service and the status are
    then as they were and the error message is set.  When the key check
    itself fails, the handler is rejected with its error, having set
    nothing and called nothing.  In every other case, and whatever other
    handlers do meanwhile, it makes at least one remote call and is not
    rejected. *)
Theorem handleProcess_validation
    (meanwhile : App.Interference) (hasKey : JsError + bool)
    (a : App.State) (s : RemoteState) :
  let run := App.handleProcess remote meanwhile hasKey a s in
  let missingEdit :=
    App.isEditMode a
    && (negb (App.truthyOpt (App.imagePreview a))
        || negb (Js.truthy (App.inputText a))) in
  let missingKit :=
    negb (App.isEditMode a)
    && negb (Js.truthy (App.inputText a))
    && negb (App.truthyOpt (App.imagePreview a)) in
  let keyAsked :=
    negb (App.isEditMode a) && negb missingKit && App.useUltraQuality a in
  (missingEdit = true ->
   run = App.mkHandlerRun
           (App.setError (Some "Upload an image and type an instruction.") a)
           s [] None)
  /\ (missingKit = true ->
      run = App.mkHandlerRun
              (App.setError
                 (Some "Provide a vision description or upload an image.") a)
              s [] None)
  /\ (keyAsked = true -> hasKey = inr false ->
      run = App.mkHandlerRun
              (App.setError
                 (Some "Ultra Pro models require a personal API key.")
                 (App.setIsPermissionError true a))
              s [] None)
  /\ (keyAsked = true ->
      forall thrown, hasKey = inl thrown ->
                     run = App.mkHandlerRun a s [] (Some thrown))
  /\ (missingEdit || missingKit = false ->
      keyAsked = false \/ hasKey = inr true ->
      (1 <= count isCall (App.events run))%nat
      /\ App.uncaught run = None).
Proof.
  cbv zeta. unfold App.handleProcess.
  destruct (App.isEditMode a) eqn:Em; cbn [andb negb orb].
  - destruct (negb (App.truthyOpt (App.imagePreview a))
              || negb (Js.truthy (App.inputText a))) eqn:V.
    + repeat split; intros; try discriminate; reflexivity.
    + split; [discriminate|]. split; [discriminate|]. split; [discriminate|].
      split; [discriminate|].
      intros _ _.
      destruct (editLoop_run RemoteState remote
                  match App.imagePreview a with Some v => v | None => "" end
                  (App.inputText a) 6 0 [] s)
        as (H1 & _ & (ns & Hn1 & Hn2 & Hn3) & _).
      cbv zeta in H1, Hn3.
      fold (editImageWithGemini remote
              match App.imagePreview a with Some v => v | None => "" end
              (App.inputText a) s) in H1, Hn3.
      rewrite H1. cbn [App.events App.uncaught]. split; [|reflexivity].
      pose proof (callBlocks_length
                    match App.imagePreview a with Some v => v | None => "" end
                    (App.inputText a) 0 ns Hn2) as Hl.
      rewrite <- Hn3 in Hl. rewrite calls_count in Hl. lia.
  - destruct (negb (Js.truthy (App.inputText a))
              && negb (App.truthyOpt (App.imagePreview a))) eqn:V;
      cbn [andb negb orb].
    + repeat split; intros; try discriminate; reflexivity.
    + split; [discriminate|]. split; [discriminate|].
      split; [intros -> ->; reflexivity|].
      split; [intros -> thrown ->; reflexivity|].
      intros _ Hkey.
      assert (Hgo : (if App.useUltraQuality a then hasKey else inr true)
                    = inr true).
      { destruct Hkey as [-> | ->];
          [reflexivity | destruct (App.useUltraQuality a); reflexivity]. }
      rewrite Hgo.
      set (k := generateKit remote (App.inputText a)
                  (App.productTypeValue (App.productType a))
                  (mkKitOptions (App.orUndefined (App.imagePreview a))
                                (App.thinkingMode a) (App.fastMode a)) s).
      destruct (textCall_run RemoteState remote
                  (kitRequest (App.inputText a)
                     (App.productTypeValue (App.productType a))
                     (mkKitOptions (App.orUndefined (App.imagePreview a))
                                   (App.thinkingMode a) (App.fastMode a)))
                  3 5000 "Error generating the kit content." s
                  ltac:(lia) eq_refl)
        as (_ & _ & _ & _ & _ & Hc & _).
      cbv zeta in Hc.
      change (1 <= Z.of_nat (count isCall (tr k)) <= 3) in Hc.
      destruct (res k) as [err|md] eqn:Ek.
      * cbn [App.events App.uncaught]. split; [lia | reflexivity].
      * set (g := generatePreviewImages remote (extractPrompts md)
                    (mkPreviewOptions (App.useUltraQuality a)
                       (Some (App.imageSize a)) (Some (App.aspectRatio a)))
                    true true (st k)).
        destruct (res g) as [err|out];
          cbn [App.events App.uncaught]; rewrite count_app;
          (split; [lia | reflexivity]).
Qed.

Lemma truthy_nonempty v : Js.truthy v = true <-> v <> "".
Proof.
  destruct v; cbn; split; intros H; try reflexivity; try discriminate.
  exfalso. apply H. reflexivity.
Qed.

(** The kit branch is entered. *)
Lemma handleProcess_kit_branch
    (meanwhile : App.Interference) (hasKey : JsError + bool)
    (a : App.State) (s : RemoteState) :
  App.isEditMode a = false ->
  Js.truthy (App.inputText a) = true
  \/ App.truthyOpt (App.imagePreview a) = true ->
  App.useUltraQuality a = false \/ hasKey = inr true ->
  let a1 := App.setIsGeneratingImages false
              (App.setError None (App.setStatus App.LOADING a)) in
  let k := generateKit remote (App.inputText a)
             (App.productTypeValue (App.productType a))
             (mkKitOptions (App.orUndefined (App.imagePreview a))
                           (App.thinkingMode a) (App.fastMode a)) s in
  App.handleProcess remote meanwhile hasKey a s
  = match res k with
    | inl err =>
        App.mkHandlerRun (App.setStatus App.ERROR (App.setError (message err) a1))
                         (st k) (tr k) None
    | inr md =>
        let a2 :=
          App.setIsGeneratingImages true
            (App.setStatus App.SUCCESS
               (App.setResult (Some (App.mkKitResult md [])) a1)) in
        let g := generatePreviewImages remote (extractPrompts md)
                   (mkPreviewOptions (App.useUltraQuality a)
                                     (Some (App.imageSize a))
                                     (Some (App.aspectRatio a)))
                   true true (st k) in
        let a3 := App.replayAmid meanwhile 0 (tr g) a2 in
        match res g with
        | inr _ =>
            App.mkHandlerRun (App.setIsGeneratingImages false a3) (st g)
                             (tr k ++ tr g) None
        | inl err =>
            App.mkHandlerRun
              (App.setStatus App.ERROR (App.setError (message err) a3))
              (st g) (tr k ++ tr g) None
        end
    end.
Proof.
  intros Em Hin Hkey. cbv zeta. unfold App.handleProcess. rewrite Em.
  replace (negb (Js.truthy (App.inputText a))
           && negb (App.truthyOpt (App.imagePreview a))) with false
    by (destruct Hin as [-> | ->]; [reflexivity | symmetry; apply andb_false_r]).
  replace (if App.useUltraQuality a then hasKey else inr true)
    with (@inr JsError bool true)
    by (destruct Hkey as [-> | ->];
        [reflexivity | destruct (App.useUltraQuality a); reflexivity]).
  reflexivity.
Qed.


(** The run of the kit branch when the kit call returns a document,
    whatever other handlers do during the batch. *)
Lemma handleProcess_batch
    (meanwhile : App.Interference) (hasKey : JsError + bool)
    (a : App.State) (s : RemoteState) (md : string) :
  App.isEditMode a = false ->
  Js.truthy (App.inputText a) = true
  \/ App.truthyOpt (App.imagePreview a) = true ->
  App.useUltraQuality a = false \/ hasKey = inr true ->
  let k := generateKit remote (App.inputText a)
             (App.productTypeValue (App.productType a))
             (mkKitOptions (App.orUndefined (App.imagePreview a))
                           (App.thinkingMode a) (App.fastMode a)) s in
  res k = inr md ->
  let g := generatePreviewImages remote (extractPrompts md)
             (mkPreviewOptions (App.useUltraQuality a)
                               (Some (App.imageSize a))
                               (Some (App.aspectRatio a)))
             true true (st k) in
  let a2 := App.setIsGeneratingImages true
              (App.setStatus App.SUCCESS
                 (App.setResult (Some (App.mkKitResult md []))
                    (App.setIsGeneratingImages false
                       (App.setError None (App.setStatus App.LOADING a))))) in
  exists out,
    res g = inr out
    /\ announced (tr g) = out
    /\ (List.length out <= 6)%nat
    /\ App.handleProcess remote meanwhile hasKey a s
       = App.mkHandlerRun
           (App.setIsGeneratingImages false
              (App.replayAmid meanwhile 0 (tr g) a2))
           (st g) (tr k ++ tr g) None
    /\ (count isCall (tr k ++ tr g) <= 15)%nat
    /\ (count isPause (tr g) <= 5)%nat.
Proof.
  intros Em Hin Hkey k Hk g a2.
  set (options := mkPreviewOptions (App.useUltraQuality a)
                    (Some (App.imageSize a)) (Some (App.aspectRatio a))) in *.
  set (prompts := extractPrompts md) in *.
  assert (Hp : (List.length prompts <= 6)%nat).
  { unfold prompts, extractPrompts.
    destruct (fold_left scanLine (Js.split Js.nl md) ([], false)).
    rewrite length_firstn. lia. }
  destruct (previewLoop_run RemoteState remote prompts options true true
              (List.length prompts) 0 [] (st k) eq_refl)
    as (G1 & G2 & _ & G4 & (ns & Hn1 & Hn2 & Hn3)).
  cbv zeta in G1, G2, G4, Hn3.
  fold (generatePreviewImages remote prompts options true true (st k))
    in G1, G2, G4, Hn3.
  fold g in G1, G2, G4, Hn3. cbn [app] in G1.
  set (out := deliveredFrom prompts 0
                (previewOutcomes remote options true prompts
                   (List.length prompts) 0 (st k))) in *.
  destruct (textCall_run RemoteState remote
              (kitRequest (App.inputText a)
                 (App.productTypeValue (App.productType a))
                 (mkKitOptions (App.orUndefined (App.imagePreview a))
                               (App.thinkingMode a) (App.fastMode a)))
              3 5000 "Error generating the kit content." s ltac:(lia) eq_refl)
    as (_ & _ & _ & _ & _ & Hc & _).
  cbv zeta in Hc. change (1 <= Z.of_nat (count isCall (tr k)) <= 3) in Hc.
  pose proof (previewBlocks_length prompts options 0 ns Hn2) as Hb.
  rewrite <- Hn3, calls_count in Hb.
  pose proof (deliveredFrom_length prompts 0
                (previewOutcomes remote options true prompts
                   (List.length prompts) 0 (st k))) as Hl.
  rewrite (previewOutcomes_length RemoteState remote prompts options true) in Hl.
  fold out in Hl.
  exists out.
  split; [exact G1|]. split; [exact G2|]. split; [lia|].
  split.
  { rewrite (handleProcess_kit_branch _ _ _ _ Em Hin Hkey).
    cbv zeta. fold k. rewrite Hk. fold prompts options g a2. rewrite G1.
    reflexivity. }
  split; [rewrite count_app; lia | lia].
Qed.

(** X22.  Kit mode, input accepted, and the kit call returns a document:
    [handleProcess] asks for the images of the prompts extracted from the
    document.  Whatever other handlers do while the batch runs, the events
    are those of the kit call and of the batch (at most 15 remote calls:
    three for the kit and twelve for the images, with at most five fixed
    delays between the images), the handler is not rejected and it ends by
    marking the batch as over.  The status SUCCESS, the absence of error,
    and the result (the document with exactly the assets that
    [generatePreviewImages] returned, at most six) are what it ends with
    as far as the other handlers have left the status, the error and the
    result alone. *)
Theorem handleProcess_kit_success
    (meanwhile : App.Interference) (hasKey : JsError + bool)
    (a : App.State) (s : RemoteState) (md : string) :
  App.isEditMode a = false ->
  Js.truthy (App.inputText a) = true
  \/ App.truthyOpt (App.imagePreview a) = true ->
  App.useUltraQuality a = false \/ hasKey = inr true ->
  let k := generateKit remote (App.inputText a)
             (App.productTypeValue (App.productType a))
             (mkKitOptions (App.orUndefined (App.imagePreview a))
                           (App.thinkingMode a) (App.fastMode a)) s in
  res k = inr md ->
  let g := generatePreviewImages remote (extractPrompts md)
             (mkPreviewOptions (App.useUltraQuality a)
                               (Some (App.imageSize a))
                               (Some (App.aspectRatio a)))
             true true (st k) in
  let run := App.handleProcess remote meanwhile hasKey a s in
  exists out,
    res g = inr out
    /\ (List.length out <= 6)%nat
    /\ App.events run = tr k ++ tr g
    /\ App.remoteState run = st g
    /\ App.uncaught run = None
    /\ (count isCall (App.events run) <= 15)%nat
    /\ (count isPause (tr g) <= 5)%nat
    /\ App.isGeneratingImages (App.app run) = false
    /\ ((forall n b, App.status (meanwhile n b) = App.status b) ->
        App.status (App.app run) = App.SUCCESS)
    /\ ((forall n b, App.error (meanwhile n b) = App.error b) ->
        App.error (App.app run) = None)
    /\ ((forall n b, App.result (meanwhile n b) = App.result b) ->
        App.result (App.app run) = Some (App.mkKitResult md out)).
Proof.
  intros Em Hin Hkey k Hk g run.
  destruct (handleProcess_batch meanwhile hasKey a s md Em Hin Hkey Hk)
    as (out & G1 & G2 & Hl & Hrun & Hc & Hp).
  fold k g in G1, G2, Hrun, Hc, Hp. fold run in Hrun.
  match type of Hrun with
  | _ = App.mkHandlerRun
          (App.setIsGeneratingImages false (App.replayAmid _ _ _ ?x)) _ _ _ =>
      set (a2 := x) in *
  end.
  destruct (replayAmid_fields meanwhile (tr g) 0 a2) as (R1 & R2 & R3).
  cbv zeta in R1, R2, R3.
  exists out. rewrite Hrun.
  cbn [App.app App.events App.remoteState App.uncaught].
  split; [exact G1|]. split; [exact Hl|].
  split; [reflexivity|]. split; [reflexivity|]. split; [reflexivity|].
  split; [exact Hc|]. split; [exact Hp|]. split; [reflexivity|].
  split; [|split]; intros Hm.
  - cbn [App.setIsGeneratingImages App.status]. rewrite (R1 Hm). reflexivity.
  - cbn [App.setIsGeneratingImages App.error]. rewrite (R2 Hm). reflexivity.
  - cbn [App.setIsGeneratingImages App.result]. rewrite (R3 Hm), G2.
    reflexivity.
Qed.

(** X23.  Edit mode with an image and an instruction: [handleProcess]
    never ends with the status ERROR, whatever the remote service answers.
    It ends with the status SUCCESS and, as its result, the assets that
    [editImageWithGemini] returned, at most six and possibly none, under a
    heading that quotes the instruction. *)
Theorem handleProcess_edit
    (meanwhile : App.Interference) (hasKey : JsError + bool)
    (a : App.State) (s : RemoteState) (img : string) :
  App.isEditMode a = true ->
  App.imagePreview a = Some img -> img <> "" ->
  App.inputText a <> "" ->
  let r := editImageWithGemini remote img (App.inputText a) s in
  let run := App.handleProcess remote meanwhile hasKey a s in
  exists edited,
    res r = inr edited
    /\ App.status (App.app run) = App.SUCCESS
    /\ App.result (App.app run)
       = Some (App.mkKitResult
                 ("**AI Edit Results**"
                  ++ String Js.nl (String Js.nl "Instruction: ")
                  ++ App.inputText a) edited)
    /\ App.error (App.app run) = App.error a
    /\ (List.length edited <= 6)%nat
    /\ App.events run = tr r
    /\ App.remoteState run = st r.
Proof.
  intros Em Himg Hne Htext r run.
  destruct (editLoop_run RemoteState remote img (App.inputText a) 6 0 [] s)
    as (H1 & _).
  cbv zeta in H1.
  fold (editImageWithGemini remote img (App.inputText a) s) in H1.
  fold r in H1. cbn [app] in H1.
  eexists. split; [exact H1|].
  subst run. unfold App.handleProcess. rewrite Em, Himg.
  cbn [App.truthyOpt].
  rewrite (proj2 (truthy_nonempty img) Hne),
    (proj2 (truthy_nonempty (App.inputText a)) Htext).
  cbn [negb orb]. fold r. rewrite H1.
  cbn [App.app App.events App.remoteState].
  repeat split.
  rewrite delivered_length.
  etransitivity; [apply filter_length_le|].
  rewrite editOutcomes_length. reflexivity.
Qed.


(** X25.  After a click on Refine ([onEditImage]) the instruction is empty:
    [handleProcess] run at once makes no remote call and asks for an image
    and an instruction, whatever the state was before. *)
Theorem handleProcess_after_refine
    (meanwhile : App.Interference) (hasKey : JsError + bool)
    (asset : GeneratedAsset) (a : App.State) (s : RemoteState) :
  let b := App.onEditImage asset a in
  App.handleProcess remote meanwhile hasKey b s
  = App.mkHandlerRun
      (App.setError (Some "Upload an image and type an instruction.") b) s []
      None.
Proof.
  cbv zeta. unfold App.handleProcess. cbn [App.onEditImage App.setStatus
    App.setIsEditMode App.setInputText App.setImagePreview App.isEditMode
    App.imagePreview App.inputText Js.truthy negb].
  rewrite orb_true_r. reflexivity.
Qed.

(** X26.  Going back does not stop the batch.  Kit mode, input accepted,
    the kit call returns a document, and the user clicks Go Back while the
    batch is suspended in a remote call or in a wait: the batch makes the
    remote calls and the waits that it would have made anyway, but every
    asset it delivers from then on is dropped, and the run ends with no
    result and the status IDLE that the click has set. *)
Theorem handleProcess_go_back
    (n : nat) (hasKey : JsError + bool)
    (a : App.State) (s : RemoteState) (md : string) :
  App.isEditMode a = false ->
  Js.truthy (App.inputText a) = true
  \/ App.truthyOpt (App.imagePreview a) = true ->
  App.useUltraQuality a = false \/ hasKey = inr true ->
  let k := generateKit remote (App.inputText a)
             (App.productTypeValue (App.productType a))
             (mkKitOptions (App.orUndefined (App.imagePreview a))
                           (App.thinkingMode a) (App.fastMode a)) s in
  res k = inr md ->
  let g := generatePreviewImages remote (extractPrompts md)
             (mkPreviewOptions (App.useUltraQuality a)
                               (Some (App.imageSize a))
                               (Some (App.aspectRatio a)))
             true true (st k) in
  (n < count App.awaited (tr g))%nat ->
  let run := App.handleProcess remote (App.goBackAt n) hasKey a s in
  App.status (App.app run) = App.IDLE
  /\ App.result (App.app run) = None
  /\ App.isGeneratingImages (App.app run) = false
  /\ App.events run
     = App.events (App.handleProcess remote App.quiet hasKey a s)
  /\ App.remoteState run
     = App.remoteState (App.handleProcess remote App.quiet hasKey a s).
Proof.
  intros Em Hin Hkey k Hk g Hn run.
  destruct (handleProcess_batch (App.goBackAt n) hasKey a s md Em Hin Hkey Hk)
    as (out & _ & _ & _ & Hrun & _).
  destruct (handleProcess_batch App.quiet hasKey a s md Em Hin Hkey Hk)
    as (out' & _ & _ & _ & Hquiet & _).
  fold k g in Hrun, Hquiet. fold run in Hrun.
  rewrite Hquiet, Hrun.
  cbn [App.app App.events App.remoteState].
  match goal with
  | |- context [App.replayAmid _ _ _ ?x] => set (a2 := x)
  end.
  destruct (replayAmid_goBack n (tr g) 0 a2 ltac:(lia) ltac:(lia))
    as (H1 & H2).
  cbv zeta in H1, H2.
  cbn [App.setIsGeneratingImages App.status App.result
       App.isGeneratingImages].
  rewrite H1, H2. repeat split.
Qed.

End Shell.

Lemma handleProcess_validation_witness :
  let remote := Demo.constant (inr Demo.emptyResponse) in
  App.handleProcess remote App.quiet (inr false) App.initial 0%nat
  = App.mkHandlerRun
      (App.setError (Some "Provide a vision description or upload an image.")
                    App.initial)
      0%nat [] None.
Proof.
  intros remote.
  apply (proj1 (proj2 (handleProcess_validation nat remote App.quiet
                         (inr false) App.initial 0%nat))).
  reflexivity.
Defined.


Lemma handleProcess_kit_success_witness :
  let md := "| VARIATION | IMAGE PROMPT |
| 1 | a cat |
| 2 | a dog |" in
  let remote := Demo.scripted [inr (Demo.textResponse md);
                               inr (Demo.imageResponse "A");
                               inr (Demo.imageResponse "B")] in
  let a := App.setInputText "pets" App.initial in
  let k := generateKit remote (App.inputText a)
             (App.productTypeValue (App.productType a))
             (mkKitOptions (App.orUndefined (App.imagePreview a))
                           (App.thinkingMode a) (App.fastMode a)) 0%nat in
  let g := generatePreviewImages remote (extractPrompts md)
             (mkPreviewOptions (App.useUltraQuality a)
                               (Some (App.imageSize a))
                               (Some (App.aspectRatio a)))
             true true (st k) in
  let run := App.handleProcess remote App.quiet (inr false) a 0%nat in
  exists out,
    res g = inr out
    /\ (List.length out <= 6)%nat
    /\ App.events run = tr k ++ tr g
    /\ App.remoteState run = st g
    /\ App.uncaught run = None
    /\ (count isCall (App.events run) <= 15)%nat
    /\ (count isPause (tr g) <= 5)%nat
    /\ App.isGeneratingImages (App.app run) = false
    /\ ((forall n b, App.status (App.quiet n b) = App.status b) ->
        App.status (App.app run) = App.SUCCESS)
    /\ ((forall n b, App.error (App.quiet n b) = App.error b) ->
        App.error (App.app run) = None)
    /\ ((forall n b, App.result (App.quiet n b) = App.result b) ->
        App.result (App.app run) = Some (App.mkKitResult md out)).
Proof.
  intros md remote a.
  apply (handleProcess_kit_success nat remote App.quiet (inr false) a 0%nat md).
  - reflexivity.
  - left. reflexivity.
  - left. reflexivity.
  - reflexivity.
Defined.

Lemma handleProcess_edit_witness :
  let img := "data:image/jpeg;base64,AAAA" in
  let remote := Demo.constant (inr (Demo.imageResponse "A")) in
  let a := App.setInputText "blue"
             (App.setImagePreview (Some img)
                (App.setIsEditMode true App.initial)) in
  let r := editImageWithGemini remote img (App.inputText a) 0%nat in
  let run := App.handleProcess remote App.quiet (inr false) a 0%nat in
  exists edited,
    res r = inr edited
    /\ App.status (App.app run) = App.SUCCESS
    /\ App.result (App.app run)
       = Some (App.mkKitResult
                 ("**AI Edit Results**"
                  ++ String Js.nl (String Js.nl "Instruction: ")
                  ++ App.inputText a) edited)
    /\ App.error (App.app run) = App.error a
    /\ (List.length edited <= 6)%nat
    /\ App.events run = tr r
    /\ App.remoteState run = st r.
Proof.
  intros img remote a.
  apply (handleProcess_edit nat remote App.quiet (inr false) a 0%nat img).
  - reflexivity.
  - reflexivity.
  - discriminate.
  - discriminate.
Defined.


Lemma handleProcess_go_back_witness :
  let md := "| VARIATION | IMAGE PROMPT |
| 1 | a cat |
| 2 | a dog |" in
  let remote := Demo.scripted [inr (Demo.textResponse md);
                               inr (Demo.imageResponse "A");
                               inr (Demo.imageResponse "B")] in
  let a := App.setInputText "pets" App.initial in
  let run := App.handleProcess remote (App.goBackAt 1) (inr false) a 0%nat in
  App.status (App.app run) = App.IDLE
  /\ App.result (App.app run) = None
  /\ App.isGeneratingImages (App.app run) = false
  /\ App.events run
     = App.events (App.handleProcess remote App.quiet (inr false) a 0%nat)
  /\ App.remoteState run
     = App.remoteState (App.handleProcess remote App.quiet (inr false) a 0%nat).
Proof.
  intros md remote a.
  apply (handleProcess_go_back nat remote 1 (inr false) a 0%nat md).
  - reflexivity.
  - left. reflexivity.
  - left. reflexivity.
  - reflexivity.
  - vm_compute. lia.
Defined.
